(** * The order subsystem of the food-delivery admin API

    A shallow embedding of [src/routes/orders.js] over the tables that
    [supabase/migrations/20251102002617_create_food_delivery_tables.sql]
    declares.  A route handler is a function from the store to an outcome and
    a new store; a Supabase call is one SQL statement, atomic on its own,
    and nothing ties two statements of a handler together.

    Conventions.
    - [uuid] values are drawn from a supply kept in the store
      ([gen_random_uuid()]); [now()] is an argument of the handlers that
      write.
    - [numeric(10,2)] values are counted in hundredths, as integers; an
      amount of a body of [POST /] as it is sent is a decimal of any scale
      ([Decimal]), which the column rounds to hundredths ([POST_json]).
    - A JavaScript number is an IEEE 754 binary64 value ([PrimFloat.float]).
    - The order of the rows of a table in the store is the order in which a
      query without [ORDER BY] hands them back; SQL leaves it open.
    - The client is taken to pass row-level security; request bodies are
      typed, so keys that name no column and values of a wrong JSON type are
      outside the model; a body names none of the columns [id],
      [created_at], [updated_at], which are left to their defaults and to
      the trigger, and a [restaurant_id] in a query string is a uuid. *)

From Stdlib Require Import ZArith NArith List String Bool Lia Permutation.
From Stdlib Require Import Sorted.
From Stdlib Require Import PrimFloat Uint63.
Import ListNotations.

Set Implicit Arguments.

(* ------------------------------------------------------------------ *)
(** ** Values *)

Definition uuid := N.
Definition timestamptz := N.

(** A [numeric(10,2)] value, in hundredths. *)
Definition numeric := Z.

Bind Scope N_scope with uuid timestamptz.
Bind Scope Z_scope with numeric.

(** An amount as the request to the database carries it, which is the
    number of the JSON body as JavaScript writes it again: the decimal
    [digits * 10 ^ (- scale)], so 12.999 is 12999 at scale 3. *)
Record Decimal := { digits : Z; scale : nat }.

(** The value a [numeric(10,2)] column takes from a decimal: the nearest
    hundredth, a tie going away from zero. *)
Definition numeric_10_2 (x : Decimal) : numeric :=
  let n := (digits x * 100)%Z in
  let d := (10 ^ Z.of_nat (scale x))%Z in
  (Z.sgn n * ((2 * Z.abs n + d) / (2 * d)))%Z.

(** A key of a JSON body read into a column: missing, [null], or a value. *)
Inductive field (A : Type) : Type :=
| Absent
| Null
| Value (a : A).
Arguments Absent {A}.
Arguments Null {A}.

(** The values [req.body.status] is tested on in [PATCH /:id/status]
    (JSON numbers, arrays and objects are left out). *)
Inductive JsValue : Type :=
| JsUndefined
| JsNull
| JsBool (b : bool)
| JsString (s : string).

(** [!v] is [negb (truthy v)]. *)
Definition truthy (v : JsValue) : bool :=
  match v with
  | JsUndefined | JsNull => false
  | JsBool b => b
  | JsString s => negb (String.eqb s "")
  end.

(** What a truthy JSON value becomes in a [text] column. *)
Definition text_of (v : JsValue) : field string :=
  match v with
  | JsUndefined => Absent
  | JsNull => Null
  | JsBool true => Value "true"%string
  | JsBool false => Value "false"%string
  | JsString s => Value s
  end.

(** [parseFloat(x)] for [x] the JSON number of a [numeric(10,2)] column: the
    binary64 value nearest to the decimal, which is the correctly rounded
    quotient of the hundredths by 100 (both are exact in binary64). *)
Definition parseFloat (x : numeric) : float :=
  let q (n : Z) := PrimFloat.div (PrimFloat.of_uint63 (Uint63.of_Z n))
                                 (PrimFloat.of_uint63 100%uint63) in
  if (x <? 0)%Z then PrimFloat.opp (q (- x)%Z) else q x.

(* ------------------------------------------------------------------ *)
(** ** Rows *)

Module Restaurant.
Record t := { id : uuid; name : string }.
End Restaurant.

Module MenuItem.
Record t := { id : uuid; name : string }.
End MenuItem.

Module Order.
Record t := {
    id : uuid;
    restaurant_id : uuid;
    customer_name : string;
    customer_phone : string;
    customer_address : string;
    status : option string;
    total_amount : numeric;
    delivery_fee : option numeric;
    payment_method : option string;
    payment_status : option string;
    notes : option string;
    created_at : timestamptz;
    updated_at : timestamptz
}.
End Order.

Module OrderItem.
Record t := {
    id : uuid;
    order_id : uuid;
    menu_item_id : uuid;
    quantity : Z;
    price : numeric;
    subtotal : numeric
}.
End OrderItem.

(** The columns of [orders] a request body names; a body that names [id],
    [created_at] or [updated_at] is outside the model. *)
Record OrderData := {
  d_restaurant_id : field uuid;
  d_customer_name : field string;
  d_customer_phone : field string;
  d_customer_address : field string;
  d_status : field string;
  d_total_amount : field numeric;
  d_delivery_fee : field numeric;
  d_payment_method : field string;
  d_payment_status : field string;
  d_notes : field string
}.

(** An element of [req.body.items]. *)
Record ItemData := {
  i_menu_item_id : option uuid;
  i_quantity : option Z;
  i_price : option numeric
}.

(** The header of a body of [POST /] as it is sent: the amounts are JSON
    numbers of any number of decimals. *)
Record OrderJson := {
  j_restaurant_id : field uuid;
  j_customer_name : field string;
  j_customer_phone : field string;
  j_customer_address : field string;
  j_status : field string;
  j_total_amount : field Decimal;
  j_delivery_fee : field Decimal;
  j_payment_method : field string;
  j_payment_status : field string;
  j_notes : field string
}.

(** An element of [req.body.items] as it is sent. *)
Record ItemJson := {
  k_menu_item_id : option uuid;
  k_quantity : option Z;
  k_price : option Decimal
}.

(** The row [POST /] builds for each item. *)
Record OrderItemInsert := {
  n_order_id : uuid;
  n_menu_item_id : option uuid;
  n_quantity : option Z;
  n_price : option numeric
}.

Record Store := {
  restaurants : list Restaurant.t;
  menu_items : list MenuItem.t;
  orders : list Order.t;
  order_items : list OrderItem.t;
  uuid_supply : uuid
}.

(* ------------------------------------------------------------------ *)
(** ** Errors of the storage layer *)

Inductive PgError : Type :=
| numeric_value_out_of_range                  (* 22003 *)
| not_null_violation (column : string)        (* 23502 *)
| foreign_key_violation (constraint : string) (* 23503 *)
| check_violation (constraint : string)       (* 23514 *)
| PGRST116.                                   (* .single(): not exactly one row *)

(** Modelled from the spec: the error taxonomy of section 7.  The handlers
    forward storage errors with [next(error)] to
    [src/middleware/errorHandler.js], which is not among the sources; the
    spec names a missing or malformed input ValidationError, a dangling
    foreign key ReferenceError and a missing row NotFound. *)
Inductive ErrorKind : Type :=
| ValidationError
| ReferenceError
| NotFound.

Definition error_kind (e : PgError) : ErrorKind :=
  match e with
  | numeric_value_out_of_range => ValidationError
  | not_null_violation _ => ValidationError
  | check_violation _ => ValidationError
  | foreign_key_violation _ => ReferenceError
  | PGRST116 => NotFound
  end.

(* ------------------------------------------------------------------ *)
(** ** Statements and handlers *)

(** One SQL statement: it fails and changes nothing, or it returns a value
    and a new store. *)
Definition Statement (A : Type) : Type := Store -> PgError + (A * Store).

(** The body of a [try] block: statements in sequence; a [throw] ends the
    block and keeps the store the earlier statements left. *)
Definition Block (A : Type) : Type := Store -> (PgError + A) * Store.

Definition ret {A} (a : A) : Block A := fun s => (inr a, s).

Definition throw {A} (e : PgError) : Block A := fun s => (inl e, s).

Definition bind {A B} (c : Block A) (k : A -> Block B) : Block B :=
  fun s =>
    match c s with
    | (inl e, s') => (inl e, s')
    | (inr a, s') => k a s'
    end.

(** [const { data, error } = await stmt; if (error) throw error;] *)
Definition await {A} (stmt : Statement A) : Block A :=
  fun s =>
    match stmt s with
    | inl error => throw error s
    | inr (data, s') => (inr data, s')
    end.

Declare Scope block_scope.
Delimit Scope block_scope with block.
Notation "x <- c ;; k" := (bind c (fun x => k))
  (at level 61, c at next level, right associativity) : block_scope.

(** The response envelope. *)
Inductive Body (A : Type) : Type :=
| success_data (data : A)            (* { success: true, data } *)
| success_message (message : string) (* { success: true, message } *)
| failure (error : string).          (* { success: false, error } *)
Arguments success_message {A}.
Arguments failure {A}.

(** What a handler ends with: a response, or [next(error)]. *)
Inductive Outcome (A : Type) : Type :=
| json (code : N) (body : Body A)
| next (error : PgError).
Arguments next {A}.

(** [try { ... } catch (error) { next(error); }] *)
Definition try_catch {A} (b : Block (Outcome A)) (s : Store) : Outcome A * Store :=
  match b s with
  | (inl e, s') => (next e, s')
  | (inr o, s') => (o, s')
  end.

(** The kind of failure an outcome stands for, if it is one: the status code
    of a failure envelope, or the kind of the forwarded error. *)
Definition failure_kind {A} (o : Outcome A) : option ErrorKind :=
  match o with
  | json 400%N (failure _) => Some ValidationError
  | json 404%N (failure _) => Some NotFound
  | json _ _ => None
  | next e => Some (error_kind e)
  end.

(* ------------------------------------------------------------------ *)
(** ** Column constraints *)

(** Constraint checking inside one statement. *)
Definition and_then {A B} (c : PgError + A) (k : A -> PgError + B) : PgError + B :=
  match c with
  | inl e => inl e
  | inr a => k a
  end.

Declare Scope check_scope.
Delimit Scope check_scope with check.
Notation "x <~ c ;; k" := (and_then c (fun x => k))
  (at level 61, c at next level, right associativity) : check_scope.

Definition check (holds : bool) (e : PgError) : PgError + unit :=
  if holds then inr tt else inl e.

Definition not_null {A} (column : string) (v : option A) : PgError + A :=
  match v with
  | Some a => inr a
  | None => inl (not_null_violation column)
  end.

(** [numeric(10,2)]: at most eight digits before the point. *)
Definition fits_numeric_10_2 (v : option numeric) : bool :=
  match v with
  | None => true
  | Some x => (Z.abs x <? 10 ^ 10)%Z
  end.

(** [integer]: 32 bits, signed. *)
Definition fits_integer (v : option Z) : bool :=
  match v with
  | None => true
  | Some x => ((- 2 ^ 31 <=? x) && (x <? 2 ^ 31))%Z
  end.

(** [CHECK (col IN (...))]: a [NULL] passes. *)
Definition is_in (allowed : list string) (v : option string) : bool :=
  match v with
  | None => true
  | Some s => existsb (String.eqb s) allowed
  end.

Definition status_values : list string :=
  ["pending"; "preparing"; "delivered"; "cancelled"]%string.
Definition payment_method_values : list string :=
  ["cash"; "card"; "online"]%string.
Definition payment_status_values : list string :=
  ["pending"; "paid"; "refunded"]%string.

(** The value a column gets from a body: on insert a missing key takes the
    default, on update it keeps the old value. *)
Definition column {A} (otherwise : option A) (f : field A) : option A :=
  match f with
  | Absent => otherwise
  | Null => None
  | Value a => Some a
  end.

(** A candidate row of [orders], before the constraints are checked. *)
Record OrderColumns := {
  c_restaurant_id : option uuid;
  c_customer_name : option string;
  c_customer_phone : option string;
  c_customer_address : option string;
  c_status : option string;
  c_total_amount : option numeric;
  c_delivery_fee : option numeric;
  c_payment_method : option string;
  c_payment_status : option string;
  c_notes : option string
}.

(** [INSERT]: the declared defaults. *)
Definition insert_columns (d : OrderData) : OrderColumns := {|
  c_restaurant_id := column None (d_restaurant_id d);
  c_customer_name := column None (d_customer_name d);
  c_customer_phone := column None (d_customer_phone d);
  c_customer_address := column None (d_customer_address d);
  c_status := column (Some "pending"%string) (d_status d);
  c_total_amount := column None (d_total_amount d);
  c_delivery_fee := column (Some 0%Z) (d_delivery_fee d);
  c_payment_method := column (Some "cash"%string) (d_payment_method d);
  c_payment_status := column (Some "pending"%string) (d_payment_status d);
  c_notes := column None (d_notes d)
|}.

(** [UPDATE ... SET]: the old row under the body. *)
Definition update_columns (o : Order.t) (d : OrderData) : OrderColumns := {|
  c_restaurant_id := column (Some (Order.restaurant_id o)) (d_restaurant_id d);
  c_customer_name := column (Some (Order.customer_name o)) (d_customer_name d);
  c_customer_phone := column (Some (Order.customer_phone o)) (d_customer_phone d);
  c_customer_address := column (Some (Order.customer_address o)) (d_customer_address d);
  c_status := column (Order.status o) (d_status d);
  c_total_amount := column (Some (Order.total_amount o)) (d_total_amount d);
  c_delivery_fee := column (Order.delivery_fee o) (d_delivery_fee d);
  c_payment_method := column (Order.payment_method o) (d_payment_method d);
  c_payment_status := column (Order.payment_status o) (d_payment_status d);
  c_notes := column (Order.notes o) (d_notes d)
|}.

Local Open Scope check_scope.

(** The row constraints of [orders] (lines 116-130 of the migration): the
    column types, then [NOT NULL] in column order, then the [CHECK]s. *)
Definition orders_row (id : uuid) (created updated : timestamptz)
    (c : OrderColumns) : PgError + Order.t :=
  _ <~ check (fits_numeric_10_2 (c_total_amount c)
              && fits_numeric_10_2 (c_delivery_fee c))
             numeric_value_out_of_range ;;
  restaurant <~ not_null "restaurant_id" (c_restaurant_id c) ;;
  name <~ not_null "customer_name" (c_customer_name c) ;;
  phone <~ not_null "customer_phone" (c_customer_phone c) ;;
  address <~ not_null "customer_address" (c_customer_address c) ;;
  total <~ not_null "total_amount" (c_total_amount c) ;;
  _ <~ check (is_in payment_method_values (c_payment_method c))
             (check_violation "orders_payment_method_check") ;;
  _ <~ check (is_in payment_status_values (c_payment_status c))
             (check_violation "orders_payment_status_check") ;;
  _ <~ check (is_in status_values (c_status c))
             (check_violation "orders_status_check") ;;
  _ <~ check (0 <=? total)%Z (check_violation "orders_total_amount_check") ;;
  inr {| Order.id := id;
         Order.restaurant_id := restaurant;
         Order.customer_name := name;
         Order.customer_phone := phone;
         Order.customer_address := address;
         Order.status := c_status c;
         Order.total_amount := total;
         Order.delivery_fee := c_delivery_fee c;
         Order.payment_method := c_payment_method c;
         Order.payment_status := c_payment_status c;
         Order.notes := c_notes c;
         Order.created_at := created;
         Order.updated_at := updated |}.

(** The row constraints of [order_items] (lines 133-140): the column types,
    the generated [subtotal], then [NOT NULL], then the [CHECK]s. *)
Definition order_items_row (id : uuid) (r : OrderItemInsert)
    : PgError + OrderItem.t :=
  _ <~ check (fits_integer (n_quantity r) && fits_numeric_10_2 (n_price r))
             numeric_value_out_of_range ;;
  let subtotal :=
    match n_quantity r, n_price r with
    | Some q, Some p => Some (q * p)%Z
    | _, _ => None
    end in
  _ <~ check (fits_numeric_10_2 subtotal) numeric_value_out_of_range ;;
  menu_item <~ not_null "menu_item_id" (n_menu_item_id r) ;;
  q <~ not_null "quantity" (n_quantity r) ;;
  p <~ not_null "price" (n_price r) ;;
  _ <~ check (0 <=? p)%Z (check_violation "order_items_price_check") ;;
  _ <~ check (0 <? q)%Z (check_violation "order_items_quantity_check") ;;
  inr {| OrderItem.id := id;
         OrderItem.order_id := n_order_id r;
         OrderItem.menu_item_id := menu_item;
         OrderItem.quantity := q;
         OrderItem.price := p;
         OrderItem.subtotal := (q * p)%Z |}.

(** Foreign keys. *)
Definition restaurant_exists (s : Store) (id : uuid) : bool :=
  existsb (fun r => N.eqb (Restaurant.id r) id) (restaurants s).

Definition menu_item_exists (s : Store) (id : uuid) : bool :=
  existsb (fun m => N.eqb (MenuItem.id m) id) (menu_items s).

Definition order_exists (s : Store) (id : uuid) : bool :=
  existsb (fun o => N.eqb (Order.id o) id) (orders s).

Definition order_items_references (s : Store) (r : OrderItem.t) : PgError + unit :=
  _ <~ check (order_exists s (OrderItem.order_id r))
             (foreign_key_violation "order_items_order_id_fkey") ;;
  check (menu_item_exists s (OrderItem.menu_item_id r))
        (foreign_key_violation "order_items_menu_item_id_fkey").

(* ------------------------------------------------------------------ *)
(** ** The Supabase calls of [orders.js] *)

Definition with_orders (s : Store) (rows : list Order.t) : Store := {|
  restaurants := restaurants s;
  menu_items := menu_items s;
  orders := rows;
  order_items := order_items s;
  uuid_supply := uuid_supply s
|}.

(** [.single()]: exactly one row, or PGRST116. *)
Definition single {A} (stmt : Statement (list A)) : Statement A :=
  fun s =>
    r <~ stmt s ;;
    match r with
    | ([row], s') => inr (row, s')
    | _ => inl PGRST116
    end.

(** [.maybeSingle()]: no row is [null]; two or more are PGRST116. *)
Definition maybeSingle {A} (stmt : Statement (list A)) : Statement (option A) :=
  fun s =>
    r <~ stmt s ;;
    match r with
    | ([], s') => inr (None, s')
    | ([row], s') => inr (Some row, s')
    | _ => inl PGRST116
    end.

(** An order with the embedded [restaurants(name)]. *)
Record OrderWithRestaurant := {
  order : Order.t;
  restaurants_name : option string
}.

(** An order item with the embedded [menu_items(name)]. *)
Record ItemWithMenuItem := {
  item : OrderItem.t;
  menu_items_name : option string
}.

Definition embed_restaurant (s : Store) (o : Order.t) : OrderWithRestaurant := {|
  order := o;
  restaurants_name :=
    option_map Restaurant.name
      (find (fun r => N.eqb (Restaurant.id r) (Order.restaurant_id o)) (restaurants s))
|}.

Definition embed_menu_item (s : Store) (i : OrderItem.t) : ItemWithMenuItem := {|
  item := i;
  menu_items_name :=
    option_map MenuItem.name
      (find (fun m => N.eqb (MenuItem.id m) (OrderItem.menu_item_id i)) (menu_items s))
|}.

(** [from('orders').select('*, restaurants(name)').eq('id', id)] *)
Definition orders_select_eq_id (id : uuid) : Statement (list OrderWithRestaurant) :=
  fun s =>
    inr (map (embed_restaurant s)
             (filter (fun o => N.eqb (Order.id o) id) (orders s)), s).

(** [from('order_items').select('*, menu_items(name)').eq('order_id', id)] *)
Definition order_items_select_eq_order_id (id : uuid)
    : Statement (list ItemWithMenuItem) :=
  fun s =>
    inr (map (embed_menu_item s)
             (filter (fun i => N.eqb (OrderItem.order_id i) id) (order_items s)), s).

(** [from('orders').select('status, total_amount, created_at')] *)
Definition orders_select_all : Statement (list Order.t) :=
  fun s => inr (orders s, s).

(** [from('orders').insert([orderData]).select()] *)
Definition orders_insert (now : timestamptz) (orderData : OrderData)
    : Statement (list Order.t) :=
  fun s =>
    row <~ orders_row (uuid_supply s) now now (insert_columns orderData) ;;
    _ <~ check (restaurant_exists s (Order.restaurant_id row))
               (foreign_key_violation "orders_restaurant_id_fkey") ;;
    inr ([row],
         {| restaurants := restaurants s;
            menu_items := menu_items s;
            orders := orders s ++ [row];
            order_items := order_items s;
            uuid_supply := N.succ (uuid_supply s) |}).

(** The rows of a batch get their ids and pass the row constraints one
    after the other. *)
Fixpoint order_items_rows (id : uuid) (rows : list OrderItemInsert)
    : PgError + list OrderItem.t :=
  match rows with
  | [] => inr []
  | r :: rows' =>
      row <~ order_items_row id r ;;
      rest <~ order_items_rows (N.succ id) rows' ;;
      inr (row :: rest)
  end.

(** The foreign keys are checked when the statement ends. *)
Fixpoint all_references (s : Store) (rows : list OrderItem.t) : PgError + unit :=
  match rows with
  | [] => inr tt
  | r :: rows' =>
      _ <~ order_items_references s r ;;
      all_references s rows'
  end.

(** [from('order_items').insert(orderItems)]: one statement for the batch. *)
Definition order_items_insert (orderItems : list OrderItemInsert) : Statement unit :=
  fun s =>
    rows <~ order_items_rows (uuid_supply s) orderItems ;;
    _ <~ all_references s rows ;;
    inr (tt,
         {| restaurants := restaurants s;
            menu_items := menu_items s;
            orders := orders s;
            order_items := order_items s ++ rows;
            uuid_supply := (uuid_supply s + N.of_nat (List.length rows))%N |}).

(** A body that names no column. *)
Definition names_no_column (d : OrderData) : bool :=
  match d_restaurant_id d, d_customer_name d, d_customer_phone d,
        d_customer_address d, d_status d, d_total_amount d, d_delivery_fee d,
        d_payment_method d, d_payment_status d, d_notes d with
  | Absent, Absent, Absent, Absent, Absent, Absent, Absent, Absent, Absent, Absent =>
      true
  | _, _, _, _, _, _, _, _, _, _ => false
  end.

(** One row under [UPDATE]: the trigger [update_orders_updated_at] (lines
    287-290) sets [updated_at] before the constraints are checked; the
    restaurant is looked up when the reference changes. *)
Definition orders_update_row (s : Store) (now : timestamptz) (d : OrderData)
    (o : Order.t) : PgError + Order.t :=
  row <~ orders_row (Order.id o) (Order.created_at o) now (update_columns o d) ;;
  _ <~ check (N.eqb (Order.restaurant_id row) (Order.restaurant_id o)
              || restaurant_exists s (Order.restaurant_id row))
             (foreign_key_violation "orders_restaurant_id_fkey") ;;
  inr row.

(** The table after [UPDATE ... WHERE id = id], with the rows it touched.
    An updated row keeps its place in the list; where the database hands it
    back among the others is left open by SQL. *)
Fixpoint orders_update_rows (s : Store) (now : timestamptz) (id : uuid)
    (d : OrderData) (rows : list Order.t)
    : PgError + (list Order.t * list Order.t) :=
  match rows with
  | [] => inr ([], [])
  | o :: rows' =>
      if N.eqb (Order.id o) id then
        row <~ orders_update_row s now d o ;;
        rest <~ orders_update_rows s now id d rows' ;;
        inr (row :: fst rest, row :: snd rest)
      else
        rest <~ orders_update_rows s now id d rows' ;;
        inr (o :: fst rest, snd rest)
  end.

(** [from('orders').update(updateData).eq('id', id).select()].  For a body
    that names no column the API layer issues no [UPDATE] and returns no
    row. *)
Definition orders_update (now : timestamptz) (id : uuid) (updateData : OrderData)
    : Statement (list Order.t) :=
  fun s =>
    if names_no_column updateData then inr ([], s)
    else
      r <~ orders_update_rows s now id updateData (orders s) ;;
      inr (snd r, with_orders s (fst r)).

(** [from('orders').delete().eq('id', id)]: the rows of [order_items] that
    reference a deleted order go with it ([ON DELETE CASCADE], line 135). *)
Definition orders_delete (id : uuid) : Statement unit :=
  fun s =>
    let deleted := filter (fun o => N.eqb (Order.id o) id) (orders s) in
    let cascades (i : OrderItem.t) :=
      existsb (fun o => N.eqb (Order.id o) (OrderItem.order_id i)) deleted in
    inr (tt,
         {| restaurants := restaurants s;
            menu_items := menu_items s;
            orders := filter (fun o => negb (N.eqb (Order.id o) id)) (orders s);
            order_items := filter (fun i => negb (cascades i)) (order_items s);
            uuid_supply := uuid_supply s |}).

Local Close Scope check_scope.

(* ------------------------------------------------------------------ *)
(** ** The route handlers of [orders.js] *)

Module OrdersRouter.

Local Open Scope block_scope.

(** [{ ...order, items }] *)
Record OrderDetail := {
  header : OrderWithRestaurant;
  items : list ItemWithMenuItem
}.

(** The [stats] object of [GET /stats/summary]. *)
Record Stats := {
  total_orders : nat;
  pending : nat;
  preparing : nat;
  delivered : nat;
  cancelled : nat;
  total_revenue : float
}.

(** [o.status === v] *)
Definition status_is (v : string) (o : Order.t) : bool :=
  match Order.status o with
  | Some s => String.eqb s v
  | None => false
  end.

(** [router.get('/:id', ...)], the spec's getOrder. *)
Definition GET_id (id : uuid) : Store -> Outcome OrderDetail * Store :=
  try_catch (
    order <- await (maybeSingle (orders_select_eq_id id)) ;;
    match order with
    | None => ret (json 404 (failure "Order not found"))
    | Some order =>
        items <- await (order_items_select_eq_order_id id) ;;
        ret (json 200 (success_data {| header := order; items := items |}))
    end).

(** [items && items.length > 0] *)
Definition has_items (items : option (list ItemData)) : bool :=
  match items with
  | Some (_ :: _) => true
  | _ => false
  end.

Definition items_of (items : option (list ItemData)) : list ItemData :=
  match items with
  | Some l => l
  | None => []
  end.

(** [items.map(item => ({ order_id: order.id, ... }))], lines 85-90. *)
Definition orderItems (order : Order.t) (items : list ItemData)
    : list OrderItemInsert :=
  map (fun item => {| n_order_id := Order.id order;
                      n_menu_item_id := i_menu_item_id item;
                      n_quantity := i_quantity item;
                      n_price := i_price item |})
      items.

(** [router.post('/', ...)], the spec's createOrder; the body is
    [{ items, ...orderData }]. *)
Definition POST (now : timestamptz) (orderData : OrderData)
    (items : option (list ItemData)) : Store -> Outcome Order.t * Store :=
  try_catch (
    order <- await (single (orders_insert now orderData)) ;;
    _ <- (if has_items items then
            await (order_items_insert (orderItems order (items_of items)))
          else ret tt) ;;
    ret (json 201 (success_data order))).

(** [router.put('/:id', ...)], the spec's updateOrder. *)
Definition PUT_id (now : timestamptz) (id : uuid) (updateData : OrderData)
    : Store -> Outcome Order.t * Store :=
  try_catch (
    data <- await (single (orders_update now id updateData)) ;;
    ret (json 200 (success_data data))).

(** The object [{ status }]. *)
Definition only_status (status : JsValue) : OrderData := {|
  d_restaurant_id := Absent;
  d_customer_name := Absent;
  d_customer_phone := Absent;
  d_customer_address := Absent;
  d_status := text_of status;
  d_total_amount := Absent;
  d_delivery_fee := Absent;
  d_payment_method := Absent;
  d_payment_status := Absent;
  d_notes := Absent
|}.

(** [router.patch('/:id/status', ...)], the spec's setStatus; [status] is
    [req.body.status]. *)
Definition PATCH_id_status (now : timestamptz) (id : uuid) (status : JsValue)
    : Store -> Outcome Order.t * Store :=
  try_catch (
    if negb (truthy status) then
      ret (json 400 (failure "Status is required"))
    else
      data <- await (single (orders_update now id (only_status status))) ;;
      ret (json 200 (success_data data))).

(** [router.delete('/:id', ...)], the spec's deleteOrder. *)
Definition DELETE_id (id : uuid) : Store -> Outcome unit * Store :=
  try_catch (
    _ <- await (orders_delete id) ;;
    ret (json 200 (success_message "Order deleted successfully"))).

(** The [stats] object literal, lines 189-198. *)
Definition stats (orders : list Order.t) : Stats := {|
  total_orders := List.length orders;
  pending := List.length (filter (status_is "pending") orders);
  preparing := List.length (filter (status_is "preparing") orders);
  delivered := List.length (filter (status_is "delivered") orders);
  cancelled := List.length (filter (status_is "cancelled") orders);
  total_revenue :=
    fold_left (fun sum o => PrimFloat.add sum (parseFloat (Order.total_amount o)))
              (filter (status_is "delivered") orders)
              PrimFloat.zero
|}.

(** [router.get('/stats/summary', ...)], the spec's summarize. *)
Definition GET_stats_summary : Store -> Outcome Stats * Store :=
  try_catch (
    orders <- await orders_select_all ;;
    ret (json 200 (success_data (stats orders)))).

(** The [WHERE] clause a query of [orders] has collected. *)
Definition Filter : Type := Order.t -> bool.

(** [supabase.from('orders').select('*, restaurants(name)')] *)
Definition select_orders : Filter := fun _ => true.

(** [query.eq('status', status)]; a [NULL] status equals nothing. *)
Definition eq_status (query : Filter) (status : string) : Filter :=
  fun o => query o && status_is status o.

(** [query.eq('restaurant_id', restaurant_id)] *)
Definition eq_restaurant_id (query : Filter) (restaurant_id : uuid) : Filter :=
  fun o => query o && N.eqb (Order.restaurant_id o) restaurant_id.

(** [ORDER BY created_at DESC], one row at a time; rows of one instant stay
    in the order they had (SQL leaves their order open). *)
Fixpoint insert_created_at_desc (x : OrderWithRestaurant)
    (l : list OrderWithRestaurant) : list OrderWithRestaurant :=
  match l with
  | [] => [x]
  | y :: l' =>
      if (Order.created_at (order y) <=? Order.created_at (order x))%N
      then x :: y :: l'
      else y :: insert_created_at_desc x l'
  end.

(** [.order('created_at', { ascending: false })] *)
Definition order_created_at_desc (l : list OrderWithRestaurant)
    : list OrderWithRestaurant :=
  fold_right insert_created_at_desc [] l.

(** [await query.order('created_at', { ascending: false })] *)
Definition orders_select_where (query : Filter)
    : Statement (list OrderWithRestaurant) :=
  fun s =>
    inr (order_created_at_desc (map (embed_restaurant s) (filter query (orders s))),
         s).

(** [if (v)] for a value of the query string: present and not empty. *)
Definition given (v : option string) : bool :=
  match v with
  | Some t => negb (String.eqb t "")
  | None => false
  end.

(** [router.get('/', ...)], the spec's listOrders; [status] and
    [restaurant_id] are the two keys of [req.query].  A [restaurant_id] that
    is sent is a uuid, so it is never empty; any other string is outside
    the model (the database refuses to compare it with a uuid, and the
    handler forwards that error). *)
Definition GET (status : option string) (restaurant_id : option uuid)
    : Store -> Outcome (list OrderWithRestaurant) * Store :=
  try_catch (
    let query := select_orders in
    let query :=
      match status with
      | Some v => if given status then eq_status query v else query
      | None => query
      end in
    let query :=
      match restaurant_id with
      | Some r => eq_restaurant_id query r
      | None => query
      end in
    data <- await (orders_select_where query) ;;
    ret (json 200 (success_data data))).

(** A key of a body under the cast of its column. *)
Definition field_map {A B} (f : A -> B) (x : field A) : field B :=
  match x with
  | Absent => Absent
  | Null => Null
  | Value a => Value (f a)
  end.

(** The header of a body as the columns of [orders] read it: the handler
    hands [orderData] on as it came, and [total_amount] and [delivery_fee]
    are cast to [numeric(10,2)] (lines 123 and 124 of the migration). *)
Definition orderData_of (body : OrderJson) : OrderData := {|
  d_restaurant_id := j_restaurant_id body;
  d_customer_name := j_customer_name body;
  d_customer_phone := j_customer_phone body;
  d_customer_address := j_customer_address body;
  d_status := j_status body;
  d_total_amount := field_map numeric_10_2 (j_total_amount body);
  d_delivery_fee := field_map numeric_10_2 (j_delivery_fee body);
  d_payment_method := j_payment_method body;
  d_payment_status := j_payment_status body;
  d_notes := j_notes body
|}.

(** An item as the columns of [order_items] read it: [price] is cast to
    [numeric(10,2)] (line 138). *)
Definition itemData_of (item : ItemJson) : ItemData := {|
  i_menu_item_id := k_menu_item_id item;
  i_quantity := k_quantity item;
  i_price := option_map numeric_10_2 (k_price item)
|}.

(** [router.post('/', ...)] on a body as it is sent.  The handler hands
    the amounts on as they came ([...orderData], and [price: item.price] on
    line 89), and each column casts its own when a row is built: the two
    inserts of [POST], on the amounts as cast. *)
Definition POST_json (now : timestamptz) (body : OrderJson)
    (items : option (list ItemJson)) : Store -> Outcome Order.t * Store :=
  POST now (orderData_of body) (option_map (map itemData_of) items).

End OrdersRouter.

(* ------------------------------------------------------------------ *)
(** ** [DELETE /:id] of [menu.js] *)

Module MenuRouter.

Local Open Scope block_scope.

(** [from('menu_items').delete().eq('id', id)]: a menu item that a row of
    [order_items] references stays ([ON DELETE RESTRICT], line 136), and
    the statement fails. *)
Definition menu_items_delete (id : uuid) : Statement unit :=
  fun s =>
    let deleted := filter (fun m => N.eqb (MenuItem.id m) id) (menu_items s) in
    let restricted (m : MenuItem.t) :=
      existsb (fun i => N.eqb (OrderItem.menu_item_id i) (MenuItem.id m))
              (order_items s) in
    if existsb restricted deleted then
      inl (foreign_key_violation "order_items_menu_item_id_fkey")
    else
      inr (tt,
           {| restaurants := restaurants s;
              menu_items :=
                filter (fun m => negb (N.eqb (MenuItem.id m) id)) (menu_items s);
              orders := orders s;
              order_items := order_items s;
              uuid_supply := uuid_supply s |}).

(** [router.delete('/:id', ...)] of [menu.js], lines 102-120. *)
Definition DELETE_id (id : uuid) : Store -> Outcome unit * Store :=
  try_catch (
    _ <- await (menu_items_delete id) ;;
    ret (json 200 (success_message "Menu item deleted successfully"))).

End MenuRouter.

(* ------------------------------------------------------------------ *)
(** ** Integrity of a store *)

Fixpoint distinct (l : list uuid) : bool :=
  match l with
  | [] => true
  | x :: l' => negb (existsb (N.eqb x) l') && distinct l'
  end.

(** What the keys of the schema and the supply of fresh ids keep true of a
    store: the primary key of [orders], no stored order carries an id the
    supply has yet to give out, and every order item references an order. *)
Definition well_formed (s : Store) : bool :=
  distinct (map Order.id (orders s))
  && forallb (fun o => (Order.id o <? uuid_supply s)%N) (orders s)
  && forallb (fun i => order_exists s (OrderItem.order_id i)) (order_items s).

(** The constraints of [orders] on a candidate row, as the data model of the
    spec lists them. *)
Definition columns_ok (c : OrderColumns) : bool :=
  match c_restaurant_id c, c_customer_name c, c_customer_phone c,
        c_customer_address c, c_total_amount c with
  | Some _, Some _, Some _, Some _, Some total =>
      (0 <=? total)%Z && (total <? 10 ^ 10)%Z
      && fits_numeric_10_2 (c_delivery_fee c)
      && is_in status_values (c_status c)
      && is_in payment_method_values (c_payment_method c)
      && is_in payment_status_values (c_payment_status c)
  | _, _, _, _, _ => false
  end.

(** The restaurant a candidate row references is stored. *)
Definition references_ok (s : Store) (c : OrderColumns) : bool :=
  match c_restaurant_id c with
  | Some r => restaurant_exists s r
  | None => false
  end.

(** The columns of a stored order that a body can name. *)
Definition row_columns (o : Order.t) : OrderColumns := {|
  c_restaurant_id := Some (Order.restaurant_id o);
  c_customer_name := Some (Order.customer_name o);
  c_customer_phone := Some (Order.customer_phone o);
  c_customer_address := Some (Order.customer_address o);
  c_status := Order.status o;
  c_total_amount := Some (Order.total_amount o);
  c_delivery_fee := Order.delivery_fee o;
  c_payment_method := Order.payment_method o;
  c_payment_status := Order.payment_status o;
  c_notes := Order.notes o
|}.

(** The table of orders with the row under [id] replaced. *)
Definition replace_order (id : uuid) (row : Order.t) (l : list Order.t)
    : list Order.t :=
  map (fun o => if N.eqb (Order.id o) id then row else o) l.

(** The constraints of [order_items] on an item of a request, the
    reference to the menu item apart. *)
Definition item_ok (i : ItemData) : bool :=
  match i_menu_item_id i, i_quantity i, i_price i with
  | Some _, Some q, Some p =>
      (0 <? q)%Z && (q <? 2 ^ 31)%Z && (0 <=? p)%Z && (p <? 10 ^ 10)%Z
      && (q * p <? 10 ^ 10)%Z
  | _, _, _ => false
  end.

(** What the claims compare of an item: menu item, quantity and price. *)
Definition item_triple (i : ItemData) : option uuid * option Z * option numeric :=
  (i_menu_item_id i, i_quantity i, i_price i).

Definition row_triple (r : OrderItem.t) : option uuid * option Z * option numeric :=
  (Some (OrderItem.menu_item_id r), Some (OrderItem.quantity r),
   Some (OrderItem.price r)).

Definition item_references_menu (s : Store) (i : ItemData) : bool :=
  match i_menu_item_id i with
  | Some m => menu_item_exists s m
  | None => false
  end.

(** The items of a body as they are sent. *)
Definition sent (items : option (list ItemJson)) : list ItemJson :=
  match items with
  | Some l => l
  | None => []
  end.

(** A hundredths value is the amount a decimal writes. *)
Definition is_amount (x : Decimal) (p : numeric) : Prop :=
  (p * 10 ^ Z.of_nat (scale x) = digits x * 100)%Z.

(** A valid header, as the data model of the spec and the columns of
    [orders] have it: the restaurant is stored, the customer's name, phone
    and address are there, the total is not negative, both amounts fit
    [numeric(10,2)] once rounded, and the status, payment method and payment
    status, where given, are of their enumerations. *)
Definition valid_header (s : Store) (b : OrderJson) : bool :=
  match j_restaurant_id b, j_customer_name b, j_customer_phone b,
        j_customer_address b, j_total_amount b with
  | Value r, Value _, Value _, Value _, Value total =>
      existsb (fun x => N.eqb (Restaurant.id x) r) (restaurants s)
      && (0 <=? numeric_10_2 total)%Z
      && (numeric_10_2 total <? 10000000000)%Z
      && match j_delivery_fee b with
         | Value fee => (Z.abs (numeric_10_2 fee) <? 10000000000)%Z
         | _ => true
         end
      && match j_status b with
         | Value v =>
             existsb (String.eqb v)
                     ["pending"; "preparing"; "delivered"; "cancelled"]%string
         | _ => true
         end
      && match j_payment_method b with
         | Value v => existsb (String.eqb v) ["cash"; "card"; "online"]%string
         | _ => true
         end
      && match j_payment_status b with
         | Value v => existsb (String.eqb v) ["pending"; "paid"; "refunded"]%string
         | _ => true
         end
  | _, _, _, _, _ => false
  end.

(** A valid item: its menu item is stored, its quantity is a positive
    [integer], its price is not negative, and price and subtotal fit
    [numeric(10,2)] once the price is rounded. *)
Definition valid_item (s : Store) (i : ItemJson) : bool :=
  match k_menu_item_id i, k_quantity i, k_price i with
  | Some m, Some q, Some p =>
      existsb (fun x => N.eqb (MenuItem.id x) m) (menu_items s)
      && (0 <? q)%Z && (q <? 2147483648)%Z
      && (0 <=? numeric_10_2 p)%Z && (numeric_10_2 p <? 10000000000)%Z
      && (q * numeric_10_2 p <? 10000000000)%Z
  | _, _, _ => false
  end.

(** A stored header matches the one sent: each column holds what the body
    gave for it, an amount rounded to hundredths (so the amount itself when
    it has at most two decimals), and the declared default where the body
    had no such key (lines 122-126 of the migration). *)
Definition header_matches (b : OrderJson) (o : Order.t) : Prop :=
  j_restaurant_id b = Value (Order.restaurant_id o)
  /\ j_customer_name b = Value (Order.customer_name o)
  /\ j_customer_phone b = Value (Order.customer_phone o)
  /\ j_customer_address b = Value (Order.customer_address o)
  /\ (exists total,
        j_total_amount b = Value total
        /\ Order.total_amount o = numeric_10_2 total
        /\ ((scale total <= 2)%nat -> is_amount total (Order.total_amount o)))
  /\ Order.status o
     = match j_status b with
       | Absent => Some "pending"%string
       | Null => None
       | Value v => Some v
       end
  /\ match j_delivery_fee b with
     | Absent => Order.delivery_fee o = Some 0%Z
     | Null => Order.delivery_fee o = None
     | Value fee =>
         exists stored,
           Order.delivery_fee o = Some stored
           /\ stored = numeric_10_2 fee
           /\ ((scale fee <= 2)%nat -> is_amount fee stored)
     end
  /\ Order.payment_method o
     = match j_payment_method b with
       | Absent => Some "cash"%string
       | Null => None
       | Value v => Some v
       end
  /\ Order.payment_status o
     = match j_payment_status b with
       | Absent => Some "pending"%string
       | Null => None
       | Value v => Some v
       end
  /\ Order.notes o
     = match j_notes b with
       | Value v => Some v
       | _ => None
       end.

(** A stored order item matches the one sent: menu item and quantity as
    sent, the price rounded to hundredths, which is the price sent when that
    has at most two decimals. *)
Definition item_matches (i : ItemJson) (r : OrderItem.t) : Prop :=
  k_menu_item_id i = Some (OrderItem.menu_item_id r)
  /\ k_quantity i = Some (OrderItem.quantity r)
  /\ exists p, k_price i = Some p
               /\ OrderItem.price r = numeric_10_2 p
               /\ ((scale p <= 2)%nat -> is_amount p (OrderItem.price r)).

(** A status value of the enum: one of the four strings. *)
Definition status_value (v : JsValue) : Prop :=
  exists t, v = JsString t /\ In t status_values.

(** Equality of two values of the [status] column, to count them. *)
Definition status_eq_dec (x y : option string) : {x = y} + {x <> y}.
Proof. decide equality. apply string_dec. Defined.

(* ------------------------------------------------------------------ *)
(** ** Sample data *)

Module Sample.

Local Open Scope string_scope.
Local Open Scope N_scope.

Definition pizza_palace : Restaurant.t :=
  {| Restaurant.id := 1; Restaurant.name := "Pizza Palace" |}.

Definition margherita : MenuItem.t :=
  {| MenuItem.id := 2; MenuItem.name := "Margherita Pizza" |}.

Definition no_orders : Store := {|
  restaurants := [pizza_palace];
  menu_items := [margherita];
  orders := [];
  order_items := [];
  uuid_supply := 3
|}.

(** The example order of the README. *)
Definition john_doe : OrderData := {|
  d_restaurant_id := Value 1;
  d_customer_name := Value "John Doe";
  d_customer_phone := Value "555-0123";
  d_customer_address := Value "456 Oak Ave";
  d_status := Absent;
  d_total_amount := Value 4599%Z;
  d_delivery_fee := Value 500%Z;
  d_payment_method := Value "card";
  d_payment_status := Absent;
  d_notes := Value "Ring doorbell"
|}.

Definition pizzas (menu_item : uuid) (quantity : Z) : ItemData := {|
  i_menu_item_id := Some menu_item;
  i_quantity := Some quantity;
  i_price := Some 1299%Z
|}.

Definition johns_order : Order.t := {|
  Order.id := 3;
  Order.restaurant_id := 1;
  Order.customer_name := "John Doe";
  Order.customer_phone := "555-0123";
  Order.customer_address := "456 Oak Ave";
  Order.status := Some "pending";
  Order.total_amount := 4599%Z;
  Order.delivery_fee := Some 500%Z;
  Order.payment_method := Some "card";
  Order.payment_status := Some "pending";
  Order.notes := Some "Ring doorbell";
  Order.created_at := 7;
  Order.updated_at := 7
|}.

Definition johns_pizzas : OrderItem.t := {|
  OrderItem.id := 4;
  OrderItem.order_id := 3;
  OrderItem.menu_item_id := 2;
  OrderItem.quantity := 2;
  OrderItem.price := 1299%Z;
  OrderItem.subtotal := 2598%Z
|}.

(** The store after John's order of two pizzas at time 7. *)
Definition one_order : Store := {|
  restaurants := [pizza_palace];
  menu_items := [margherita];
  orders := [johns_order];
  order_items := [johns_pizzas];
  uuid_supply := 5
|}.

(** The store after John's order when its items were refused. *)
Definition header_only : Store := {|
  restaurants := [pizza_palace];
  menu_items := [margherita];
  orders := [johns_order];
  order_items := [];
  uuid_supply := 4
|}.

(** The body [{ status }]. *)
Definition status_only (status : field string) : OrderData := {|
  d_restaurant_id := Absent;
  d_customer_name := Absent;
  d_customer_phone := Absent;
  d_customer_address := Absent;
  d_status := status;
  d_total_amount := Absent;
  d_delivery_fee := Absent;
  d_payment_method := Absent;
  d_payment_status := Absent;
  d_notes := Absent
|}.

(** A delivered order of the given amount. *)
Definition delivered_order (id : uuid) (total : numeric) : Order.t := {|
  Order.id := id;
  Order.restaurant_id := 1;
  Order.customer_name := "John Doe";
  Order.customer_phone := "555-0123";
  Order.customer_address := "456 Oak Ave";
  Order.status := Some "delivered";
  Order.total_amount := total;
  Order.delivery_fee := Some 0%Z;
  Order.payment_method := Some "cash";
  Order.payment_status := Some "paid";
  Order.notes := None;
  Order.created_at := 7;
  Order.updated_at := 8
|}.

(** A cancelled order of the given amount. *)
Definition cancelled_order (id : uuid) (total : numeric) : Order.t := {|
  Order.id := id;
  Order.restaurant_id := 1;
  Order.customer_name := "John Doe";
  Order.customer_phone := "555-0123";
  Order.customer_address := "456 Oak Ave";
  Order.status := Some "cancelled";
  Order.total_amount := total;
  Order.delivery_fee := Some 0%Z;
  Order.payment_method := Some "cash";
  Order.payment_status := Some "refunded";
  Order.notes := None;
  Order.created_at := 7;
  Order.updated_at := 8
|}.

(** Two delivered orders, of 0.10 and of 0.20. *)
Definition dime_and_twenty : list Order.t :=
  [delivered_order 10 10%Z; delivered_order 11 20%Z].

(** 0.10 and 0.20, ten times over. *)
Definition ten_times (l : list Order.t) : list Order.t :=
  l ++ l ++ l ++ l ++ l ++ l ++ l ++ l ++ l ++ l.

(** John's order, sent for another restaurant. *)
Definition for_restaurant (restaurant : uuid) : OrderData := {|
  d_restaurant_id := Value restaurant;
  d_customer_name := Value "John Doe";
  d_customer_phone := Value "555-0123";
  d_customer_address := Value "456 Oak Ave";
  d_status := Absent;
  d_total_amount := Value 4599%Z;
  d_delivery_fee := Value 500%Z;
  d_payment_method := Value "card";
  d_payment_status := Absent;
  d_notes := Value "Ring doorbell"
|}.

(** The example order of the README as it is sent: 45.99 with a fee of 5. *)
Definition john_doe_json : OrderJson := {|
  j_restaurant_id := Value 1;
  j_customer_name := Value "John Doe";
  j_customer_phone := Value "555-0123";
  j_customer_address := Value "456 Oak Ave";
  j_status := Absent;
  j_total_amount := Value {| digits := 4599; scale := 2 |};
  j_delivery_fee := Value {| digits := 5; scale := 0 |};
  j_payment_method := Value "card";
  j_payment_status := Absent;
  j_notes := Value "Ring doorbell"
|}.

(** Pizzas at the given price. *)
Definition pizzas_at (price : Decimal) (menu_item : uuid) (quantity : Z)
    : ItemJson := {|
  k_menu_item_id := Some menu_item;
  k_quantity := Some quantity;
  k_price := Some price
|}.

(** John's order, sent with [status: null]. *)
Definition john_doe_null_status : OrderData := {|
  d_restaurant_id := Value 1;
  d_customer_name := Value "John Doe";
  d_customer_phone := Value "555-0123";
  d_customer_address := Value "456 Oak Ave";
  d_status := Null;
  d_total_amount := Value 4599%Z;
  d_delivery_fee := Value 500%Z;
  d_payment_method := Value "card";
  d_payment_status := Absent;
  d_notes := Value "Ring doorbell"
|}.

(** A store of the given orders and no items. *)
Definition store_of (rows : list Order.t) : Store := {|
  restaurants := [pizza_palace];
  menu_items := [margherita];
  orders := rows;
  order_items := [];
  uuid_supply := 20
|}.

(** Three delivered orders, of 0.10, 0.20 and 0.30. *)
Definition dime_twenty_thirty : list Order.t :=
  [delivered_order 10 10%Z; delivered_order 11 20%Z; delivered_order 12 30%Z].

End Sample.

(* ------------------------------------------------------------------ *)
(** ** What the constraints keep true of the stored rows *)

(** A stored row of [order_items] within its constraints: the [CHECK]s, the
    column types and the generated [subtotal] (lines 137-139). *)
Definition item_row_ok (r : OrderItem.t) : bool :=
  (0 <? OrderItem.quantity r)%Z && (OrderItem.quantity r <? 2 ^ 31)%Z
  && (0 <=? OrderItem.price r)%Z && (OrderItem.price r <? 10 ^ 10)%Z
  && (OrderItem.subtotal r =? OrderItem.quantity r * OrderItem.price r)%Z
  && (OrderItem.subtotal r <? 10 ^ 10)%Z.

(** Every stored order and order item is within the constraints of its
    table. *)
Definition constraints_hold (s : Store) : bool :=
  forallb (fun o => columns_ok (row_columns o)) (orders s)
  && forallb item_row_ok (order_items s).

(** Every order references a stored restaurant (line 118) and every order
    item a stored menu item (line 136). *)
Definition references_hold (s : Store) : bool :=
  forallb (fun o => restaurant_exists s (Order.restaurant_id o)) (orders s)
  && forallb (fun i => menu_item_exists s (OrderItem.menu_item_id i))
             (order_items s).

(** An order answers a query of [GET /]: it carries the status asked for,
    if one is, and belongs to the restaurant asked for, if one is. *)
Definition matches (status : option string) (restaurant_id : option uuid)
    (o : Order.t) : bool :=
  (if OrdersRouter.given status
   then if status_eq_dec (Order.status o) status then true else false
   else true)
  && match restaurant_id with
     | Some r => N.eqb (Order.restaurant_id o) r
     | None => true
     end.

(** The rows of a list come newest first. *)
Definition newest_first (l : list OrderWithRestaurant) : Prop :=
  StronglySorted
    (fun x y => (Order.created_at (order y) <= Order.created_at (order x))%N) l.

(** A stored order with a new status, updated at [now]. *)
Definition with_status (o : Order.t) (t : string) (now : timestamptz) : Order.t := {|
  Order.id := Order.id o;
  Order.restaurant_id := Order.restaurant_id o;
  Order.customer_name := Order.customer_name o;
  Order.customer_phone := Order.customer_phone o;
  Order.customer_address := Order.customer_address o;
  Order.status := Some t;
  Order.total_amount := Order.total_amount o;
  Order.delivery_fee := Order.delivery_fee o;
  Order.payment_method := Order.payment_method o;
  Order.payment_status := Order.payment_status o;
  Order.notes := Order.notes o;
  Order.created_at := Order.created_at o;
  Order.updated_at := now
|}.

(** An order carries none of the four statuses. *)
Definition without_status (o : Order.t) : bool :=
  negb (existsb (fun v => OrdersRouter.status_is v o) status_values).

(** One for [true], none for [false]. *)
Definition one_if (b : bool) : nat := if b then 1 else 0.

(** The number of orders that carry a status. *)
Definition count_status (v : string) (l : list Order.t) : nat :=
  count_occ status_eq_dec (map Order.status l) (Some v).

(** The stored order under an id, if there is one. *)
Definition stored_order (s : Store) (id : uuid) : option Order.t :=
  find (fun o => N.eqb (Order.id o) id) (orders s).

(** The stored items of an order. *)
Definition stored_items (s : Store) (id : uuid) : list OrderItem.t :=
  filter (fun i => N.eqb (OrderItem.order_id i) id) (order_items s).

(* ------------------------------------------------------------------ *)
(** * Properties *)

Import OrdersRouter.

Unset Implicit Arguments.

(** ** Shared facts *)

Lemma status_is_true (v : string) (o : Order.t) :
  status_is v o = true <-> Order.status o = Some v.
Proof.
  unfold status_is. destruct (Order.status o) as [t|].
  - rewrite String.eqb_eq. split; congruence.
  - split; discriminate.
Qed.

Lemma status_is_false (v : string) (o : Order.t) :
  status_is v o = false <-> Order.status o <> Some v.
Proof.
  rewrite <- status_is_true. destruct (status_is v o); split; congruence.
Qed.

(** The orders a status filter keeps are the occurrences of that status. *)
Lemma filter_status_count (v : string) (l : list Order.t) :
  List.length (filter (status_is v) l)
  = count_occ status_eq_dec (map Order.status l) (Some v).
Proof.
  induction l as [|o l IH]; simpl; [reflexivity|].
  destruct (status_eq_dec (Order.status o) (Some v)) as [E|E].
  - apply status_is_true in E. rewrite E. simpl. now rewrite IH.
  - apply status_is_false in E. now rewrite E.
Qed.

(** The revenue of a store with one more order at its end. *)
Lemma total_revenue_snoc (l : list Order.t) (o : Order.t) :
  total_revenue (stats (l ++ [o]))
  = if status_eq_dec (Order.status o) (Some "delivered"%string)
    then PrimFloat.add (total_revenue (stats l)) (parseFloat (Order.total_amount o))
    else total_revenue (stats l).
Proof.
  unfold stats; simpl. rewrite filter_app, fold_left_app. simpl.
  destruct (status_eq_dec (Order.status o) (Some "delivered"%string)) as [E|E].
  - apply status_is_true in E. now rewrite E.
  - apply status_is_false in E. now rewrite E.
Qed.

(** The row constraints accept exactly the candidate rows the data model
    allows, and store them as they are. *)
Lemma orders_row_ok id created updated (c : OrderColumns) :
  columns_ok c = true ->
  exists row, orders_row id created updated c = inr row
              /\ row_columns row = c
              /\ Order.id row = id
              /\ Order.created_at row = created
              /\ Order.updated_at row = updated.
Proof.
  unfold columns_ok, orders_row. destruct c as [r n p a st t f pm ps nt]; simpl.
  destruct r, n, p, a, t as [t|]; try discriminate.
  intros H. repeat (apply andb_prop in H as [H ?]).
  assert (Ht : fits_numeric_10_2 (Some t) = true).
  { unfold fits_numeric_10_2. apply Z.leb_le in H. apply Z.ltb_lt.
    match goal with L : (t <? _)%Z = true |- _ => apply Z.ltb_lt in L end.
    change (Z.pow_pos 10 10) with 10000000000%Z in *.
    change (10 ^ 10)%Z with 10000000000%Z. lia. }
  apply Z.leb_le in H as H'.
  rewrite Ht; simpl.
  repeat match goal with E : _ = true |- _ => rewrite E; clear E end; simpl.
  eexists. repeat split.
Qed.

Lemma orders_row_sound id created updated (c : OrderColumns) (row : Order.t) :
  orders_row id created updated c = inr row -> columns_ok c = true.
Proof.
  unfold columns_ok, orders_row.
  destruct c as [r n p a st t f pm ps nt];
    cbn [c_restaurant_id c_customer_name c_customer_phone c_customer_address
         c_status c_total_amount c_delivery_fee c_payment_method
         c_payment_status c_notes].
  destruct (fits_numeric_10_2 t && fits_numeric_10_2 f) eqn:F; [|discriminate].
  apply andb_prop in F as [Ft Ff]. cbn [check and_then].
  destruct r, n, p, a, t as [t|]; cbn [not_null and_then]; try discriminate.
  destruct (is_in payment_method_values pm); [|discriminate].
  destruct (is_in payment_status_values ps); [|discriminate].
  destruct (is_in status_values st); [|discriminate]. cbn [check and_then].
  destruct (0 <=? t)%Z eqn:T; [|discriminate]. intros _.
  rewrite Ff. unfold fits_numeric_10_2 in Ft. rewrite !andb_true_r.
  apply Z.leb_le in T. apply Z.ltb_lt in Ft. cbn [andb]. apply Z.ltb_lt. lia.
Qed.

(** Every error of the row constraints of [orders] is a validation error. *)
Lemma orders_row_kind id created updated (c : OrderColumns) (e : PgError) :
  orders_row id created updated c = inl e -> error_kind e = ValidationError.
Proof.
  unfold orders_row. intros H.
  repeat match type of H with
         | context [check ?b ?e] => destruct b; cbn [check and_then] in H
         | context [not_null ?c ?v] => destruct v; cbn [not_null and_then] in H
         end;
    try discriminate H; injection H as <-; reflexivity.
Qed.

(** ** The statistics *)

(** C4: the counts of [GET /stats/summary] are the ones the claim asks
    for, its [total_revenue] is not the sum of the delivered amounts.  On a
    store of two delivered orders, of 0.10 and of 0.20, the handler reports
    two orders, both delivered, and a revenue of 0.30000000000000004, in
    whichever order the rows come; the sum is 0.30.  On delivered orders of
    0.10, 0.20 and 0.30 it reports 0.6000000000000001 when the rows come in
    that order and 0.6 when they come the other way round: the revenue is
    not a function of the orders that are stored. *)
Theorem summary_revenue_is_not_the_sum :
  fst (GET_stats_summary (Sample.store_of Sample.dime_and_twenty))
  = json 200 (success_data
                {| total_orders := 2; pending := 0; preparing := 0;
                   delivered := 2; cancelled := 0;
                   total_revenue := 0x1.3333333333334p-2%float |})
  /\ fst (GET_stats_summary (Sample.store_of (rev Sample.dime_and_twenty)))
     = json 200 (success_data
                   {| total_orders := 2; pending := 0; preparing := 0;
                      delivered := 2; cancelled := 0;
                      total_revenue := 0x1.3333333333334p-2%float |})
  /\ parseFloat (10 + 20)%Z = 0x1.3333333333333p-2%float
  /\ PrimFloat.eqb (total_revenue (stats Sample.dime_and_twenty))
                   (parseFloat (10 + 20)%Z) = false
  /\ total_revenue (stats Sample.dime_twenty_thirty)
     = 0x1.3333333333334p-1%float
  /\ total_revenue (stats (rev Sample.dime_twenty_thirty))
     = 0x1.3333333333333p-1%float
  /\ parseFloat (10 + 20 + 30)%Z = 0x1.3333333333333p-1%float
  /\ PrimFloat.eqb (total_revenue (stats Sample.dime_twenty_thirty))
                   (total_revenue (stats (rev Sample.dime_twenty_thirty)))
     = false.
Proof.
  repeat split; vm_compute; reflexivity.
Qed.

(** An order adds one to the four counts when it carries one of the four
    statuses, and nothing otherwise. *)
Lemma four_counts_cons (o : Order.t) (l : list Order.t) :
  (pending (stats (o :: l)) + preparing (stats (o :: l))
   + delivered (stats (o :: l)) + cancelled (stats (o :: l))
   = one_if (existsb (fun v => status_is v o) status_values)
     + (pending (stats l) + preparing (stats l) + delivered (stats l)
        + cancelled (stats l)))%nat.
Proof.
  unfold stats; cbn [pending preparing delivered cancelled filter].
  cbn [existsb status_values].
  destruct (status_is "pending" o) eqn:E1, (status_is "preparing" o) eqn:E2,
           (status_is "delivered" o) eqn:E3, (status_is "cancelled" o) eqn:E4;
    repeat match goal with
           | H : status_is _ _ = true |- _ => apply status_is_true in H
           | H : status_is _ _ = false |- _ => apply status_is_false in H
           end;
    try congruence; cbn [orb one_if List.length]; lia.
Qed.

Lemma one_of_the_four (o : Order.t) :
  existsb (fun v => status_is v o) status_values = true
  <-> exists v, In v status_values /\ Order.status o = Some v.
Proof.
  rewrite existsb_exists. split; intros [v [Hin Hv]]; exists v;
    (split; [exact Hin|]); now apply status_is_true.
Qed.

(** C10: the four counts never exceed the number of stored orders, which is
    [total_orders], and they add up to it exactly when every order carries
    one of the four statuses; an order with a [NULL] status, which the
    constraints of [orders] admit, is in the total and in none of the
    four. *)
Theorem status_counts_partition (l : list Order.t) :
  total_orders (stats l) = List.length l
  /\ (pending (stats l) + preparing (stats l) + delivered (stats l)
      + cancelled (stats l) <= List.length l)%nat
  /\ ((pending (stats l) + preparing (stats l) + delivered (stats l)
       + cancelled (stats l) = List.length l)%nat
      <-> Forall (fun o => exists v, In v status_values /\ Order.status o = Some v)
                 l).
Proof.
  split; [reflexivity|].
  induction l as [|o l [IHle IHiff]].
  - split; [apply Nat.le_refl|]. split; [constructor|reflexivity].
  - rewrite four_counts_cons. cbn [List.length].
    destruct (existsb (fun v => status_is v o) status_values) eqn:E;
      cbn [one_if].
    + apply one_of_the_four in E. split; [lia|]. split.
      * intros H. constructor; [exact E|]. apply IHiff. lia.
      * intros H. inversion H; subst. apply IHiff in H3. lia.
    + split; [lia|]. split; [lia|].
      intros H. inversion H; subst. apply one_of_the_four in H2. congruence.
Qed.

(** C10, the store in which the claim fails: [POST /] accepts John's order
    sent with [status: null], the store it leaves is within the constraints
    of its tables, and its summary counts one order in [total_orders] and
    none under the four statuses. *)
Lemma null_status_is_in_no_count :
  fst (POST 7 Sample.john_doe_null_status None Sample.no_orders)
  = json 201 (success_data
                {| Order.id := 3;
                   Order.restaurant_id := 1;
                   Order.customer_name := "John Doe";
                   Order.customer_phone := "555-0123";
                   Order.customer_address := "456 Oak Ave";
                   Order.status := None;
                   Order.total_amount := 4599;
                   Order.delivery_fee := Some 500%Z;
                   Order.payment_method := Some "card"%string;
                   Order.payment_status := Some "pending"%string;
                   Order.notes := Some "Ring doorbell"%string;
                   Order.created_at := 7;
                   Order.updated_at := 7 |})
  /\ constraints_hold
       (snd (POST 7 Sample.john_doe_null_status None Sample.no_orders)) = true
  /\ fst (GET_stats_summary
            (snd (POST 7 Sample.john_doe_null_status None Sample.no_orders)))
     = json 200 (success_data
                   {| total_orders := 1; pending := 0; preparing := 0;
                      delivered := 0; cancelled := 0;
                      total_revenue := PrimFloat.zero |})
  /\ ~ Forall (fun o => exists v, In v status_values /\ Order.status o = Some v)
              (orders (snd (POST 7 Sample.john_doe_null_status None
                                 Sample.no_orders))).
Proof.
  repeat split; try (vm_compute; reflexivity).
  intros H. vm_compute in H. inversion H as [|? ? [v [_ Hv]] _]. discriminate Hv.
Qed.

(** C1: on delivered orders of 0.10 and 0.20 the revenue the handler
    reports is the binary64 sum 0.30000000000000004 and not 0.30, the value
    of the exact decimal sum; on 0.10 and 0.20 ten times over it is
    3.0000000000000013 and not 3. *)
Theorem total_revenue_drifts :
  total_revenue (stats Sample.dime_and_twenty) = 0x1.3333333333334p-2%float
  /\ parseFloat (10 + 20)%Z = 0x1.3333333333333p-2%float
  /\ total_revenue (stats Sample.dime_and_twenty) <> parseFloat (10 + 20)%Z
  /\ total_revenue (stats (Sample.ten_times Sample.dime_and_twenty))
     = 0x1.8000000000003p+1%float
  /\ parseFloat (10 * (10 + 20))%Z = 0x1.8p+1%float
  /\ total_revenue (stats (Sample.ten_times Sample.dime_and_twenty))
     <> parseFloat (10 * (10 + 20))%Z.
Proof.
  repeat split; try (vm_compute; reflexivity).
  - intro H.
    apply (f_equal (PrimFloat.eqb (parseFloat (10 + 20)%Z))) in H.
    vm_compute in H. discriminate H.
  - intro H.
    apply (f_equal (PrimFloat.eqb (parseFloat (10 * (10 + 20))%Z))) in H.
    vm_compute in H. discriminate H.
Qed.

(** ** Status changes *)

Lemma orders_update_rows_absent (s : Store) now id d (l : list Order.t) :
  existsb (fun o => N.eqb (Order.id o) id) l = false ->
  orders_update_rows s now id d l = inr (l, []).
Proof.
  induction l as [|o l IH]; simpl; [reflexivity|].
  intros H. apply orb_false_iff in H as [Ho Hl].
  rewrite Ho, (IH Hl). reflexivity.
Qed.

(** A row whose status is outside the enum is refused, and every error the
    row constraints raise up to there is a validation error. *)
Lemma orders_row_bad_status id created updated (c : OrderColumns) :
  is_in status_values (c_status c) = false ->
  exists e, orders_row id created updated c = inl e
            /\ error_kind e = ValidationError.
Proof.
  intros Hs.
  destruct (orders_row id created updated c) as [e|row] eqn:Hrow.
  - exists e. split; [reflexivity|]. exact (orders_row_kind _ _ _ _ _ Hrow).
  - apply orders_row_sound in Hrow. unfold columns_ok in Hrow.
    destruct (c_restaurant_id c), (c_customer_name c), (c_customer_phone c),
             (c_customer_address c), (c_total_amount c); try discriminate.
    rewrite Hs, !andb_false_r in Hrow. discriminate.
Qed.

Lemma orders_update_rows_bad_status (s : Store) now id d v (l : list Order.t) :
  d_status d = Value v ->
  is_in status_values (Some v) = false ->
  existsb (fun o => N.eqb (Order.id o) id) l = true ->
  exists e, orders_update_rows s now id d l = inl e
            /\ error_kind e = ValidationError.
Proof.
  intros Hd Hv. induction l as [|o l IH]; simpl; [discriminate|].
  destruct (N.eqb (Order.id o) id) eqn:Ho; simpl.
  - intros _. unfold orders_update_row.
    destruct (orders_row_bad_status (Order.id o) (Order.created_at o) now
                (update_columns o d)) as [e [He Hk]].
    { unfold update_columns; simpl. rewrite Hd. exact Hv. }
    rewrite He. simpl. eauto.
  - intros Hl. destruct (IH Hl) as [e [He Hk]]. rewrite He. simpl. eauto.
Qed.

Lemma text_of_truthy (v : JsValue) :
  truthy v = true -> exists t, text_of v = Value t /\ t <> ""%string.
Proof.
  destruct v as [| |[|]|t]; simpl; try discriminate.
  - intros _. eexists; split; [reflexivity|discriminate].
  - intros H. exists t. split; [reflexivity|].
    intros ->. discriminate.
Qed.

Lemma outside_status_values (v : JsValue) (t : string) :
  ~ status_value v -> text_of v = Value t -> truthy v = true ->
  is_in status_values (Some t) = false.
Proof.
  intros Hv Ht Htr.
  destruct (is_in status_values (Some t)) eqn:E; [|reflexivity].
  exfalso. unfold is_in in E.
  destruct v as [| |[|]|u]; simpl in Ht, Htr; try discriminate.
  - injection Ht as <-. discriminate.
  - injection Ht as ->. apply Hv. exists t. split; [reflexivity|].
    apply existsb_exists in E as [x [Hx Ex]].
    apply String.eqb_eq in Ex. now subst.
Qed.

(** C9: a body without [status] is answered 400 with
    [{ success: false, error: "Status is required" }], and the store is left
    as it was. *)
Theorem status_is_required (now : timestamptz) (id : uuid) (s : Store) :
  PATCH_id_status now id JsUndefined s
  = (json 400 (failure "Status is required"), s).
Proof. reflexivity. Qed.

(** C5, as the code has it: a status outside the enum never changes the
    store; the request fails with a validation error when the status is
    missing or empty or when an order with the id is stored, and with a
    missing-row error, not a validation error, when the status is non-empty
    and no order has the id. *)
Theorem invalid_status_is_refused (now : timestamptz) (id : uuid)
    (status : JsValue) (s : Store) :
  ~ status_value status ->
  snd (PATCH_id_status now id status s) = s
  /\ (truthy status = false \/ order_exists s id = true ->
      failure_kind (fst (PATCH_id_status now id status s)) = Some ValidationError)
  /\ (truthy status = true /\ order_exists s id = false ->
      fst (PATCH_id_status now id status s) = next PGRST116
      /\ failure_kind (fst (PATCH_id_status now id status s)) = Some NotFound).
Proof.
  intros Hv. unfold PATCH_id_status.
  destruct (truthy status) eqn:Htr; simpl.
  2:{ split; [reflexivity|]. split; [reflexivity|]. intros [? _]; discriminate. }
  destruct (text_of_truthy status Htr) as [t [Ht Hne]].
  pose proof (outside_status_values status t Hv Ht Htr) as Hout.
  assert (Hcol : names_no_column (only_status status) = false).
  { unfold names_no_column, only_status; simpl. now rewrite Ht. }
  unfold try_catch, bind, await, single, orders_update. rewrite Hcol.
  destruct (order_exists s id) eqn:Hex; unfold order_exists in Hex.
  - destruct (orders_update_rows_bad_status s now id (only_status status) t
                (orders s)) as [e [He Hk]]; auto.
    rewrite He. simpl. split; [reflexivity|]. split.
    + intros _. now rewrite Hk.
    + intros [_ ?]; discriminate.
  - rewrite (orders_update_rows_absent s now id _ _ Hex). simpl.
    split; [reflexivity|]. split.
    + intros [?|?]; discriminate.
    + intros _. split; reflexivity.
Qed.

Lemma shipped_is_no_status : ~ status_value (JsString "shipped").
Proof.
  intros [t [E H]]. injection E as <-. simpl in H.
  repeat (destruct H as [H|H]; [discriminate H|]). exact H.
Qed.

Lemma invalid_status_is_refused_on_johns_order :
  ~ status_value (JsString "shipped")
  /\ order_exists Sample.one_order 3 = true
  /\ snd (PATCH_id_status 9 3 (JsString "shipped") Sample.one_order)
     = Sample.one_order
  /\ failure_kind (fst (PATCH_id_status 9 3 (JsString "shipped") Sample.one_order))
     = Some ValidationError.
Proof.
  split; [exact shipped_is_no_status|].
  split; [reflexivity|].
  pose proof (invalid_status_is_refused 9 3 (JsString "shipped") Sample.one_order
                shipped_is_no_status)
    as [Hs [Hk _]].
  split; [exact Hs|].
  apply Hk. right. reflexivity.
Defined.

(** C5 as stated fails where no order has the id: the handler forwards
    PGRST116, a missing row and no validation error. *)
Lemma unknown_order_is_no_validation_error :
  ~ status_value (JsString "shipped")
  /\ PATCH_id_status 9 99 (JsString "shipped") Sample.one_order
     = (next PGRST116, Sample.one_order)
  /\ failure_kind (fst (PATCH_id_status 9 99 (JsString "shipped") Sample.one_order))
     <> Some ValidationError.
Proof.
  split; [exact shipped_is_no_status|].
  split; [reflexivity|].
  vm_compute. discriminate.
Qed.

(** ** Deleting *)

Lemma filter_none {A} (p q : A -> bool) (l : list A) :
  (forall x, In x l -> p x = true -> q x = false) ->
  filter p (filter q l) = [].
Proof.
  intros H. induction l as [|x l IH]; simpl; [reflexivity|].
  destruct (q x) eqn:Q; simpl.
  - destruct (p x) eqn:P.
    + rewrite (H x) in Q; [discriminate|now left|exact P].
    + apply IH. intros y Hy. apply H. now right.
  - apply IH. intros y Hy. apply H. now right.
Qed.

Lemma filter_all {A} (p : A -> bool) (l : list A) :
  (forall x, In x l -> p x = true) -> filter p l = l.
Proof.
  intros H. induction l as [|x l IH]; simpl; [reflexivity|].
  rewrite (H x) by now left. f_equal. apply IH. intros y Hy. apply H. now right.
Qed.

Lemma filter_nothing {A} (p : A -> bool) (l : list A) :
  existsb p l = false -> filter p l = [].
Proof.
  induction l as [|x l IH]; simpl; [reflexivity|].
  intros H. apply orb_false_iff in H as [Hx Hl]. rewrite Hx. now apply IH.
Qed.

Lemma existsb_filter {A} (p q : A -> bool) (l : list A) :
  existsb q (filter p l) = existsb (fun x => p x && q x) l.
Proof.
  induction l as [|x l IH]; simpl; [reflexivity|].
  destruct (p x); simpl; now rewrite IH.
Qed.

(** C6: after [DELETE /:id] of a stored order, [GET /:id] answers 404
    "Order not found" and no row of [order_items] references the id. *)
Theorem deleted_order_is_gone (id : uuid) (s : Store) :
  order_exists s id = true ->
  fst (DELETE_id id s) = json 200 (success_message "Order deleted successfully")
  /\ GET_id id (snd (DELETE_id id s))
     = (json 404 (failure "Order not found"), snd (DELETE_id id s))
  /\ failure_kind (fst (GET_id id (snd (DELETE_id id s)))) = Some NotFound
  /\ filter (fun i => N.eqb (OrderItem.order_id i) id)
            (order_items (snd (DELETE_id id s))) = [].
Proof.
  intros Hex.
  assert (Hget : GET_id id (snd (DELETE_id id s))
                 = (json 404 (failure "Order not found"), snd (DELETE_id id s))).
  { unfold GET_id, try_catch, bind, await, maybeSingle, orders_select_eq_id.
    simpl.
    rewrite (filter_none (fun o => N.eqb (Order.id o) id)
               (fun o => negb (N.eqb (Order.id o) id)) (orders s)).
    - reflexivity.
    - intros o _ E. now rewrite E. }
  split; [reflexivity|]. split; [exact Hget|]. split; [now rewrite Hget|].
  simpl. apply filter_none. intros i _ E.
  apply N.eqb_eq in E. rewrite E, existsb_filter.
  unfold order_exists in Hex. apply existsb_exists in Hex as [o [Ho Eo]].
  apply negb_false_iff, existsb_exists. exists o. split; [exact Ho|].
  now rewrite Eo.
Qed.

Lemma deleted_order_is_gone_for_john :
  order_exists Sample.one_order 3 = true
  /\ GET_id 3 (snd (DELETE_id 3 Sample.one_order))
     = (json 404 (failure "Order not found"), snd (DELETE_id 3 Sample.one_order))
  /\ filter (fun i => N.eqb (OrderItem.order_id i) 3)
            (order_items (snd (DELETE_id 3 Sample.one_order))) = [].
Proof.
  split; [reflexivity|].
  pose proof (deleted_order_is_gone 3 Sample.one_order eq_refl) as [_ [Hg [_ Hi]]].
  split; [exact Hg|exact Hi].
Defined.

(** C8: [DELETE /:id] for an id no order has answers success and leaves the
    store as it was. *)
Theorem delete_of_nothing_succeeds (id : uuid) (s : Store) :
  order_exists s id = false ->
  DELETE_id id s = (json 200 (success_message "Order deleted successfully"), s).
Proof.
  intros Hex. unfold order_exists in Hex.
  unfold DELETE_id, try_catch, bind, await, orders_delete, ret.
  rewrite (filter_nothing _ _ Hex). simpl.
  rewrite !filter_all.
  - now destruct s.
  - reflexivity.
  - intros o Ho. apply negb_true_iff.
    destruct (N.eqb (Order.id o) id) eqn:E; [|reflexivity].
    rewrite <- Hex. symmetry. apply existsb_exists. now exists o.
Qed.

Lemma delete_of_nothing_succeeds_on_sample :
  order_exists Sample.one_order 99 = false
  /\ DELETE_id 99 Sample.one_order
     = (json 200 (success_message "Order deleted successfully"), Sample.one_order).
Proof.
  split; [reflexivity|].
  apply delete_of_nothing_succeeds. reflexivity.
Defined.

(** ** Updating *)

Lemma existsb_id_map (x : uuid) (l : list Order.t) :
  existsb (N.eqb x) (map Order.id l)
  = existsb (fun o => N.eqb (Order.id o) x) l.
Proof.
  induction l as [|o l IH]; simpl; [reflexivity|].
  now rewrite IH, N.eqb_sym.
Qed.

Lemma replace_order_absent id row (l : list Order.t) :
  existsb (fun o => N.eqb (Order.id o) id) l = false ->
  replace_order id row l = l.
Proof.
  induction l as [|o l IH]; simpl; [reflexivity|].
  intros H. apply orb_false_iff in H as [Ho Hl]. now rewrite Ho, IH.
Qed.

(** Under the primary key, [UPDATE ... WHERE id = id] touches the one row
    that has the id. *)
Lemma orders_update_rows_one (s : Store) now id d (row : Order.t) :
  forall (l : list Order.t) (o : Order.t),
    distinct (map Order.id l) = true ->
    In o l -> Order.id o = id ->
    orders_update_row s now d o = inr row ->
    orders_update_rows s now id d l = inr (replace_order id row l, [row]).
Proof.
  induction l as [|a l IH]; simpl; intros o Hd Hin Hid Hrow; [contradiction|].
  apply andb_prop in Hd as [Ha Hd]. apply negb_true_iff in Ha.
  rewrite existsb_id_map in Ha.
  destruct Hin as [->|Hin].
  - rewrite Hid, N.eqb_refl, Hrow. simpl. rewrite Hid in Ha.
    rewrite (orders_update_rows_absent s now id d l Ha). simpl.
    now rewrite (replace_order_absent id row l Ha).
  - destruct (N.eqb (Order.id a) id) eqn:E.
    + exfalso. apply N.eqb_eq in E. rewrite E in Ha.
      assert (existsb (fun o0 => N.eqb (Order.id o0) id) l = true) as Hx.
      { apply existsb_exists. exists o. split; [exact Hin|].
        now apply N.eqb_eq. }
      congruence.
    + rewrite (IH o Hd Hin Hid Hrow). reflexivity.
Qed.

Lemma orders_update_row_ok (s : Store) now d (o : Order.t) :
  columns_ok (update_columns o d) = true ->
  references_ok s (update_columns o d) = true ->
  exists row, orders_update_row s now d o = inr row
              /\ row_columns row = update_columns o d
              /\ Order.id row = Order.id o
              /\ Order.created_at row = Order.created_at o
              /\ Order.updated_at row = now.
Proof.
  intros Hc Hr. unfold orders_update_row.
  destruct (orders_row_ok (Order.id o) (Order.created_at o) now _ Hc)
    as [row [Hrow [Hcols Hrest]]].
  rewrite Hrow. simpl.
  unfold references_ok in Hr. rewrite <- Hcols in Hr. simpl in Hr.
  rewrite Hr, orb_true_r. simpl. exists row. auto.
Qed.

Lemma orders_update_row_refused (s : Store) now d (o : Order.t) :
  columns_ok (update_columns o d) = false ->
  exists e, orders_update_row s now d o = inl e
            /\ error_kind e = ValidationError.
Proof.
  intros Hc. unfold orders_update_row.
  destruct (orders_row (Order.id o) (Order.created_at o) now (update_columns o d))
    as [e|row] eqn:Hrow; cbn [and_then].
  - exists e. split; [reflexivity|]. exact (orders_row_kind _ _ _ _ _ Hrow).
  - apply orders_row_sound in Hrow. congruence.
Qed.

(** Under the primary key, an [UPDATE] fails when the one row that has the
    id is refused. *)
Lemma orders_update_rows_refused (s : Store) now id d (e : PgError) :
  forall (l : list Order.t) (o : Order.t),
    distinct (map Order.id l) = true ->
    In o l -> Order.id o = id ->
    orders_update_row s now d o = inl e ->
    orders_update_rows s now id d l = inl e.
Proof.
  induction l as [|a l IH]; simpl; intros o Hd Hin Hid Hrow; [contradiction|].
  apply andb_prop in Hd as [Ha Hd]. apply negb_true_iff in Ha.
  rewrite existsb_id_map in Ha.
  destruct Hin as [->|Hin].
  - now rewrite Hid, N.eqb_refl, Hrow.
  - destruct (N.eqb (Order.id a) id) eqn:E.
    + exfalso. apply N.eqb_eq in E. rewrite E in Ha.
      assert (existsb (fun o0 => N.eqb (Order.id o0) id) l = true) as Hx.
      { apply existsb_exists. exists o. split; [exact Hin|].
        now apply N.eqb_eq. }
      congruence.
    + now rewrite (IH o Hd Hin Hid Hrow).
Qed.

(** C7, as the code has it: [PUT /:id] forwards PGRST116, a missing row,
    when no order has the id; for a stored order and a body that names a
    column and leaves the row within the constraints of the table, the
    answer is the whole new row, which carries the body's values over the
    old ones and [updated_at] set to the time of the update, and that row
    replaces the old one in the store; for a stored order and a body that
    takes the row outside the column constraints, the request fails with a
    validation error and the store stays as it was. *)
Theorem update_refreshes_and_returns (now : timestamptz) (id : uuid)
    (d : OrderData) (s : Store) :
  (order_exists s id = false ->
   PUT_id now id d s = (next PGRST116, s)
   /\ failure_kind (fst (PUT_id now id d s)) = Some NotFound)
  /\ (forall o,
        well_formed s = true ->
        In o (orders s) -> Order.id o = id ->
        names_no_column d = false ->
        columns_ok (update_columns o d) = true ->
        references_ok s (update_columns o d) = true ->
        exists row,
          PUT_id now id d s
          = (json 200 (success_data row),
             with_orders s (replace_order id row (orders s)))
          /\ row_columns row = update_columns o d
          /\ Order.id row = id
          /\ Order.created_at row = Order.created_at o
          /\ Order.updated_at row = now)
  /\ (forall o,
        well_formed s = true ->
        In o (orders s) -> Order.id o = id ->
        names_no_column d = false ->
        columns_ok (update_columns o d) = false ->
        exists e,
          PUT_id now id d s = (next e, s)
          /\ error_kind e = ValidationError).
Proof.
  split; [|split].
  3:{ intros o Hwf Hin Hid Hcol Hc.
      destruct (orders_update_row_refused s now d o Hc) as [e [Hrow Hk]].
      exists e. split; [|exact Hk].
      unfold well_formed in Hwf.
      apply andb_prop in Hwf as [Hwf _]. apply andb_prop in Hwf as [Hd _].
      unfold PUT_id, try_catch, bind, await, single, orders_update.
      rewrite Hcol.
      now rewrite (orders_update_rows_refused s now id d e (orders s) o
                     Hd Hin Hid Hrow). }
  - intros Hex. unfold order_exists in Hex.
    assert (H : PUT_id now id d s = (next PGRST116, s)).
    { unfold PUT_id, try_catch, bind, await, single, orders_update.
      destruct (names_no_column d); [reflexivity|].
      now rewrite (orders_update_rows_absent s now id d _ Hex). }
    now rewrite H.
  - intros o Hwf Hin Hid Hcol Hc Hr.
    destruct (orders_update_row_ok s now d o Hc Hr)
      as [row [Hrow [Hcols [Hi [Hcr Hup]]]]].
    exists row. repeat split; try assumption; [|congruence].
    unfold well_formed in Hwf.
    apply andb_prop in Hwf as [Hwf _]. apply andb_prop in Hwf as [Hd _].
    unfold PUT_id, try_catch, bind, await, single, orders_update.
    rewrite Hcol.
    now rewrite (orders_update_rows_one s now id d row (orders s) o Hd Hin Hid Hrow).
Qed.

Lemma unknown_status_update_is_refused :
  order_exists Sample.one_order 3 = true
  /\ PUT_id 9 3 (Sample.status_only (Value "shipped"%string)) Sample.one_order
     = (next (check_violation "orders_status_check"), Sample.one_order)
  /\ map Order.updated_at
         (orders (snd (PUT_id 9 3 (Sample.status_only (Value "shipped"%string))
                              Sample.one_order)))
     = [7%N]
  /\ forall row,
       fst (PUT_id 9 3 (Sample.status_only (Value "shipped"%string))
                   Sample.one_order)
       <> json 200 (success_data row).
Proof.
  repeat split; try reflexivity.
  intros row. vm_compute. discriminate.
Qed.

Lemma update_refreshes_and_returns_for_john :
  PUT_id 9 99 (Sample.status_only (Value "delivered"%string)) Sample.one_order
  = (next PGRST116, Sample.one_order)
  /\ exists row,
       fst (PUT_id 9 3 (Sample.status_only (Value "delivered"%string))
                   Sample.one_order)
       = json 200 (success_data row)
       /\ Order.status row = Some "delivered"%string
       /\ Order.updated_at row = 9%N.
Proof.
  destruct (update_refreshes_and_returns 9 99
              (Sample.status_only (Value "delivered"%string)) Sample.one_order)
    as [Habsent _].
  destruct (update_refreshes_and_returns 9 3
              (Sample.status_only (Value "delivered"%string)) Sample.one_order)
    as [_ [Hstored _]].
  split; [apply Habsent; reflexivity|].
  destruct (Hstored Sample.johns_order) as [row [Hput [Hcols [_ [_ Hup]]]]];
    try reflexivity; [now left|].
  exists row. split; [now rewrite Hput|].
  split; [|exact Hup].
  apply (f_equal c_status) in Hcols. exact Hcols.
Defined.

(** ** Creating *)

Lemma fits_integer_spec (q : Z) :
  fits_integer (Some q) = true <-> (- 2147483648 <= q < 2147483648)%Z.
Proof.
  unfold fits_integer. rewrite andb_true_iff, Z.leb_le, Z.ltb_lt.
  change (2 ^ 31)%Z with 2147483648%Z. lia.
Qed.

Lemma fits_numeric_10_2_spec (x : Z) :
  fits_numeric_10_2 (Some x) = true <-> (- 10000000000 < x < 10000000000)%Z.
Proof.
  unfold fits_numeric_10_2. rewrite Z.ltb_lt.
  change (10 ^ 10)%Z with 10000000000%Z. lia.
Qed.

Lemma item_ok_spec (i : ItemData) :
  item_ok i = true <->
  exists m q p,
    item_triple i = (Some m, Some q, Some p)
    /\ (0 < q < 2147483648)%Z /\ (0 <= p < 10000000000)%Z
    /\ (q * p < 10000000000)%Z.
Proof.
  unfold item_ok, item_triple.
  destruct (i_menu_item_id i) as [m|], (i_quantity i) as [q|], (i_price i) as [p|];
    try (split; [discriminate | intros (? & ? & ? & [=] & _)]).
  rewrite !andb_true_iff, !Z.ltb_lt, Z.leb_le.
  change (2 ^ 31)%Z with 2147483648%Z. change (10 ^ 10)%Z with 10000000000%Z.
  split.
  - intros ?. exists m, q, p. split; [reflexivity|lia].
  - intros (? & ? & ? & [= <- <- <-] & ?). lia.
Qed.

(** The row [POST /] inserts for an item that meets the constraints. *)
Lemma order_items_row_ok (id oid : uuid) (i : ItemData) :
  item_ok i = true ->
  exists row,
    order_items_row id {| n_order_id := oid;
                          n_menu_item_id := i_menu_item_id i;
                          n_quantity := i_quantity i;
                          n_price := i_price i |} = inr row
    /\ row_triple row = item_triple i
    /\ OrderItem.order_id row = oid
    /\ OrderItem.subtotal row = (OrderItem.quantity row * OrderItem.price row)%Z.
Proof.
  intros H. apply item_ok_spec in H as (m & q & p & Ht & Hq & Hp & Hqp).
  unfold item_triple in Ht. injection Ht as Hm Hq' Hp'.
  unfold order_items_row, item_triple.
  cbn [n_order_id n_menu_item_id n_quantity n_price].
  rewrite Hm, Hq', Hp'.
  assert (Fq : fits_integer (Some q) = true) by (apply fits_integer_spec; lia).
  assert (Fp : fits_numeric_10_2 (Some p) = true)
    by (apply fits_numeric_10_2_spec; lia).
  assert (Fs : fits_numeric_10_2 (Some (q * p)%Z) = true)
    by (apply fits_numeric_10_2_spec; nia).
  assert (Cp : (0 <=? p)%Z = true) by (apply Z.leb_le; lia).
  assert (Cq : (0 <? q)%Z = true) by (apply Z.ltb_lt; lia).
  rewrite Fq, Fp, Fs. cbn [andb check and_then not_null]. rewrite Cp, Cq.
  cbn [check and_then]. eexists. repeat split.
Qed.

(** A row the constraints of [order_items] accept comes from an item that
    meets them. *)
Lemma order_items_row_sound (id oid : uuid) (i : ItemData) (row : OrderItem.t) :
  order_items_row id {| n_order_id := oid;
                        n_menu_item_id := i_menu_item_id i;
                        n_quantity := i_quantity i;
                        n_price := i_price i |} = inr row ->
  item_ok i = true.
Proof.
  unfold order_items_row. cbn [n_order_id n_menu_item_id n_quantity n_price].
  intros H. apply item_ok_spec. unfold item_triple.
  destruct (i_menu_item_id i) as [m|], (i_quantity i) as [q|], (i_price i) as [p|];
    try (repeat match type of H with
                | context [check ?b ?e] => destruct b; cbn [check and_then] in H
                end; discriminate H).
  destruct (fits_integer (Some q) && fits_numeric_10_2 (Some p)) eqn:F;
    cbn [check and_then] in H; [|discriminate].
  destruct (fits_numeric_10_2 (Some (q * p)%Z)) eqn:Fs;
    cbn [check and_then not_null] in H; [|discriminate].
  destruct (0 <=? p)%Z eqn:Cp; cbn [check and_then] in H; [|discriminate].
  destruct (0 <? q)%Z eqn:Cq; cbn [check and_then] in H; [|discriminate].
  apply andb_prop in F as [Fq Fp].
  apply fits_integer_spec in Fq. apply fits_numeric_10_2_spec in Fp, Fs.
  apply Z.leb_le in Cp. apply Z.ltb_lt in Cq.
  exists m, q, p. split; [reflexivity|lia].
Qed.

(** Every error of the row constraints of [order_items] is a validation
    error. *)
Lemma order_items_row_kind (id : uuid) (r : OrderItemInsert) (e : PgError) :
  order_items_row id r = inl e -> error_kind e = ValidationError.
Proof.
  unfold order_items_row. intros H.
  repeat match type of H with
         | context [check ?b ?e] => destruct b; cbn [check and_then] in H
         | context [not_null ?c ?v] => destruct v; cbn [not_null and_then] in H
         end;
    try discriminate H; injection H as <-; reflexivity.
Qed.

Lemma order_items_rows_ok (order : Order.t) (items : list ItemData) :
  forall id,
    forallb item_ok items = true ->
    exists rows,
      order_items_rows id (orderItems order items) = inr rows
      /\ map row_triple rows = map item_triple items
      /\ Forall (fun r => OrderItem.order_id r = Order.id order
                          /\ OrderItem.subtotal r
                             = (OrderItem.quantity r * OrderItem.price r)%Z) rows.
Proof.
  induction items as [|i items IH]; intros id H.
  - exists []. repeat split. constructor.
  - simpl in H. apply andb_prop in H as [Hi H].
    destruct (order_items_row_ok id (Order.id order) i Hi)
      as [row [Hrow [Ht [Ho Hs]]]].
    destruct (IH (N.succ id) H) as [rows [Hrows [Hts Hall]]].
    exists (row :: rows). cbn [orderItems map order_items_rows].
    fold (orderItems order items). rewrite Hrow, Hrows. cbn [and_then].
    repeat split; [now rewrite Ht, Hts|]. constructor; auto.
Qed.

(** When the row constraints refuse a batch, some item does not meet them
    and the error is a validation error; when they accept it, every item
    meets them. *)
Lemma order_items_rows_refused (order : Order.t) (items : list ItemData) :
  forall id,
    match order_items_rows id (orderItems order items) with
    | inl e => forallb item_ok items = false /\ error_kind e = ValidationError
    | inr _ => forallb item_ok items = true
    end.
Proof.
  induction items as [|i items IH]; intros id; [reflexivity|].
  cbn [orderItems map order_items_rows forallb]. fold (orderItems order items).
  destruct (order_items_row id _) as [e|row] eqn:Hrow; cbn [and_then].
  - split; [|exact (order_items_row_kind _ _ _ Hrow)].
    destruct (item_ok i) eqn:Hi; [|reflexivity].
    destruct (order_items_row_ok id (Order.id order) i Hi) as [r [Hr _]].
    congruence.
  - rewrite (order_items_row_sound _ _ _ _ Hrow). cbn [andb].
    specialize (IH (N.succ id)).
    destruct (order_items_rows (N.succ id) (orderItems order items)); exact IH.
Qed.

Lemma all_references_ok (s : Store) (rows : list OrderItem.t) :
  Forall (fun r => order_exists s (OrderItem.order_id r) = true
                   /\ menu_item_exists s (OrderItem.menu_item_id r) = true) rows ->
  all_references s rows = inr tt.
Proof.
  induction 1 as [|r rows [Ho Hm] _ IH]; [reflexivity|].
  cbn [all_references]. unfold order_items_references.
  rewrite Ho, Hm. exact IH.
Qed.

(** When every row references a stored order, the only reference that can
    dangle is the one to the menu item. *)
Lemma all_references_refused (s : Store) (rows : list OrderItem.t) (e : PgError) :
  Forall (fun r => order_exists s (OrderItem.order_id r) = true) rows ->
  all_references s rows = inl e ->
  e = foreign_key_violation "order_items_menu_item_id_fkey"
  /\ existsb (fun r => negb (menu_item_exists s (OrderItem.menu_item_id r))) rows
     = true.
Proof.
  induction 1 as [|r rows Ho _ IH]; [discriminate|].
  cbn [all_references existsb]. unfold order_items_references.
  rewrite Ho. cbn [check and_then].
  destruct (menu_item_exists s (OrderItem.menu_item_id r)); cbn [check and_then negb orb].
  - exact IH.
  - intros [= <-]. split; reflexivity.
Qed.

Lemma dangling_rows_items (s : Store) :
  forall (rows : list OrderItem.t) (items : list ItemData),
    map row_triple rows = map item_triple items ->
    existsb (fun r => negb (menu_item_exists s (OrderItem.menu_item_id r))) rows
    = existsb (fun i => negb (item_references_menu s i)) items.
Proof.
  induction rows as [|r rows IH]; intros [|i items] H; try discriminate;
    [reflexivity|].
  cbn [map] in H. unfold row_triple at 1, item_triple at 1 in H.
  injection H as Hm _ _ Hts.
  cbn [existsb]. rewrite (IH items Hts). f_equal.
  unfold item_references_menu. now rewrite <- Hm.
Qed.

(** What a successful [INSERT] of a header leaves behind. *)
Lemma orders_insert_inv now d (s s1 : Store) (order : Order.t) :
  orders_insert now d s = inr ([order], s1) ->
  restaurants s1 = restaurants s
  /\ menu_items s1 = menu_items s
  /\ orders s1 = orders s ++ [order]
  /\ order_items s1 = order_items s
  /\ uuid_supply s1 = N.succ (uuid_supply s)
  /\ order_exists s1 (Order.id order) = true.
Proof.
  unfold orders_insert.
  destruct (orders_row (uuid_supply s) now now (insert_columns d)) as [e|row];
    cbn [and_then]; [discriminate|].
  destruct (restaurant_exists s (Order.restaurant_id row));
    cbn [check and_then]; [|discriminate].
  intros [= <- <-]. cbn. repeat split.
  unfold order_exists. cbn. rewrite existsb_app. cbn.
  now rewrite N.eqb_refl, orb_true_r.
Qed.

(** C2, as the code has it: when the header is stored and the batch of
    items is refused, [POST /] forwards the error of the batch, no row of
    [order_items] is stored and the header stays.  The error is a dangling
    reference to a menu item when every item meets the column constraints,
    and a validation error when one does not. *)
Theorem refused_items_leave_the_header (now : timestamptz) (d : OrderData)
    (items : option (list ItemData)) (s s1 : Store) (order : Order.t)
    (e : PgError) :
  orders_insert now d s = inr ([order], s1) ->
  has_items items = true ->
  order_items_insert (orderItems order (items_of items)) s1 = inl e ->
  POST now d items s = (next e, s1)
  /\ order_items s1 = order_items s
  /\ orders s1 = orders s ++ [order]
  /\ if forallb item_ok (items_of items)
     then e = foreign_key_violation "order_items_menu_item_id_fkey"
          /\ error_kind e = ReferenceError
          /\ existsb (fun i => negb (item_references_menu s i)) (items_of items)
             = true
     else error_kind e = ValidationError.
Proof.
  intros Hins Hhas Hfail.
  destruct (orders_insert_inv now d s s1 order Hins)
    as (_ & Hmenu & Horders & Hitems & _ & Hex).
  split.
  { unfold POST, try_catch, bind, await, single. rewrite Hins. cbn [and_then].
    rewrite Hhas, Hfail. reflexivity. }
  split; [exact Hitems|]. split; [exact Horders|].
  unfold order_items_insert in Hfail.
  pose proof (order_items_rows_refused order (items_of items) (uuid_supply s1))
    as Hrows.
  destruct (order_items_rows (uuid_supply s1) (orderItems order (items_of items)))
    as [e'|rows] eqn:Erows; cbn [and_then] in Hfail.
  - destruct Hrows as [Hno Hk]. rewrite Hno. congruence.
  - rewrite Hrows.
    destruct (order_items_rows_ok order (items_of items) (uuid_supply s1) Hrows)
      as [rows' [Erows' [Ht Hall]]].
    assert (rows' = rows) by congruence. subst rows'.
    destruct (all_references s1 rows) as [e'|[]] eqn:Eref;
      cbn [and_then] in Hfail; [|discriminate].
    injection Hfail as <-.
    destruct (all_references_refused s1 rows e') as [-> Hd]; [|exact Eref|].
    { eapply Forall_impl; [|exact Hall]. cbn. intros r [-> _]. exact Hex. }
    repeat split.
    rewrite <- (dangling_rows_items s rows (items_of items) Ht), <- Hd.
    unfold menu_item_exists. now rewrite Hmenu.
Qed.

Lemma quantity_zero_is_no_reference_error :
  orders (snd (POST 7 Sample.john_doe (Some [Sample.pizzas 2 0]) Sample.no_orders))
  = [Sample.johns_order]
  /\ order_items
       (snd (POST 7 Sample.john_doe (Some [Sample.pizzas 2 0]) Sample.no_orders))
     = []
  /\ fst (POST 7 Sample.john_doe (Some [Sample.pizzas 2 0]) Sample.no_orders)
     = next (check_violation "order_items_quantity_check")
  /\ failure_kind
       (fst (POST 7 Sample.john_doe (Some [Sample.pizzas 2 0]) Sample.no_orders))
     <> Some ReferenceError.
Proof.
  repeat split; try reflexivity. vm_compute. discriminate.
Qed.

Lemma refused_items_leave_johns_header :
  POST 7 Sample.john_doe (Some [Sample.pizzas 9 2]) Sample.no_orders
  = (next (foreign_key_violation "order_items_menu_item_id_fkey"),
     Sample.header_only)
  /\ order_items Sample.header_only = []
  /\ orders Sample.header_only = [Sample.johns_order].
Proof.
  destruct (refused_items_leave_the_header 7 Sample.john_doe
              (Some [Sample.pizzas 9 2]) Sample.no_orders Sample.header_only
              Sample.johns_order
              (foreign_key_violation "order_items_menu_item_id_fkey"))
    as [Hpost [Hitems [Horders _]]]; try reflexivity.
  split; [exact Hpost|]. split; [exact Hitems|exact Horders].
Defined.

Lemma well_formed_fresh_order (s : Store) :
  well_formed s = true ->
  existsb (fun o => N.eqb (Order.id o) (uuid_supply s)) (orders s) = false.
Proof.
  unfold well_formed. intros H.
  apply andb_prop in H as [H _]. apply andb_prop in H as [_ H].
  rewrite forallb_forall in H.
  destruct (existsb _ (orders s)) eqn:E; [|reflexivity].
  apply existsb_exists in E as [o [Ho Eo]].
  apply H in Ho. apply N.ltb_lt in Ho. apply N.eqb_eq in Eo. lia.
Qed.

Lemma well_formed_fresh_items (s : Store) :
  well_formed s = true ->
  existsb (fun i => N.eqb (OrderItem.order_id i) (uuid_supply s)) (order_items s)
  = false.
Proof.
  intros H. pose proof (well_formed_fresh_order s H) as Hfresh.
  unfold well_formed in H. apply andb_prop in H as [_ H].
  rewrite forallb_forall in H.
  destruct (existsb _ (order_items s)) eqn:E; [|reflexivity].
  apply existsb_exists in E as [i [Hi Ei]].
  apply H in Hi. unfold order_exists in Hi. apply N.eqb_eq in Ei.
  rewrite Ei in Hi. congruence.
Qed.

(** What [POST /] does with a body that meets the constraints. *)
Lemma POST_accepts (now : timestamptz) (d : OrderData)
    (items : option (list ItemData)) (s : Store) :
  columns_ok (insert_columns d) = true ->
  references_ok s (insert_columns d) = true ->
  forallb item_ok (items_of items) = true ->
  forallb (item_references_menu s) (items_of items) = true ->
  exists order rows s',
    POST now d items s = (json 201 (success_data order), s')
    /\ restaurants s' = restaurants s
    /\ menu_items s' = menu_items s
    /\ orders s' = orders s ++ [order]
    /\ order_items s' = order_items s ++ rows
    /\ Order.id order = uuid_supply s
    /\ Order.created_at order = now
    /\ Order.updated_at order = now
    /\ row_columns order = insert_columns d
    /\ map row_triple rows = map item_triple (items_of items)
    /\ Forall (fun r => OrderItem.order_id r = Order.id order
                        /\ OrderItem.subtotal r
                           = (OrderItem.quantity r * OrderItem.price r)%Z) rows.
Proof.
  intros Hc Hr Hi Hm.
  destruct (orders_row_ok (uuid_supply s) now now (insert_columns d) Hc)
    as [order [Hrow [Hcols [Hid [Hcr Hup]]]]].
  assert (Hrest : restaurant_exists s (Order.restaurant_id order) = true).
  { unfold references_ok in Hr. rewrite <- Hcols in Hr. exact Hr. }
  set (s1 := {| restaurants := restaurants s;
                menu_items := menu_items s;
                orders := orders s ++ [order];
                order_items := order_items s;
                uuid_supply := N.succ (uuid_supply s) |}).
  assert (Hins : orders_insert now d s = inr ([order], s1)).
  { unfold orders_insert. rewrite Hrow. cbn [and_then]. rewrite Hrest.
    reflexivity. }
  destruct (orders_insert_inv now d s s1 order Hins) as (_ & _ & _ & _ & _ & Hex).
  exists order.
  destruct (has_items items) eqn:Hhas.
  - destruct (order_items_rows_ok order (items_of items) (uuid_supply s1) Hi)
      as [rows [Hrows [Ht Hall]]].
    assert (Href : all_references s1 rows = inr tt).
    { apply all_references_ok.
      assert (Hmenu : forall r, In r rows ->
                menu_item_exists s1 (OrderItem.menu_item_id r) = true).
      { intros r Hin.
        assert (Hd : existsb (fun r => negb (menu_item_exists s
                                (OrderItem.menu_item_id r))) rows = false).
        { rewrite (dangling_rows_items s rows (items_of items) Ht).
          destruct (existsb _ (items_of items)) eqn:E; [|reflexivity].
          apply existsb_exists in E as [i [Hin' Ei]].
          rewrite forallb_forall in Hm. rewrite (Hm i Hin') in Ei. discriminate. }
        destruct (menu_item_exists s1 (OrderItem.menu_item_id r)) eqn:E;
          [reflexivity|].
        rewrite <- Hd. apply existsb_exists. exists r.
        split; [exact Hin|]. unfold menu_item_exists in *. cbn in E.
        now rewrite E. }
      rewrite Forall_forall in *. intros r Hin. split; [|now apply Hmenu].
      destruct (Hall r Hin) as [-> _]. exact Hex. }
    eexists rows, _. split.
    { unfold POST, try_catch, bind, await, single. rewrite Hins.
      cbn [and_then]. rewrite Hhas. unfold order_items_insert.
      rewrite Hrows. cbn [and_then]. rewrite Href. reflexivity. }
    cbn. repeat split; assumption.
  - assert (Hnil : items_of items = []).
    { destruct items as [[|? ?]|]; try reflexivity. discriminate. }
    exists [], s1. split.
    { unfold POST, try_catch, bind, await, single. rewrite Hins.
      cbn [and_then]. rewrite Hhas. reflexivity. }
    cbn. rewrite Hnil, app_nil_r. repeat split; try assumption. constructor.
Qed.

(** What [GET /:id] answers after an accepted [POST /]. *)
Lemma POST_then_GET_id (now : timestamptz) (d : OrderData)
    (items : option (list ItemData)) (s : Store) :
  well_formed s = true ->
  columns_ok (insert_columns d) = true ->
  references_ok s (insert_columns d) = true ->
  forallb item_ok (items_of items) = true ->
  forallb (item_references_menu s) (items_of items) = true ->
  exists created s' detail,
    POST now d items s = (json 201 (success_data created), s')
    /\ Order.id created = uuid_supply s
    /\ GET_id (Order.id created) s' = (json 200 (success_data detail), s')
    /\ order (header detail) = created
    /\ row_columns created = insert_columns d
    /\ Permutation (map row_triple (map item (OrdersRouter.items detail)))
                   (map item_triple (items_of items))
    /\ Forall (fun r => OrderItem.order_id r = Order.id created
                        /\ OrderItem.subtotal r
                           = (OrderItem.quantity r * OrderItem.price r)%Z)
              (map item (OrdersRouter.items detail)).
Proof.
  intros Hwf Hc Hr Hi Hm.
  destruct (POST_accepts now d items s Hc Hr Hi Hm)
    as (created & rows & s' & Hpost & _ & _ & Horders & Hitems & Hid & _ & _
        & Hcols & Ht & Hall).
  exists created, s',
    {| header := embed_restaurant s' created;
       OrdersRouter.items := map (embed_menu_item s') rows |}.
  assert (Hget_order :
            filter (fun o => N.eqb (Order.id o) (Order.id created)) (orders s')
            = [created]).
  { rewrite Horders, filter_app, Hid.
    rewrite (filter_nothing _ _ (well_formed_fresh_order s Hwf)).
    cbn. now rewrite <- Hid, N.eqb_refl. }
  assert (Hget_items :
            filter (fun i => N.eqb (OrderItem.order_id i) (Order.id created))
                   (order_items s')
            = rows).
  { rewrite Hitems, filter_app, Hid.
    rewrite (filter_nothing _ _ (well_formed_fresh_items s Hwf)).
    cbn. apply filter_all. intros r Hin. rewrite Forall_forall in Hall.
    destruct (Hall r Hin) as [-> _]. rewrite Hid. apply N.eqb_refl. }
  assert (Hmap : map item (map (embed_menu_item s') rows) = rows).
  { rewrite map_map. cbn. apply map_id. }
  split; [exact Hpost|]. split; [exact Hid|]. split.
  { unfold GET_id, try_catch, bind, await, maybeSingle, orders_select_eq_id,
      order_items_select_eq_order_id.
    cbn [and_then]. rewrite Hget_order. cbn [map]. rewrite Hget_items.
    reflexivity. }
  cbn [header OrdersRouter.items order embed_restaurant].
  rewrite Hmap. repeat split; try assumption.
  rewrite Ht. apply Permutation_refl.
Qed.

(** An amount of at most two decimals is stored as it is. *)
Lemma numeric_10_2_exact (x : Decimal) :
  (scale x <= 2)%nat -> is_amount x (numeric_10_2 x).
Proof.
  unfold is_amount, numeric_10_2.
  destruct x as [g [|[|[|sc]]]]; cbn [digits scale]; intros H; try lia.
  all: match goal with
       | |- context [(10 ^ Z.of_nat ?k)%Z] =>
           let d := eval vm_compute in (10 ^ Z.of_nat k)%Z in
           change (10 ^ Z.of_nat k)%Z with d
       end.
  all: destruct (Z.lt_trichotomy g 0) as [L|[L|L]]; [| subst; reflexivity |].
  all: try (rewrite Z.sgn_neg, Z.abs_neq by lia);
       try (rewrite Z.sgn_pos, Z.abs_eq by lia).
  all: match goal with
       | |- context [(?n / ?d)%Z] =>
           pose proof (Z.div_mod n d ltac:(lia));
           pose proof (Z.mod_pos_bound n d ltac:(lia)); lia
       end.
Qed.

(** A valid header gives a candidate row within the constraints of
    [orders], for a stored restaurant. *)
Lemma valid_header_columns (s : Store) (b : OrderJson) :
  valid_header s b = true ->
  columns_ok (insert_columns (orderData_of b)) = true
  /\ references_ok s (insert_columns (orderData_of b)) = true.
Proof.
  unfold valid_header, columns_ok, references_ok, restaurant_exists.
  destruct b as [r n p a st t f pm ps nt];
    cbn [j_restaurant_id j_customer_name j_customer_phone j_customer_address
         j_status j_total_amount j_delivery_fee j_payment_method
         j_payment_status j_notes orderData_of insert_columns
         d_restaurant_id d_customer_name d_customer_phone d_customer_address
         d_status d_total_amount d_delivery_fee d_payment_method
         d_payment_status d_notes
         c_restaurant_id c_customer_name c_customer_phone c_customer_address
         c_status c_total_amount c_delivery_fee c_payment_method
         c_payment_status c_notes].
  destruct r, n, p, a, t; try discriminate. cbn [column field_map].
  intros H. repeat (apply andb_prop in H as [H ?]).
  split; [|assumption].
  change (10 ^ 10)%Z with 10000000000%Z.
  repeat (apply andb_true_intro; split); try assumption.
  - destruct f; cbn [column field_map fits_numeric_10_2];
      [reflexivity|reflexivity|].
    change (10 ^ 10)%Z with 10000000000%Z. assumption.
  - destruct st; cbn [column is_in]; [reflexivity|reflexivity|assumption].
  - destruct pm; cbn [column is_in]; [reflexivity|reflexivity|assumption].
  - destruct ps; cbn [column is_in]; [reflexivity|reflexivity|assumption].
Qed.

(** The row stored for a valid header matches the header. *)
Lemma header_as_sent (s : Store) (b : OrderJson) (o : Order.t) :
  valid_header s b = true ->
  row_columns o = insert_columns (orderData_of b) ->
  header_matches b o.
Proof.
  unfold valid_header, header_matches, row_columns, insert_columns, orderData_of.
  destruct b as [r n p a st t f pm ps nt];
    cbn [j_restaurant_id j_customer_name j_customer_phone j_customer_address
         j_status j_total_amount j_delivery_fee j_payment_method
         j_payment_status j_notes
         d_restaurant_id d_customer_name d_customer_phone d_customer_address
         d_status d_total_amount d_delivery_fee d_payment_method
         d_payment_status d_notes].
  destruct r, n, p, a, t as [| |t]; try discriminate. intros _.
  cbn [column field_map]. intros H.
  injection H as Hr Hn Hp Ha Hst Ht Hf Hpm Hps Hnt.
  rewrite Hr, Hn, Hp, Ha, Hst, Ht, Hf, Hpm, Hps, Hnt.
  repeat split.
  - exists t. split; [reflexivity|]. split; [reflexivity|].
    apply numeric_10_2_exact.
  - destruct f as [| |fee]; cbn [column field_map]; try reflexivity.
    eexists. split; [reflexivity|]. split; [reflexivity|].
    apply numeric_10_2_exact.
Qed.

(** A valid item is within the constraints of [order_items], for a stored
    menu item. *)
Lemma valid_item_ok (s : Store) (i : ItemJson) :
  valid_item s i = true ->
  item_ok (itemData_of i) = true
  /\ item_references_menu s (itemData_of i) = true.
Proof.
  unfold valid_item, item_ok, item_references_menu, menu_item_exists, itemData_of.
  destruct i as [[m|] [q|] [p|]];
    cbn [k_menu_item_id k_quantity k_price i_menu_item_id i_quantity i_price
         option_map]; try discriminate.
  intros H. repeat (apply andb_prop in H as [H ?]).
  split; [|assumption].
  change (10 ^ 10)%Z with 10000000000%Z. change (2 ^ 31)%Z with 2147483648%Z.
  repeat (apply andb_true_intro; split); assumption.
Qed.

Lemma valid_items_ok (s : Store) (l : list ItemJson) :
  forallb (valid_item s) l = true ->
  forallb item_ok (map itemData_of l) = true
  /\ forallb (item_references_menu s) (map itemData_of l) = true.
Proof.
  induction l as [|i l IH]; cbn [forallb map]; [now split|].
  intros H. apply andb_prop in H as [Hi Hl].
  destruct (valid_item_ok s i Hi) as [-> ->].
  destruct (IH Hl) as [-> ->]. now split.
Qed.

(** The rows stored for the items match the items, one by one. *)
Lemma items_as_sent (l : list ItemJson) :
  forall rows : list OrderItem.t,
    map row_triple rows = map item_triple (map itemData_of l) ->
    Forall2 item_matches l rows.
Proof.
  induction l as [|i l IH]; intros [|r rows] H; try discriminate H.
  - constructor.
  - cbn [map] in H. unfold row_triple at 1, item_triple at 1, itemData_of at 1 in H.
    cbn [i_menu_item_id i_quantity i_price] in H.
    injection H as Hm Hq Hp Hl. constructor; [|exact (IH rows Hl)].
    unfold item_matches. split; [now symmetry|]. split; [now symmetry|].
    destruct (k_price i) as [p|]; [|discriminate Hp].
    cbn [option_map] in Hp. injection Hp as Hp.
    exists p. split; [reflexivity|]. split; [exact Hp|].
    intros Hs. rewrite Hp. now apply numeric_10_2_exact.
Qed.

Lemma items_of_sent (items : option (list ItemJson)) :
  items_of (option_map (map itemData_of) items) = map itemData_of (sent items).
Proof. now destruct items. Qed.

(** C3: for a valid header and valid items, [POST /] stores the order under
    a fresh id and answers it, and [GET /:id] on that id then answers that
    header, which matches the header sent (an amount rounded to hundredths,
    a missing key as its default), with items that match, as a multiset, the
    items sent: menu item and quantity as sent, the price rounded to
    hundredths, which is the price sent when that has at most two decimals;
    each item carries [subtotal = quantity * price]. *)
Theorem create_then_get (now : timestamptz) (body : OrderJson)
    (items : option (list ItemJson)) (s : Store) :
  well_formed s = true ->
  valid_header s body = true ->
  forallb (valid_item s) (sent items) = true ->
  exists created s' detail,
    POST_json now body items s = (json 201 (success_data created), s')
    /\ Order.id created = uuid_supply s
    /\ GET_id (Order.id created) s' = (json 200 (success_data detail), s')
    /\ order (header detail) = created
    /\ header_matches body created
    /\ (exists rows,
          Permutation rows (map item (OrdersRouter.items detail))
          /\ Forall2 item_matches (sent items) rows)
    /\ Forall (fun r => OrderItem.order_id r = Order.id created
                        /\ OrderItem.subtotal r
                           = (OrderItem.quantity r * OrderItem.price r)%Z)
              (map item (OrdersRouter.items detail)).
Proof.
  intros Hwf Hh Hi.
  destruct (valid_header_columns s body Hh) as [Hc Hr].
  destruct (valid_items_ok s (sent items) Hi) as [Hok Hm].
  rewrite <- items_of_sent in Hok, Hm.
  destruct (POST_then_GET_id now (orderData_of body)
              (option_map (map itemData_of) items) s Hwf Hc Hr Hok Hm)
    as (created & s' & detail & Hpost & Hid & Hget & Hheader & Hcols & Hperm
        & Hall).
  exists created, s', detail.
  split; [exact Hpost|]. split; [exact Hid|]. split; [exact Hget|].
  split; [exact Hheader|].
  split; [exact (header_as_sent s body created Hh Hcols)|].
  split; [|exact Hall].
  rewrite items_of_sent in Hperm.
  destruct (Permutation_map_inv _ _ (Permutation_sym Hperm)) as [rows [Hrows Hp]].
  exists rows. split; [now apply Permutation_sym|].
  apply items_as_sent. now symmetry.
Qed.

(** C3 on the example order of the README, with two pizzas at 12.99. *)
Lemma create_then_get_for_john :
  POST_json 7 Sample.john_doe_json
            (Some [Sample.pizzas_at {| digits := 1299; scale := 2 |} 2 2])
            Sample.no_orders
  = (json 201 (success_data Sample.johns_order), Sample.one_order)
  /\ exists detail,
       GET_id 3 Sample.one_order
       = (json 200 (success_data detail), Sample.one_order)
       /\ order (header detail) = Sample.johns_order
       /\ restaurants_name (header detail) = Some "Pizza Palace"%string
       /\ map item (OrdersRouter.items detail) = [Sample.johns_pizzas].
Proof.
  destruct (create_then_get 7 Sample.john_doe_json
              (Some [Sample.pizzas_at {| digits := 1299; scale := 2 |} 2 2])
              Sample.no_orders)
    as (created & s' & detail & Hpost & _ & Hget & Hheader & _);
    try reflexivity.
  vm_compute in Hpost. injection Hpost as <- <-.
  split; [reflexivity|]. exists detail.
  vm_compute in Hget. injection Hget as <-.
  repeat split.
Defined.

(** C3, the input on which the claim fails: two pizzas sent at 12.999.  The
    header and the item are valid, [POST /] accepts them, and [GET /:id]
    answers the item with the price 13.00, which is not the price sent. *)
Lemma three_decimals_are_rounded :
  valid_header Sample.no_orders Sample.john_doe_json = true
  /\ valid_item Sample.no_orders
                (Sample.pizzas_at {| digits := 12999; scale := 3 |} 2 2) = true
  /\ exists created s' detail,
       POST_json 7 Sample.john_doe_json
                 (Some [Sample.pizzas_at {| digits := 12999; scale := 3 |} 2 2])
                 Sample.no_orders
       = (json 201 (success_data created), s')
       /\ GET_id (Order.id created) s' = (json 200 (success_data detail), s')
       /\ map (fun x => (OrderItem.menu_item_id (item x),
                         OrderItem.quantity (item x),
                         OrderItem.price (item x)))
              (OrdersRouter.items detail)
          = [(2%N, 2%Z, 1300%Z)]
       /\ ~ is_amount {| digits := 12999; scale := 3 |} 1300.
Proof.
  split; [reflexivity|]. split; [reflexivity|].
  eexists _, _, _. split; [vm_compute; reflexivity|].
  split; [vm_compute; reflexivity|]. split; [reflexivity|].
  unfold is_amount. cbn. discriminate.
Qed.

(** ** The integrity of the store is kept *)

Lemma distinct_snoc (l : list uuid) (x : uuid) :
  distinct l = true -> existsb (N.eqb x) l = false -> distinct (l ++ [x]) = true.
Proof.
  unfold uuid in *.
  induction l as [|a l IH]; cbn [distinct app existsb]; intros Hd Hx.
  - reflexivity.
  - apply andb_prop in Hd as [Ha Hd]. apply orb_false_iff in Hx as [Hxa Hx].
    rewrite (IH Hd Hx), andb_true_r. rewrite existsb_app. cbn [existsb].
    apply negb_true_iff in Ha. rewrite Ha, N.eqb_sym, Hxa. reflexivity.
Qed.

Lemma distinct_filter (p : Order.t -> bool) (l : list Order.t) :
  distinct (map Order.id l) = true ->
  distinct (map Order.id (filter p l)) = true.
Proof.
  induction l as [|a l IH]; cbn [map filter distinct]; [reflexivity|].
  intros Hd. apply andb_prop in Hd as [Ha Hd].
  destruct (p a); [|exact (IH Hd)].
  cbn [map distinct]. rewrite (IH Hd), andb_true_r.
  apply negb_true_iff in Ha. apply negb_true_iff.
  rewrite existsb_id_map in *.
  destruct (existsb _ (filter p l)) eqn:E; [|reflexivity].
  apply existsb_exists in E as [o [Ho Eo]]. apply filter_In in Ho as [Ho _].
  rewrite <- Ha. symmetry. apply existsb_exists. now exists o.
Qed.

Lemma forallb_impl {A} (p q : A -> bool) (l : list A) :
  (forall x, In x l -> p x = true -> q x = true) ->
  forallb p l = true -> forallb q l = true.
Proof.
  intros H Hp. rewrite forallb_forall in *. auto.
Qed.

(** [DELETE /:id] keeps the store well formed: the cascade removes the
    items of the order that goes. *)
Lemma DELETE_id_well_formed (id : uuid) (s : Store) :
  well_formed s = true -> well_formed (snd (DELETE_id id s)) = true.
Proof.
  unfold well_formed. intros H. cbn.
  apply andb_prop in H as [H Hi]. apply andb_prop in H as [Hd Hs].
  rewrite (distinct_filter _ _ Hd). cbn [andb].
  apply andb_true_intro. split.
  - rewrite forallb_forall in *. intros o Ho. apply filter_In in Ho as [Ho _].
    auto.
  - rewrite forallb_forall in *. intros i Hin.
    apply filter_In in Hin as [Hin Hkeep]. specialize (Hi i Hin).
    unfold order_exists in *. cbn.
    apply existsb_exists in Hi as [o [Ho Eo]]. apply existsb_exists.
    exists o. split; [|exact Eo]. apply filter_In. split; [exact Ho|].
    destruct (N.eqb (Order.id o) id) eqn:E; [|reflexivity].
    exfalso. apply negb_true_iff in Hkeep.
    rewrite (proj2 (existsb_exists _ _)) in Hkeep; [discriminate|].
    exists o. split; [|exact Eo]. apply filter_In. now split.
Qed.

Lemma orders_insert_well_formed now d (s s1 : Store) (order : Order.t) :
  well_formed s = true ->
  orders_insert now d s = inr ([order], s1) ->
  well_formed s1 = true.
Proof.
  intros Hwf Hins. pose proof (well_formed_fresh_order s Hwf) as Hfresh.
  assert (Hid : Order.id order = uuid_supply s).
  { unfold orders_insert in Hins.
    destruct (orders_row (uuid_supply s) now now (insert_columns d))
      as [e|row] eqn:Hrow; cbn [and_then] in Hins; [discriminate|].
    destruct (orders_row_ok (uuid_supply s) now now (insert_columns d)
                (orders_row_sound _ _ _ _ _ Hrow)) as [row' [Hrow' [_ [Hi _]]]].
    destruct (restaurant_exists s (Order.restaurant_id row));
      cbn [check and_then] in Hins; [|discriminate].
    injection Hins as <- _. congruence. }
  destruct (orders_insert_inv now d s s1 order Hins)
    as (_ & _ & Horders & Hitems & Hsupply & _).
  unfold well_formed in *. rewrite Horders, Hitems, Hsupply.
  apply andb_prop in Hwf as [Hwf Hi]. apply andb_prop in Hwf as [Hd Hs].
  rewrite map_app. cbn [map]. rewrite (distinct_snoc _ _ Hd).
  2:{ rewrite existsb_id_map, Hid. exact Hfresh. }
  cbn [andb]. apply andb_true_intro. split.
  - rewrite forallb_app. cbn [forallb]. rewrite Hid, andb_true_r.
    apply andb_true_intro. split; [|apply N.ltb_lt; lia].
    eapply forallb_impl; [|exact Hs]. cbn. intros o _ Ho.
    apply N.ltb_lt in Ho. apply N.ltb_lt. lia.
  - eapply forallb_impl; [|exact Hi]. cbn. intros i _.
    unfold order_exists. rewrite Horders, existsb_app. intros ->. reflexivity.
Qed.

Lemma all_references_inv (s : Store) (rows : list OrderItem.t) :
  all_references s rows = inr tt ->
  forallb (fun i => order_exists s (OrderItem.order_id i)) rows = true.
Proof.
  induction rows as [|r rows IH]; cbn [all_references forallb]; [reflexivity|].
  unfold order_items_references.
  destruct (order_exists s (OrderItem.order_id r)); cbn [check and_then];
    [|discriminate].
  destruct (menu_item_exists s (OrderItem.menu_item_id r)); cbn [check and_then];
    [|discriminate].
  exact IH.
Qed.

Lemma order_items_insert_well_formed (rows : list OrderItemInsert) (s s' : Store) :
  well_formed s = true ->
  order_items_insert rows s = inr (tt, s') ->
  well_formed s' = true.
Proof.
  unfold order_items_insert. intros Hwf H.
  destruct (order_items_rows (uuid_supply s) rows) as [e|rs];
    cbn [and_then] in H; [discriminate|].
  destruct (all_references s rs) as [e|[]] eqn:Href; cbn [and_then] in H;
    [discriminate|].
  injection H as <-. unfold well_formed in *. cbn.
  apply andb_prop in Hwf as [Hwf Hi]. apply andb_prop in Hwf as [Hd Hs].
  rewrite Hd. cbn [andb]. apply andb_true_intro. split.
  - eapply forallb_impl; [|exact Hs]. cbn. intros o _ Ho.
    apply N.ltb_lt in Ho. apply N.ltb_lt. lia.
  - rewrite forallb_app. apply andb_true_intro. split; [exact Hi|].
    exact (all_references_inv s rs Href).
Qed.

(** [POST /] keeps the store well formed, whether the items are stored or
    refused. *)
Lemma POST_well_formed now d items (s : Store) :
  well_formed s = true -> well_formed (snd (POST now d items s)) = true.
Proof.
  intros Hwf. unfold POST, try_catch, bind, await, single, throw.
  destruct (orders_insert now d s) as [e|[rows s1]] eqn:Hins; cbn [and_then].
  - exact Hwf.
  - assert (Hone : exists order, rows = [order]).
    { unfold orders_insert in Hins.
      destruct (orders_row _ _ _ _) as [e|row]; cbn [and_then] in Hins;
        [discriminate|].
      destruct (restaurant_exists _ _); cbn [check and_then] in Hins;
        [|discriminate].
      injection Hins as <- _. eauto. }
    destruct Hone as [order ->].
    pose proof (orders_insert_well_formed now d s s1 order Hwf Hins) as Hwf1.
    destruct (has_items items); [|exact Hwf1].
    destruct (order_items_insert _ s1) as [e|[[] s2]] eqn:Hitems;
      [exact Hwf1|].
    exact (order_items_insert_well_formed _ s1 s2 Hwf1 Hitems).
Qed.

Lemma orders_update_row_id (s : Store) now d (o row : Order.t) :
  orders_update_row s now d o = inr row -> Order.id row = Order.id o.
Proof.
  unfold orders_update_row. intros H.
  destruct (orders_row (Order.id o) (Order.created_at o) now (update_columns o d))
    as [e|r] eqn:Hr; cbn [and_then] in H; [discriminate|].
  destruct (orders_row_ok (Order.id o) (Order.created_at o) now
              (update_columns o d) (orders_row_sound _ _ _ _ _ Hr))
    as [r' [Hr' [_ [Hid _]]]].
  destruct (_ || _); cbn [check and_then] in H; [|discriminate].
  injection H as <-. congruence.
Qed.

(** [UPDATE] leaves the ids of the table as they are. *)
Lemma orders_update_rows_ids (s : Store) now id d :
  forall (l table rows : list Order.t),
    orders_update_rows s now id d l = inr (table, rows) ->
    map Order.id table = map Order.id l.
Proof.
  induction l as [|o l IH]; cbn [orders_update_rows]; intros table rows H.
  - injection H as <- _. reflexivity.
  - destruct (N.eqb (Order.id o) id).
    + destruct (orders_update_row s now d o) as [e|row] eqn:Hrow;
        cbn [and_then] in H; [discriminate|].
      destruct (orders_update_rows s now id d l) as [e|[t r]];
        cbn [and_then] in H; [discriminate|].
      injection H as <- _. cbn [fst map].
      now rewrite (orders_update_row_id _ _ _ _ _ Hrow), (IH t r eq_refl).
    + destruct (orders_update_rows s now id d l) as [e|[t r]];
        cbn [and_then] in H; [discriminate|].
      injection H as <- _. cbn [fst map]. now rewrite (IH t r eq_refl).
Qed.

Lemma well_formed_ids (s s' : Store) :
  map Order.id (orders s') = map Order.id (orders s) ->
  order_items s' = order_items s ->
  uuid_supply s' = uuid_supply s ->
  well_formed s = true -> well_formed s' = true.
Proof.
  intros Hids Hitems Hsupply. unfold well_formed, order_exists.
  rewrite Hids, Hitems, Hsupply.
  assert (Hbelow : forall l l' : list Order.t,
             map Order.id l' = map Order.id l ->
             forallb (fun o => (Order.id o <? uuid_supply s)%N) l'
             = forallb (fun o => (Order.id o <? uuid_supply s)%N) l).
  { assert (Hmap : forall l : list Order.t,
               forallb (fun o => (Order.id o <? uuid_supply s)%N) l
               = forallb (fun x => (x <? uuid_supply s)%N) (map Order.id l)).
    { induction l as [|o l IH]; cbn [map forallb]; [reflexivity|].
      now rewrite IH. }
    intros l l' H. now rewrite !Hmap, H. }
  rewrite (Hbelow _ _ Hids).
  assert (Hex : forall x,
             existsb (fun o => N.eqb (Order.id o) x) (orders s')
             = existsb (fun o => N.eqb (Order.id o) x) (orders s)).
  { intros x. rewrite <- !existsb_id_map. now rewrite Hids. }
  intros H. apply andb_prop in H as [H Hi]. rewrite H. cbn [andb].
  eapply forallb_impl; [|exact Hi]. cbn. intros i _. now rewrite Hex.
Qed.

Lemma orders_update_well_formed now id d (s s' : Store) (rows : list Order.t) :
  well_formed s = true ->
  orders_update now id d s = inr (rows, s') ->
  well_formed s' = true.
Proof.
  unfold orders_update. intros Hwf H.
  destruct (names_no_column d); [now injection H as _ <-|].
  destruct (orders_update_rows s now id d (orders s)) as [e|[table r]] eqn:Hrows;
    cbn [and_then] in H; [discriminate|].
  injection H as _ <-.
  apply (well_formed_ids s); try reflexivity; [|exact Hwf].
  exact (orders_update_rows_ids s now id d _ _ _ Hrows).
Qed.

Lemma single_update_well_formed now id d (s : Store) :
  well_formed s = true ->
  well_formed
    (snd (try_catch (bind (await (single (orders_update now id d)))
                          (fun data => ret (json 200 (success_data data)))) s))
  = true.
Proof.
  intros Hwf. unfold try_catch, bind, await, single, throw.
  destruct (orders_update now id d s) as [e|[rows s']] eqn:H; cbn [and_then];
    [exact Hwf|].
  destruct rows as [|row [|? ?]]; try exact Hwf.
  exact (orders_update_well_formed now id d s s' [row] Hwf H).
Qed.

(** Every handler that writes keeps the store well formed; the two that
    read leave it as it is. *)
Lemma handlers_keep_well_formed (s : Store) :
  well_formed s = true ->
  (forall now d items, well_formed (snd (POST now d items s)) = true)
  /\ (forall now id d, well_formed (snd (PUT_id now id d s)) = true)
  /\ (forall now id status,
        well_formed (snd (PATCH_id_status now id status s)) = true)
  /\ (forall id, well_formed (snd (DELETE_id id s)) = true)
  /\ (forall id, snd (GET_id id s) = s)
  /\ snd (GET_stats_summary s) = s.
Proof.
  intros Hwf. repeat split.
  - intros. now apply POST_well_formed.
  - intros. now apply single_update_well_formed.
  - intros now id status. unfold PATCH_id_status.
    destruct (truthy status); [|exact Hwf].
    now apply single_update_well_formed.
  - intros. now apply DELETE_id_well_formed.
  - intros id. unfold GET_id, try_catch, bind, await, maybeSingle,
      orders_select_eq_id, order_items_select_eq_order_id.
    cbn [and_then].
    destruct (map _ (filter _ (orders s))) as [|? [|? ?]]; reflexivity.
Qed.

Lemma no_orders_well_formed : well_formed Sample.no_orders = true.
Proof. reflexivity. Qed.

(** The example of the spec: a delivered order of 45.99 and a cancelled one
    of 10.00. *)
Example summary_of_two_orders :
  stats [Sample.delivered_order 10 4599;
         Sample.cancelled_order 11 1000]
  = {| total_orders := 2; pending := 0; preparing := 0; delivered := 1;
       cancelled := 1; total_revenue := parseFloat 4599 |}
  /\ parseFloat 4599 = 0x1.6feb851eb851fp+5%float.
Proof. split; vm_compute; reflexivity. Qed.

(* ------------------------------------------------------------------ *)
(** * More of the code *)

(** ** Listing orders *)

Lemma insert_created_at_desc_perm (x : OrderWithRestaurant)
    (l : list OrderWithRestaurant) :
  Permutation (insert_created_at_desc x l) (x :: l).
Proof.
  induction l as [|y l IH]; cbn [insert_created_at_desc]; [reflexivity|].
  destruct (_ <=? _)%N; [reflexivity|].
  rewrite IH. apply perm_swap.
Qed.

Lemma order_created_at_desc_perm (l : list OrderWithRestaurant) :
  Permutation (order_created_at_desc l) l.
Proof.
  induction l as [|x l IH]; cbn [order_created_at_desc fold_right]; [reflexivity|].
  fold (order_created_at_desc l).
  rewrite insert_created_at_desc_perm. now rewrite IH.
Qed.

Lemma insert_created_at_desc_sorted (x : OrderWithRestaurant)
    (l : list OrderWithRestaurant) :
  newest_first l -> newest_first (insert_created_at_desc x l).
Proof.
  unfold newest_first.
  induction 1 as [|y l Hl IH Hy]; cbn [insert_created_at_desc].
  - repeat constructor.
  - destruct (_ <=? _)%N eqn:E.
    + apply N.leb_le in E. constructor; [now constructor|].
      constructor; [exact E|].
      eapply Forall_impl; [|exact Hy]. cbn. intros z Hz. lia.
    + apply N.leb_gt in E. constructor; [exact IH|].
      eapply Permutation_Forall.
      * symmetry. apply insert_created_at_desc_perm.
      * constructor; [lia|exact Hy].
Qed.

Lemma order_created_at_desc_sorted (l : list OrderWithRestaurant) :
  newest_first (order_created_at_desc l).
Proof.
  induction l as [|x l IH]; cbn [order_created_at_desc fold_right].
  - constructor.
  - apply insert_created_at_desc_sorted. exact IH.
Qed.

Lemma exists_find {A} (p : A -> bool) (l : list A) :
  existsb p l = true -> find p l <> None.
Proof.
  induction l as [|x l IH]; cbn [existsb find]; [discriminate|].
  destruct (p x); [discriminate|exact IH].
Qed.

(** What [GET /] answers, with the filter it builds read as [matches]. *)
Lemma GET_answer (status : option string) (restaurant_id : option uuid)
    (s : Store) :
  GET status restaurant_id s
  = (json 200
       (success_data
          (order_created_at_desc
             (map (embed_restaurant s)
                  (filter (matches status restaurant_id) (orders s))))),
     s).
Proof.
  unfold GET, try_catch, bind, await, orders_select_where, ret.
  match goal with
  | |- context [filter ?q (orders s)] =>
      assert (Hq : forall o, q o = matches status restaurant_id o)
  end.
  { intros o. unfold matches, eq_restaurant_id, eq_status, select_orders.
    assert (Hs : forall v, status = Some v ->
              status_is v o
              = if status_eq_dec (Order.status o) status then true else false).
    { intros v ->. destruct (status_eq_dec (Order.status o) (Some v)) as [E|E].
      - now apply status_is_true.
      - now apply status_is_false. }
    destruct status as [v|], restaurant_id as [r|]; cbn [given];
      try destruct (negb (String.eqb v "")); cbn [andb];
      try rewrite (Hs v eq_refl); rewrite ?andb_true_r; reflexivity. }
  rewrite (filter_ext _ _ Hq). reflexivity.
Qed.

Lemma orders_of_embedded (s : Store) (l : list Order.t) :
  map order (map (embed_restaurant s) l) = l.
Proof. rewrite map_map. cbn. apply map_id. Qed.

Lemma matches_spec (status : option string) (restaurant_id : option uuid)
    (o : Order.t) :
  matches status restaurant_id o = true <->
  (given status = true -> Order.status o = status)
  /\ (forall r, restaurant_id = Some r -> Order.restaurant_id o = r).
Proof.
  unfold matches. rewrite andb_true_iff. split.
  - intros [Hs Hr]. split.
    + intros Hg. rewrite Hg in Hs.
      now destruct (status_eq_dec (Order.status o) status).
    + intros r ->. now apply N.eqb_eq.
  - intros [Hs Hr]. split.
    + destruct (given status); [|reflexivity].
      destruct (status_eq_dec (Order.status o) status) as [|N];
        [reflexivity|]. now destruct N; apply Hs.
    + destruct restaurant_id as [r|]; [|reflexivity].
      apply N.eqb_eq. now apply Hr.
Qed.

(** X1: for a query whose [restaurant_id], when one is sent, is a uuid,
    [GET /] answers success without writing; an order is in the answer
    exactly when it is stored, carries the status of the query (when a
    non-empty one is sent) and belongs to the restaurant of the query (when
    one is sent); on a store whose references hold, each row carries the
    name of a stored restaurant that has the id the order references. *)
Theorem list_answers_the_matching_orders (status : option string)
    (restaurant_id : option uuid) (s : Store) :
  exists data,
    GET status restaurant_id s = (json 200 (success_data data), s)
    /\ (forall o,
          In o (map order data) <->
          In o (orders s)
          /\ (given status = true -> Order.status o = status)
          /\ (forall r, restaurant_id = Some r -> Order.restaurant_id o = r))
    /\ (references_hold s = true ->
        Forall (fun x => exists r,
                    In r (restaurants s)
                    /\ Restaurant.id r = Order.restaurant_id (order x)
                    /\ restaurants_name x = Some (Restaurant.name r))
               data).
Proof.
  eexists. split; [apply GET_answer|]. split.
  - intros o.
    pose proof (Permutation_map order
                  (order_created_at_desc_perm
                     (map (embed_restaurant s)
                          (filter (matches status restaurant_id) (orders s)))))
      as Hp.
    rewrite orders_of_embedded in Hp.
    rewrite <- matches_spec, <- filter_In.
    split; intros H.
    + exact (Permutation_in o Hp H).
    + exact (Permutation_in o (Permutation_sym Hp) H).
  - intros Href. unfold references_hold in Href.
    apply andb_prop in Href as [Ho _]. rewrite forallb_forall in Ho.
    eapply Permutation_Forall.
    + symmetry. apply order_created_at_desc_perm.
    + apply Forall_forall. intros x Hx. apply in_map_iff in Hx as [o [<- Hin]].
      apply filter_In in Hin as [Hin _]. specialize (Ho o Hin).
      unfold restaurant_exists in Ho. cbn [embed_restaurant order restaurants_name].
      destruct (find (fun r => N.eqb (Restaurant.id r) (Order.restaurant_id o))
                     (restaurants s)) as [r|] eqn:E.
      * apply find_some in E as [Hr Er]. apply N.eqb_eq in Er.
        exists r. split; [exact Hr|]. split; [exact Er|reflexivity].
      * now apply exists_find in Ho.
Qed.

Lemma pending_orders_of_pizza_palace :
  GET (Some "pending"%string) (Some 1%N) Sample.one_order
  = (json 200
       (success_data [{| order := Sample.johns_order;
                         restaurants_name := Some "Pizza Palace"%string |}]),
     Sample.one_order)
  /\ GET (Some "delivered"%string) (Some 1%N) Sample.one_order
     = (json 200 (success_data []), Sample.one_order).
Proof.
  destruct (list_answers_the_matching_orders (Some "pending"%string) (Some 1%N)
              Sample.one_order) as (data & Hget & _ & Hname).
  specialize (Hname eq_refl).
  vm_compute in Hget. injection Hget as <-.
  split; reflexivity.
Defined.

(** X2: the answer of [GET /] comes newest first, and it holds each
    matching order as often as the table does: none is lost and none is
    repeated. *)
Theorem list_is_newest_first (status : option string)
    (restaurant_id : option uuid) (s : Store) :
  exists data,
    fst (GET status restaurant_id s) = json 200 (success_data data)
    /\ newest_first data
    /\ Permutation (map order data)
                   (filter (matches status restaurant_id) (orders s)).
Proof.
  rewrite GET_answer. eexists. split; [reflexivity|]. split.
  - apply order_created_at_desc_sorted.
  - rewrite <- (orders_of_embedded s (filter _ (orders s))) at 2.
    apply Permutation_map, order_created_at_desc_perm.
Qed.

(** ** What every handler keeps *)

(** The orders handlers reach the store through four statements; what these
    keep, every handler keeps. *)
Lemma handlers_keep (P : Store -> Prop) :
  (forall now d s rows s',
      P s -> orders_insert now d s = inr (rows, s') -> P s') ->
  (forall rows s s', P s -> order_items_insert rows s = inr (tt, s') -> P s') ->
  (forall now id d s rows s',
      P s -> orders_update now id d s = inr (rows, s') -> P s') ->
  (forall id s s', P s -> orders_delete id s = inr (tt, s') -> P s') ->
  forall s,
    P s ->
    (forall now d items, P (snd (POST now d items s)))
    /\ (forall now id d, P (snd (PUT_id now id d s)))
    /\ (forall now id status, P (snd (PATCH_id_status now id status s)))
    /\ (forall id, P (snd (DELETE_id id s)))
    /\ (forall id, P (snd (GET_id id s)))
    /\ (forall status restaurant_id, P (snd (GET status restaurant_id s)))
    /\ P (snd (GET_stats_summary s)).
Proof.
  intros Hinsert Hitems Hupdate Hdelete s Hs.
  assert (Hput : forall now id d,
             P (snd (try_catch
                       (bind (await (single (orders_update now id d)))
                             (fun data => ret (json 200 (success_data data))))
                       s))).
  { intros now id d. unfold try_catch, bind, await, single, throw.
    destruct (orders_update now id d s) as [e|[rows s']] eqn:H; cbn [and_then];
      [exact Hs|].
    destruct rows as [|row [|? ?]]; try exact Hs.
    exact (Hupdate now id d s [row] s' Hs H). }
  repeat split.
  - intros now d items. unfold POST, try_catch, bind, await, single, throw.
    destruct (orders_insert now d s) as [e|[rows s1]] eqn:Hins; cbn [and_then];
      [exact Hs|].
    pose proof (Hinsert now d s rows s1 Hs Hins) as Hs1.
    destruct rows as [|order [|? ?]]; try exact Hs.
    destruct (has_items items); [|exact Hs1].
    destruct (order_items_insert _ s1) as [e|[[] s2]] eqn:Hrows; [exact Hs1|].
    exact (Hitems _ s1 s2 Hs1 Hrows).
  - exact Hput.
  - intros now id status. unfold PATCH_id_status.
    destruct (truthy status); [apply Hput|exact Hs].
  - intros id. exact (Hdelete id s _ Hs eq_refl).
  - intros id. unfold GET_id, try_catch, bind, await, maybeSingle,
      orders_select_eq_id, order_items_select_eq_order_id.
    cbn [and_then].
    destruct (map _ (filter _ (orders s))) as [|? [|? ?]]; exact Hs.
  - intros status restaurant_id. rewrite GET_answer. exact Hs.
  - exact Hs.
Qed.

Lemma orders_row_columns id created updated (c : OrderColumns) (row : Order.t) :
  orders_row id created updated c = inr row ->
  row_columns row = c /\ columns_ok c = true /\ Order.id row = id
  /\ Order.created_at row = created /\ Order.updated_at row = updated.
Proof.
  intros H. pose proof (orders_row_sound _ _ _ _ _ H) as Hc.
  destruct (orders_row_ok id created updated c Hc) as [row' [H' Hrest]].
  assert (row' = row) by congruence. subst row'.
  destruct Hrest as (? & ? & ? & ?). auto.
Qed.

(** The row an [INSERT] of a header stores. *)
Lemma orders_insert_row now d (s s1 : Store) (rows : list Order.t) :
  orders_insert now d s = inr (rows, s1) ->
  exists order,
    rows = [order]
    /\ orders_row (uuid_supply s) now now (insert_columns d) = inr order
    /\ restaurant_exists s (Order.restaurant_id order) = true.
Proof.
  unfold orders_insert.
  destruct (orders_row (uuid_supply s) now now (insert_columns d)) as [e|row];
    cbn [and_then]; [discriminate|].
  destruct (restaurant_exists s (Order.restaurant_id row)) eqn:E;
    cbn [check and_then]; [|discriminate].
  intros [= <- _]. eauto.
Qed.

(** The table an [UPDATE] leaves: row by row, the old row or its update. *)
Lemma orders_update_rows_table (s : Store) now id d :
  forall (l table rows : list Order.t),
    orders_update_rows s now id d l = inr (table, rows) ->
    Forall2 (fun o o' =>
               o' = o
               \/ (Order.id o = id /\ orders_update_row s now d o = inr o'))
            l table.
Proof.
  induction l as [|o l IH]; cbn [orders_update_rows]; intros table rows H.
  - injection H as <- _. constructor.
  - destruct (N.eqb (Order.id o) id) eqn:E.
    + destruct (orders_update_row s now d o) as [e|row] eqn:Hrow;
        cbn [and_then] in H; [discriminate|].
      destruct (orders_update_rows s now id d l) as [e|[t r]];
        cbn [and_then] in H; [discriminate|].
      injection H as <- _. cbn [fst]. constructor; [|exact (IH t r eq_refl)].
      right. split; [now apply N.eqb_eq|exact Hrow].
    + destruct (orders_update_rows s now id d l) as [e|[t r]];
        cbn [and_then] in H; [discriminate|].
      injection H as <- _. cbn [fst]. constructor; [|exact (IH t r eq_refl)].
      now left.
Qed.

Lemma orders_update_inv now id d (s s' : Store) (rows : list Order.t) :
  orders_update now id d s = inr (rows, s') ->
  restaurants s' = restaurants s
  /\ menu_items s' = menu_items s
  /\ order_items s' = order_items s
  /\ uuid_supply s' = uuid_supply s
  /\ Forall2 (fun o o' =>
                o' = o
                \/ (Order.id o = id /\ orders_update_row s now d o = inr o'))
             (orders s) (orders s').
Proof.
  unfold orders_update. intros H.
  destruct (names_no_column d).
  - injection H as _ <-. repeat split.
    induction (orders s) as [|o l IH]; constructor; [now left|exact IH].
  - destruct (orders_update_rows s now id d (orders s)) as [e|[table r]] eqn:Hrows;
      cbn [and_then] in H; [discriminate|].
    injection H as _ <-. repeat split.
    exact (orders_update_rows_table s now id d _ _ _ Hrows).
Qed.

Lemma order_items_insert_inv (rows : list OrderItemInsert) (s s' : Store) :
  order_items_insert rows s = inr (tt, s') ->
  exists rs,
    order_items_rows (uuid_supply s) rows = inr rs
    /\ all_references s rs = inr tt
    /\ restaurants s' = restaurants s
    /\ menu_items s' = menu_items s
    /\ orders s' = orders s
    /\ order_items s' = order_items s ++ rs.
Proof.
  unfold order_items_insert. intros H.
  destruct (order_items_rows (uuid_supply s) rows) as [e|rs];
    cbn [and_then] in H; [discriminate|].
  destruct (all_references s rs) as [e|[]] eqn:Href; cbn [and_then] in H;
    [discriminate|].
  injection H as <-. exists rs. repeat split. exact Href.
Qed.

Lemma orders_update_row_inv (s : Store) now d (o row : Order.t) :
  orders_update_row s now d o = inr row ->
  orders_row (Order.id o) (Order.created_at o) now (update_columns o d) = inr row
  /\ (N.eqb (Order.restaurant_id row) (Order.restaurant_id o)
      || restaurant_exists s (Order.restaurant_id row)) = true.
Proof.
  unfold orders_update_row.
  destruct (orders_row _ _ _ _) as [e|r]; cbn [and_then]; [discriminate|].
  destruct (_ || _) eqn:E; cbn [check and_then]; [|discriminate].
  intros [= <-]. split; [reflexivity|exact E].
Qed.

Lemma forallb_Forall2 {A} (R : A -> A -> Prop) (p : A -> bool) (l l' : list A) :
  Forall2 R l l' ->
  (forall x y, In x l -> p x = true -> R x y -> p y = true) ->
  forallb p l = true -> forallb p l' = true.
Proof.
  induction 1 as [|x y l l' Hxy _ IH]; intros HR Hp; [reflexivity|].
  cbn [forallb] in *. apply andb_prop in Hp as [Hx Hl].
  rewrite (HR x y (or_introl eq_refl) Hx Hxy). cbn [andb].
  apply IH; [|exact Hl]. intros a b Ha. apply HR. now right.
Qed.

Lemma forallb_filter {A} (p q : A -> bool) (l : list A) :
  forallb p l = true -> forallb p (filter q l) = true.
Proof.
  rewrite !forallb_forall. intros H x Hx. apply filter_In in Hx as [Hx _]. auto.
Qed.

(** A row the constraints of [order_items] accept is within them, with its
    [subtotal] the product of quantity and price. *)
Lemma order_items_row_valid (id : uuid) (r : OrderItemInsert) (row : OrderItem.t) :
  order_items_row id r = inr row -> item_row_ok row = true.
Proof.
  unfold order_items_row. intros H.
  destruct (n_menu_item_id r) as [m|], (n_quantity r) as [q|], (n_price r) as [p|];
    try (repeat match type of H with
                | context [check ?b ?e] => destruct b; cbn [check and_then] in H
                end; discriminate H).
  destruct (fits_integer (Some q) && fits_numeric_10_2 (Some p)) eqn:F;
    cbn [check and_then] in H; [|discriminate].
  destruct (fits_numeric_10_2 (Some (q * p)%Z)) eqn:Fs;
    cbn [check and_then not_null] in H; [|discriminate].
  destruct (0 <=? p)%Z eqn:Cp; cbn [check and_then] in H; [|discriminate].
  destruct (0 <? q)%Z eqn:Cq; cbn [check and_then] in H; [|discriminate].
  injection H as <-. unfold item_row_ok.
  cbn [OrderItem.quantity OrderItem.price OrderItem.subtotal].
  apply andb_prop in F as [Fq Fp].
  apply fits_integer_spec in Fq. apply fits_numeric_10_2_spec in Fp, Fs.
  apply Z.leb_le in Cp. apply Z.ltb_lt in Cq.
  rewrite !andb_true_iff, !Z.ltb_lt, Z.leb_le, Z.eqb_eq.
  change (2 ^ 31)%Z with 2147483648%Z. change (10 ^ 10)%Z with 10000000000%Z.
  lia.
Qed.

Lemma order_items_rows_valid (rows : list OrderItemInsert) :
  forall id rs,
    order_items_rows id rows = inr rs -> forallb item_row_ok rs = true.
Proof.
  induction rows as [|r rows IH]; cbn [order_items_rows]; intros id rs H.
  - now injection H as <-.
  - destruct (order_items_row id r) as [e|row] eqn:Hrow; cbn [and_then] in H;
      [discriminate|].
    destruct (order_items_rows (N.succ id) rows) as [e|rest] eqn:Hrest;
      cbn [and_then] in H; [discriminate|].
    injection H as <-. cbn [forallb].
    now rewrite (order_items_row_valid _ _ _ Hrow), (IH _ _ Hrest).
Qed.

Lemma all_references_menu (s : Store) (rows : list OrderItem.t) :
  all_references s rows = inr tt ->
  forallb (fun i => menu_item_exists s (OrderItem.menu_item_id i)) rows = true.
Proof.
  induction rows as [|r rows IH]; cbn [all_references forallb]; [reflexivity|].
  unfold order_items_references.
  destruct (order_exists s (OrderItem.order_id r)); cbn [check and_then];
    [|discriminate].
  destruct (menu_item_exists s (OrderItem.menu_item_id r)); cbn [check and_then];
    [|discriminate].
  exact IH.
Qed.

(** X5: every handler of [orders.js] leaves each stored order and order
    item within the constraints of its table: a total that is not negative,
    a status that is one of the four or [NULL], a quantity above 0, a price
    that is not negative and [subtotal = quantity * price]. *)
Theorem handlers_keep_the_constraints (s : Store) :
  constraints_hold s = true ->
  (forall now d items, constraints_hold (snd (POST now d items s)) = true)
  /\ (forall now id d, constraints_hold (snd (PUT_id now id d s)) = true)
  /\ (forall now id status,
        constraints_hold (snd (PATCH_id_status now id status s)) = true)
  /\ (forall id, constraints_hold (snd (DELETE_id id s)) = true)
  /\ (forall id, constraints_hold (snd (GET_id id s)) = true)
  /\ (forall status restaurant_id,
        constraints_hold (snd (GET status restaurant_id s)) = true)
  /\ constraints_hold (snd (GET_stats_summary s)) = true.
Proof.
  apply (handlers_keep (fun s => constraints_hold s = true));
    unfold constraints_hold; clear s.
  - intros now d s rows s' H Hins.
    destruct (orders_insert_row now d s s' rows Hins) as [order [-> [Hrow _]]].
    destruct (orders_insert_inv now d s s' order Hins)
      as (_ & _ & -> & -> & _ & _).
    apply andb_prop in H as [Ho Hi]. rewrite Hi, forallb_app, Ho.
    cbn [forallb andb].
    destruct (orders_row_columns _ _ _ _ _ Hrow) as [Hc [Hok _]].
    now rewrite Hc, Hok.
  - intros rows s s' H Hins.
    destruct (order_items_insert_inv rows s s' Hins)
      as (rs & Hrows & _ & _ & _ & -> & ->).
    apply andb_prop in H as [Ho Hi].
    now rewrite Ho, forallb_app, Hi, (order_items_rows_valid _ _ _ Hrows).
  - intros now id d s rows s' H Hupd.
    destruct (orders_update_inv now id d s s' rows Hupd)
      as (_ & _ & -> & _ & Htable).
    apply andb_prop in H as [Ho Hi]. rewrite Hi, andb_true_r.
    apply (forallb_Forall2 _ _ _ _ Htable); [|exact Ho].
    intros o o' _ Hok [->|[_ Hrow]]; [exact Hok|].
    apply orders_update_row_inv in Hrow as [Hrow _].
    now destruct (orders_row_columns _ _ _ _ _ Hrow) as [-> [-> _]].
  - intros id s s' H [= <-]. cbn.
    apply andb_prop in H as [Ho Hi].
    now rewrite (forallb_filter _ _ _ Ho), (forallb_filter _ _ _ Hi).
Qed.

Lemma references_hold_same_catalogue (s s' : Store) :
  restaurants s' = restaurants s ->
  menu_items s' = menu_items s ->
  references_hold s'
  = forallb (fun o => restaurant_exists s (Order.restaurant_id o)) (orders s')
    && forallb (fun i => menu_item_exists s (OrderItem.menu_item_id i))
               (order_items s').
Proof.
  intros Hr Hm. unfold references_hold, restaurant_exists, menu_item_exists.
  now rewrite Hr, Hm.
Qed.

Lemma orders_statements_keep_references :
  (forall now d s rows s',
      references_hold s = true ->
      orders_insert now d s = inr (rows, s') -> references_hold s' = true)
  /\ (forall rows s s',
        references_hold s = true ->
        order_items_insert rows s = inr (tt, s') -> references_hold s' = true)
  /\ (forall now id d s rows s',
        references_hold s = true ->
        orders_update now id d s = inr (rows, s') -> references_hold s' = true)
  /\ (forall id s s',
        references_hold s = true ->
        orders_delete id s = inr (tt, s') -> references_hold s' = true).
Proof.
  repeat split.
  - intros now d s rows s' H Hins.
    destruct (orders_insert_row now d s s' rows Hins) as [order [-> [_ Hrest]]].
    destruct (orders_insert_inv now d s s' order Hins)
      as (Hr & Hm & Ho & Hi & _ & _).
    rewrite (references_hold_same_catalogue s s' Hr Hm), Ho, Hi.
    unfold references_hold in H. apply andb_prop in H as [H1 H2].
    rewrite forallb_app, H1, H2. cbn [forallb andb]. now rewrite Hrest.
  - intros rows s s' H Hins.
    destruct (order_items_insert_inv rows s s' Hins)
      as (rs & _ & Href & Hr & Hm & Ho & Hi).
    rewrite (references_hold_same_catalogue s s' Hr Hm), Ho, Hi.
    unfold references_hold in H. apply andb_prop in H as [H1 H2].
    now rewrite forallb_app, H1, H2, (all_references_menu s rs Href).
  - intros now id d s rows s' H Hupd.
    destruct (orders_update_inv now id d s s' rows Hupd)
      as (Hr & Hm & Hi & _ & Htable).
    rewrite (references_hold_same_catalogue s s' Hr Hm), Hi.
    unfold references_hold in H. apply andb_prop in H as [H1 H2].
    rewrite H2, andb_true_r.
    apply (forallb_Forall2 _ _ _ _ Htable); [|exact H1].
    intros o o' _ Hok [->|[_ Hrow]]; [exact Hok|].
    apply orders_update_row_inv in Hrow as [_ Hcheck].
    apply orb_prop in Hcheck as [E|E]; [|exact E].
    apply N.eqb_eq in E. now rewrite E.
  - intros id s s' H [= <-].
    rewrite (references_hold_same_catalogue s) by reflexivity. cbn.
    unfold references_hold in H. apply andb_prop in H as [H1 H2].
    now rewrite (forallb_filter _ _ _ H1), (forallb_filter _ _ _ H2).
Qed.

(** What [DELETE /:id] of [menu.js] does: it fails and changes nothing when
    an order item references a menu item under the id, and removes the menu
    items under the id otherwise. *)
Lemma menu_DELETE_id_cases (id : uuid) (s : Store) :
  let referenced :=
    existsb (fun m => N.eqb (MenuItem.id m) id
                      && existsb (fun i => N.eqb (OrderItem.menu_item_id i)
                                                 (MenuItem.id m))
                                 (order_items s))
            (menu_items s) in
  MenuRouter.DELETE_id id s
  = if referenced
    then (next (foreign_key_violation "order_items_menu_item_id_fkey"), s)
    else (json 200 (success_message "Menu item deleted successfully"),
          {| restaurants := restaurants s;
             menu_items :=
               filter (fun m => negb (N.eqb (MenuItem.id m) id)) (menu_items s);
             orders := orders s;
             order_items := order_items s;
             uuid_supply := uuid_supply s |}).
Proof.
  cbn zeta.
  unfold MenuRouter.DELETE_id, try_catch, bind, await, MenuRouter.menu_items_delete.
  rewrite existsb_filter. now destruct (existsb _ (menu_items s)).
Qed.

(** X6: every handler of [orders.js], and [DELETE /:id] of [menu.js], leaves
    each stored order with a stored restaurant and each stored order item
    with a stored menu item. *)
Theorem handlers_keep_the_references (s : Store) :
  references_hold s = true ->
  (forall now d items, references_hold (snd (POST now d items s)) = true)
  /\ (forall now id d, references_hold (snd (PUT_id now id d s)) = true)
  /\ (forall now id status,
        references_hold (snd (PATCH_id_status now id status s)) = true)
  /\ (forall id, references_hold (snd (DELETE_id id s)) = true)
  /\ (forall id, references_hold (snd (MenuRouter.DELETE_id id s)) = true).
Proof.
  intros H.
  destruct orders_statements_keep_references as (H1 & H2 & H3 & H4).
  destruct (handlers_keep (fun s => references_hold s = true) H1 H2 H3 H4 s H)
    as (Hpost & Hput & Hpatch & Hdelete & _).
  repeat split; try assumption.
  intros id. rewrite menu_DELETE_id_cases. cbn zeta.
  destruct (existsb _ (menu_items s)) eqn:Href; [exact H|]. cbn [snd].
  unfold references_hold in *. apply andb_prop in H as [Ho Hi].
  unfold restaurant_exists, menu_item_exists in *. cbn.
  rewrite Ho. cbn [andb]. rewrite forallb_forall in *.
  intros i Hin. specialize (Hi i Hin).
  rewrite existsb_filter.
  apply existsb_exists in Hi as [m [Hm Em]]. apply existsb_exists.
  exists m. split; [exact Hm|]. rewrite Em, andb_true_r.
  destruct (N.eqb (MenuItem.id m) id) eqn:E; [|reflexivity].
  exfalso. rewrite (proj2 (existsb_exists _ _)) in Href; [discriminate|].
  exists m. split; [exact Hm|]. rewrite E. cbn [andb].
  apply existsb_exists. exists i. split; [exact Hin|].
  apply N.eqb_eq in Em. now apply N.eqb_eq.
Qed.

Lemma handlers_keep_the_constraints_for_john :
  constraints_hold Sample.one_order = true
  /\ constraints_hold
       (snd (POST 9 Sample.john_doe (Some [Sample.pizzas 2 1]) Sample.one_order))
     = true
  /\ constraints_hold
       (snd (PATCH_id_status 9 3 (JsString "delivered") Sample.one_order))
     = true.
Proof.
  split; [reflexivity|].
  destruct (handlers_keep_the_constraints Sample.one_order eq_refl)
    as (Hpost & _ & Hpatch & _).
  split; [apply Hpost|apply Hpatch].
Defined.

Lemma handlers_keep_the_references_for_john :
  references_hold Sample.one_order = true
  /\ references_hold
       (snd (POST 9 Sample.john_doe (Some [Sample.pizzas 2 1]) Sample.one_order))
     = true
  /\ references_hold (snd (MenuRouter.DELETE_id 2 Sample.one_order)) = true.
Proof.
  split; [reflexivity|].
  destruct (handlers_keep_the_references Sample.one_order eq_refl)
    as (Hpost & _ & _ & _ & Hmenu).
  split; [apply Hpost|apply Hmenu].
Defined.

(** ** Deleting a menu item *)

(** X7: a menu item that an order item references cannot be deleted:
    [DELETE /:id] of [menu.js] forwards the violation of the foreign key
    and the store stays as it was. *)
Theorem referenced_menu_item_stays (id : uuid) (s : Store) :
  menu_item_exists s id = true ->
  existsb (fun i => N.eqb (OrderItem.menu_item_id i) id) (order_items s) = true ->
  MenuRouter.DELETE_id id s
  = (next (foreign_key_violation "order_items_menu_item_id_fkey"), s).
Proof.
  intros Hm Hi. rewrite menu_DELETE_id_cases. cbn zeta.
  rewrite (proj2 (existsb_exists _ _)); [reflexivity|].
  unfold menu_item_exists in Hm. apply existsb_exists in Hm as [m [Hm Em]].
  exists m. split; [exact Hm|]. rewrite Em. cbn [andb].
  apply N.eqb_eq in Em. now rewrite Em.
Qed.

Lemma johns_margherita_stays :
  menu_item_exists Sample.one_order 2 = true
  /\ MenuRouter.DELETE_id 2 Sample.one_order
     = (next (foreign_key_violation "order_items_menu_item_id_fkey"),
        Sample.one_order).
Proof.
  split; [reflexivity|].
  apply referenced_menu_item_stays; reflexivity.
Defined.

(** X8: when no order item references the id, [DELETE /:id] of [menu.js]
    answers success; afterwards no menu item has the id, every other menu
    item is where it was, and restaurants, orders and order items are
    untouched. *)
Theorem unreferenced_menu_item_goes (id : uuid) (s : Store) :
  existsb (fun i => N.eqb (OrderItem.menu_item_id i) id) (order_items s) = false ->
  fst (MenuRouter.DELETE_id id s)
  = json 200 (success_message "Menu item deleted successfully")
  /\ menu_item_exists (snd (MenuRouter.DELETE_id id s)) id = false
  /\ (forall m, MenuItem.id m <> id ->
        (In m (menu_items (snd (MenuRouter.DELETE_id id s)))
         <-> In m (menu_items s)))
  /\ restaurants (snd (MenuRouter.DELETE_id id s)) = restaurants s
  /\ orders (snd (MenuRouter.DELETE_id id s)) = orders s
  /\ order_items (snd (MenuRouter.DELETE_id id s)) = order_items s.
Proof.
  intros Hi. rewrite menu_DELETE_id_cases. cbn zeta.
  assert (Href : existsb
                   (fun m => N.eqb (MenuItem.id m) id
                             && existsb (fun i => N.eqb (OrderItem.menu_item_id i)
                                                        (MenuItem.id m))
                                        (order_items s))
                   (menu_items s) = false).
  { destruct (existsb _ (menu_items s)) eqn:E; [|reflexivity].
    apply existsb_exists in E as [m [_ E]]. apply andb_prop in E as [Em E].
    apply N.eqb_eq in Em. rewrite Em in E. congruence. }
  rewrite Href. cbn [fst snd]. repeat split; try reflexivity.
  - unfold menu_item_exists. cbn [menu_items]. rewrite existsb_filter.
    match goal with |- ?b = false => destruct b eqn:E; [|reflexivity] end.
    apply existsb_exists in E as [m [_ E]].
    now destruct (N.eqb (MenuItem.id m) id).
  - cbn [menu_items]. intros Hin. now apply filter_In in Hin.
  - cbn [menu_items]. intros Hin. apply filter_In. split; [exact Hin|].
    apply negb_true_iff. now apply N.eqb_neq.
Qed.

Lemma unreferenced_menu_item_goes_without_orders :
  menu_item_exists Sample.no_orders 2 = true
  /\ fst (MenuRouter.DELETE_id 2 Sample.no_orders)
     = json 200 (success_message "Menu item deleted successfully")
  /\ menu_item_exists (snd (MenuRouter.DELETE_id 2 Sample.no_orders)) 2 = false.
Proof.
  split; [reflexivity|].
  destruct (unreferenced_menu_item_goes 2 Sample.no_orders eq_refl)
    as (Hok & Hgone & _).
  split; [exact Hok|exact Hgone].
Defined.

(** ** Reading an order *)

Lemma find_filter_distinct (id : uuid) :
  forall l : list Order.t,
    distinct (map Order.id l) = true ->
    filter (fun o => N.eqb (Order.id o) id) l
    = match find (fun o => N.eqb (Order.id o) id) l with
      | Some o => [o]
      | None => []
      end.
Proof.
  induction l as [|a l IH]; cbn [map distinct filter find]; [reflexivity|].
  intros Hd. apply andb_prop in Hd as [Ha Hd].
  destruct (N.eqb (Order.id a) id) eqn:E; [|exact (IH Hd)].
  f_equal. apply filter_nothing.
  apply negb_true_iff in Ha. rewrite existsb_id_map in Ha.
  apply N.eqb_eq in E. now rewrite <- E.
Qed.

(** X9: on a well-formed store [GET /:id] answers 404 exactly when no order
    has the id; otherwise it answers the stored order and precisely the
    stored items that reference it, without writing; when the references of
    the store hold, the name of the restaurant and of every menu item is
    there. *)
Theorem get_answers_the_stored_order (id : uuid) (s : Store) :
  well_formed s = true ->
  match stored_order s id with
  | Some o =>
      exists detail,
        GET_id id s = (json 200 (success_data detail), s)
        /\ header detail = embed_restaurant s o
        /\ map item (OrdersRouter.items detail) = stored_items s id
        /\ (references_hold s = true ->
            restaurants_name (header detail) <> None
            /\ Forall (fun x => menu_items_name x <> None)
                      (OrdersRouter.items detail))
  | None => GET_id id s = (json 404 (failure "Order not found"), s)
  end.
Proof.
  intros Hwf. unfold well_formed in Hwf.
  apply andb_prop in Hwf as [Hwf _]. apply andb_prop in Hwf as [Hd _].
  pose proof (find_filter_distinct id (orders s) Hd) as Hfilter.
  unfold stored_order.
  unfold GET_id, try_catch, bind, await, maybeSingle, orders_select_eq_id,
    order_items_select_eq_order_id.
  cbn [and_then]. rewrite Hfilter.
  destruct (find _ (orders s)) as [o|] eqn:Hfind; [|reflexivity].
  cbn [map]. eexists. split; [reflexivity|].
  cbn [header OrdersRouter.items]. split; [reflexivity|]. split.
  - unfold stored_items. rewrite map_map. cbn. apply map_id.
  - intros Href. unfold references_hold in Href.
    apply andb_prop in Href as [Ho Hi]. rewrite forallb_forall in Ho, Hi.
    apply find_some in Hfind as [Hin _]. split.
    + cbn. specialize (Ho o Hin). unfold restaurant_exists in Ho.
      destruct (find _ (restaurants s)) eqn:E; [discriminate|].
      now apply exists_find in Ho.
    + apply Forall_forall. intros x Hx. apply in_map_iff in Hx as [i [<- Hx]].
      apply filter_In in Hx as [Hx _]. specialize (Hi i Hx).
      unfold menu_item_exists in Hi. cbn.
      destruct (find _ (menu_items s)) eqn:E; [discriminate|].
      now apply exists_find in Hi.
Qed.

Lemma get_answers_johns_order :
  exists detail,
    GET_id 3 Sample.one_order = (json 200 (success_data detail), Sample.one_order)
    /\ order (header detail) = Sample.johns_order
    /\ map item (OrdersRouter.items detail) = [Sample.johns_pizzas].
Proof.
  pose proof (get_answers_the_stored_order 3 Sample.one_order eq_refl) as H.
  cbn in H. destruct H as (detail & Hget & Hheader & Hitems & _).
  exists detail. split; [exact Hget|]. split; [now rewrite Hheader|exact Hitems].
Defined.

(** ** Changing the status *)

Lemma order_by_columns (r r' : Order.t) :
  row_columns r = row_columns r' ->
  Order.id r = Order.id r' ->
  Order.created_at r = Order.created_at r' ->
  Order.updated_at r = Order.updated_at r' ->
  r = r'.
Proof.
  destruct r, r'. unfold row_columns. cbn. intros [= -> -> -> -> -> -> -> -> -> ->].
  now intros -> -> ->.
Qed.

Lemma stored_order_In (s : Store) (id : uuid) (o : Order.t) :
  stored_order s id = Some o -> In o (orders s) /\ Order.id o = id.
Proof.
  unfold stored_order. intros H. apply find_some in H as [Hin E].
  split; [exact Hin|now apply N.eqb_eq].
Qed.

Lemma well_formed_distinct (s : Store) :
  well_formed s = true -> distinct (map Order.id (orders s)) = true.
Proof.
  unfold well_formed. intros H.
  apply andb_prop in H as [H _]. now apply andb_prop in H as [H _].
Qed.

(** The row [UPDATE ... SET status] leaves of a stored row that is within
    the constraints. *)
Lemma orders_update_row_status (s : Store) now (t : string) (o : Order.t) :
  columns_ok (row_columns o) = true ->
  In t status_values ->
  orders_update_row s now (only_status (JsString t)) o
  = inr (with_status o t now).
Proof.
  intros Hok Ht.
  assert (Hc : columns_ok (update_columns o (only_status (JsString t))) = true).
  { assert (His : is_in status_values (Some t) = true).
    { apply existsb_exists. exists t. split; [exact Ht|apply String.eqb_refl]. }
    unfold columns_ok, update_columns, row_columns in *.
    cbn -[is_in fits_numeric_10_2 Z.pow] in *.
    repeat (apply andb_prop in Hok as [Hok ?]).
    repeat (apply andb_true_intro; split); assumption. }
  destruct (orders_row_ok (Order.id o) (Order.created_at o) now _ Hc)
    as (row & Hrow & Hcols & Hid & Hcr & Hup).
  assert (row = with_status o t now) as ->.
  { apply order_by_columns; assumption. }
  unfold orders_update_row. rewrite Hrow. cbn [and_then with_status Order.restaurant_id].
  now rewrite N.eqb_refl.
Qed.

(** X10: [PATCH /:id/status] with one of the four statuses, on a stored
    order that is within the constraints, answers the order with the new
    status and [updated_at] set to the time of the update, every other
    column as it was, and stores that row in place of the old one; the
    status the order had does not matter. *)
Theorem status_change_is_stored (now : timestamptz) (id : uuid) (t : string)
    (s : Store) (o : Order.t) :
  well_formed s = true ->
  stored_order s id = Some o ->
  columns_ok (row_columns o) = true ->
  In t status_values ->
  PATCH_id_status now id (JsString t) s
  = (json 200 (success_data (with_status o t now)),
     with_orders s (replace_order id (with_status o t now) (orders s))).
Proof.
  intros Hwf Hfind Hok Ht.
  apply stored_order_In in Hfind as [Hin Hid].
  assert (Hne : truthy (JsString t) = true).
  { cbn in Ht. decompose [or] Ht; subst; try reflexivity; contradiction. }
  unfold PATCH_id_status. rewrite Hne. cbn [negb].
  unfold try_catch, bind, await, single, orders_update.
  cbn [names_no_column only_status text_of d_restaurant_id d_customer_name
       d_customer_phone d_customer_address d_status d_total_amount
       d_delivery_fee d_payment_method d_payment_status d_notes].
  fold (only_status (JsString t)).
  rewrite (orders_update_rows_one s now id (only_status (JsString t))
             (with_status o t now) (orders s) o (well_formed_distinct s Hwf)
             Hin Hid (orders_update_row_status s now t o Hok Ht)).
  reflexivity.
Qed.

Lemma johns_order_is_delivered :
  PATCH_id_status 9 3 (JsString "delivered") Sample.one_order
  = (json 200 (success_data (with_status Sample.johns_order "delivered" 9)),
     with_orders Sample.one_order
       (replace_order 3 (with_status Sample.johns_order "delivered" 9)
                      (orders Sample.one_order))).
Proof.
  apply status_change_is_stored; try reflexivity.
  cbn. tauto.
Defined.

(** ** What a write leaves alone *)

Lemma find_other_Forall2 (id id' : uuid) (R : Order.t -> Order.t -> Prop) :
  (forall o o', R o o' -> o' = o \/ (Order.id o = id /\ Order.id o' = id)) ->
  id' <> id ->
  forall l l' : list Order.t,
    Forall2 R l l' ->
    find (fun o => N.eqb (Order.id o) id') l'
    = find (fun o => N.eqb (Order.id o) id') l.
Proof.
  intros HR Hne. induction 1 as [|o o' l l' Hoo _ IH]; [reflexivity|].
  cbn [find]. rewrite IH.
  destruct (HR o o' Hoo) as [->|[Eo Eo']]; [reflexivity|].
  rewrite Eo, Eo'. apply N.eqb_neq in Hne. rewrite N.eqb_sym in Hne.
  now rewrite Hne.
Qed.

Lemma update_leaves_the_rest (now : timestamptz) (id : uuid) (d : OrderData)
    (s : Store) :
  let s' := snd (try_catch
                   (bind (await (single (orders_update now id d)))
                         (fun data => ret (json 200 (success_data data)))) s) in
  restaurants s' = restaurants s
  /\ menu_items s' = menu_items s
  /\ order_items s' = order_items s
  /\ forall id', id' <> id -> stored_order s' id' = stored_order s id'.
Proof.
  cbn zeta. unfold try_catch, bind, await, single, throw.
  destruct (orders_update now id d s) as [e|[rows s']] eqn:H; cbn [and_then];
    [now repeat split|].
  destruct rows as [|row [|? ?]]; try now repeat split.
  destruct (orders_update_inv now id d s s' [row] H)
    as (Hr & Hm & Hi & _ & Htable).
  cbn [snd]. repeat split; try assumption.
  intros id' Hne. unfold stored_order.
  apply (find_other_Forall2 id id' _) with (3 := Htable); [|exact Hne].
  intros o o' [->|[Eo Hrow]]; [now left|].
  right. split; [exact Eo|].
  now rewrite (orders_update_row_id _ _ _ _ _ Hrow).
Qed.

(** X11: whatever is sent as its status, and whether it succeeds or fails,
    [PATCH /:id/status] leaves every order item, every restaurant and menu
    item, and every order under another id as it was: the update it sends
    names [status] alone. *)
Theorem status_change_touches_one_order (now : timestamptz) (id : uuid)
    (status : JsValue) (s : Store) :
  restaurants (snd (PATCH_id_status now id status s)) = restaurants s
  /\ menu_items (snd (PATCH_id_status now id status s)) = menu_items s
  /\ order_items (snd (PATCH_id_status now id status s)) = order_items s
  /\ forall id', id' <> id ->
       stored_order (snd (PATCH_id_status now id status s)) id'
       = stored_order s id'.
Proof.
  unfold PATCH_id_status.
  destruct (truthy status); cbn [negb]; [|now repeat split].
  exact (update_leaves_the_rest now id (only_status status) s).
Qed.

(** X21: [PUT /:id] with a body that names columns of the header only (not
    [id], [created_at] or [updated_at]) leaves every order item, every
    restaurant and menu item, and every order under another id as it was,
    whether it succeeds or fails. *)
Theorem update_touches_one_order (now : timestamptz) (id : uuid)
    (d : OrderData) (s : Store) :
  restaurants (snd (PUT_id now id d s)) = restaurants s
  /\ menu_items (snd (PUT_id now id d s)) = menu_items s
  /\ order_items (snd (PUT_id now id d s)) = order_items s
  /\ forall id', id' <> id ->
       stored_order (snd (PUT_id now id d s)) id' = stored_order s id'.
Proof.
  exact (update_leaves_the_rest now id d s).
Qed.

Lemma filter_filter_implied {A} (p q : A -> bool) (l : list A) :
  (forall x, In x l -> p x = true -> q x = true) ->
  filter p (filter q l) = filter p l.
Proof.
  intros H. induction l as [|x l IH]; cbn [filter]; [reflexivity|].
  assert (IH' : filter p (filter q l) = filter p l).
  { apply IH. intros y Hy. apply H. now right. }
  destruct (q x) eqn:Q; cbn [filter].
  - now rewrite IH'.
  - destruct (p x) eqn:P; [|exact IH'].
    rewrite (H x (or_introl eq_refl) P) in Q. discriminate.
Qed.

Lemma find_filter_implied {A} (p q : A -> bool) (l : list A) :
  (forall x, In x l -> p x = true -> q x = true) ->
  find p (filter q l) = find p l.
Proof.
  intros H. induction l as [|x l IH]; cbn [filter find]; [reflexivity|].
  assert (IH' : find p (filter q l) = find p l).
  { apply IH. intros y Hy. apply H. now right. }
  destruct (q x) eqn:Q; cbn [find].
  - now rewrite IH'.
  - destruct (p x) eqn:P; [|exact IH'].
    rewrite (H x (or_introl eq_refl) P) in Q. discriminate.
Qed.

(** X12: [DELETE /:id] leaves every order under another id, with all of its
    items, as it was, and touches no restaurant and no menu item. *)
Theorem delete_touches_one_order (id id' : uuid) (s : Store) :
  id' <> id ->
  stored_order (snd (DELETE_id id s)) id' = stored_order s id'
  /\ stored_items (snd (DELETE_id id s)) id' = stored_items s id'
  /\ restaurants (snd (DELETE_id id s)) = restaurants s
  /\ menu_items (snd (DELETE_id id s)) = menu_items s.
Proof.
  intros Hne. cbn. repeat split.
  - unfold stored_order. cbn [orders]. apply find_filter_implied.
    intros o _ E. apply N.eqb_eq in E. rewrite E.
    apply negb_true_iff. now apply N.eqb_neq.
  - unfold stored_items. cbn [order_items]. apply filter_filter_implied.
    intros i _ E. apply N.eqb_eq in E. rewrite E.
    apply negb_true_iff. rewrite existsb_filter.
    match goal with |- ?b = false => destruct b eqn:Ex; [|reflexivity] end.
    apply existsb_exists in Ex as [o [_ Eo]]. apply andb_prop in Eo as [E1 E2].
    apply N.eqb_eq in E1, E2. congruence.
Qed.

Lemma delete_touches_one_order_of_two :
  stored_order (snd (DELETE_id 99 Sample.one_order)) 3 = Some Sample.johns_order
  /\ stored_items (snd (DELETE_id 99 Sample.one_order)) 3 = [Sample.johns_pizzas].
Proof.
  destruct (delete_touches_one_order 99 3 Sample.one_order) as (Ho & Hi & _).
  - discriminate.
  - split; [exact Ho|exact Hi].
Defined.

(** X13: [DELETE /:id] twice is [DELETE /:id] once: the second request
    answers the same success and leaves the store as the first left it. *)
Theorem delete_twice_is_delete_once (id : uuid) (s : Store) :
  DELETE_id id (snd (DELETE_id id s))
  = (fst (DELETE_id id s), snd (DELETE_id id s)).
Proof.
  unfold DELETE_id, try_catch, bind, await, orders_delete, ret. cbn.
  assert (Hnone : filter (fun o => N.eqb (Order.id o) id)
                         (filter (fun o => negb (N.eqb (Order.id o) id)) (orders s))
                  = []).
  { apply filter_none. intros o _ E. now rewrite E. }
  rewrite Hnone. cbn [existsb negb]. f_equal. f_equal.
  - apply filter_all. intros o Ho. now apply filter_In in Ho.
  - apply filter_all. reflexivity.
Qed.

(** ** Writes and the statistics *)

Lemma count_snoc (v : string) (l : list Order.t) (o : Order.t) :
  List.length (filter (status_is v) (l ++ [o]))
  = (List.length (filter (status_is v) l) + one_if (status_is v o))%nat.
Proof.
  rewrite filter_app, length_app. cbn [filter].
  now destruct (status_is v o).
Qed.

(** Under the primary key, replacing the row of an id moves one order from
    the count of its old status to the count of its new one. *)
Lemma count_replace (v : string) (id : uuid) (row : Order.t) :
  forall (l : list Order.t) (o : Order.t),
    distinct (map Order.id l) = true ->
    In o l -> Order.id o = id ->
    (List.length (filter (status_is v) (replace_order id row l))
     + one_if (status_is v o)
     = List.length (filter (status_is v) l) + one_if (status_is v row))%nat.
Proof.
  induction l as [|a l IH]; intros o Hd Hin Hid; [contradiction|].
  cbn [map distinct] in Hd. apply andb_prop in Hd as [Ha Hd].
  apply negb_true_iff in Ha. rewrite existsb_id_map in Ha.
  unfold replace_order in *. cbn [map filter].
  destruct Hin as [->|Hin].
  - rewrite Hid, N.eqb_refl. rewrite Hid in Ha.
    fold (replace_order id row l). rewrite (replace_order_absent id row l Ha).
    destruct (status_is v row), (status_is v o); cbn [List.length one_if]; lia.
  - assert (E : N.eqb (Order.id a) id = false).
    { destruct (N.eqb (Order.id a) id) eqn:E; [|reflexivity].
      apply N.eqb_eq in E. rewrite E in Ha.
      rewrite (proj2 (existsb_exists _ _)) in Ha; [discriminate|].
      exists o. split; [exact Hin|]. now apply N.eqb_eq. }
    rewrite E. specialize (IH o Hd Hin Hid).
    destruct (status_is v a); cbn [List.length]; lia.
Qed.

(** Under the primary key, deleting the row of an id takes one order out of
    the table and out of the count of its status. *)
Lemma count_delete (p : Order.t -> bool) (id : uuid) :
  forall (l : list Order.t) (o : Order.t),
    distinct (map Order.id l) = true ->
    In o l -> Order.id o = id ->
    (List.length (filter p (filter (fun x => negb (N.eqb (Order.id x) id)) l))
     + one_if (p o)
     = List.length (filter p l))%nat.
Proof.
  induction l as [|a l IH]; intros o Hd Hin Hid; [contradiction|].
  cbn [map distinct] in Hd. apply andb_prop in Hd as [Ha Hd].
  apply negb_true_iff in Ha. rewrite existsb_id_map in Ha.
  cbn [filter].
  destruct Hin as [->|Hin].
  - rewrite Hid, N.eqb_refl. cbn [negb]. rewrite Hid in Ha.
    rewrite (filter_all (fun x => negb (N.eqb (Order.id x) id)) l).
    + destruct (p o); cbn [List.length one_if]; lia.
    + intros x Hx. apply negb_true_iff.
      destruct (N.eqb (Order.id x) id) eqn:E; [|reflexivity].
      rewrite (proj2 (existsb_exists _ _)) in Ha; [discriminate|].
      now exists x.
  - assert (E : N.eqb (Order.id a) id = false).
    { destruct (N.eqb (Order.id a) id) eqn:E; [|reflexivity].
      apply N.eqb_eq in E. rewrite E in Ha.
      rewrite (proj2 (existsb_exists _ _)) in Ha; [discriminate|].
      exists o. split; [exact Hin|]. now apply N.eqb_eq. }
    rewrite E. cbn [negb filter]. specialize (IH o Hd Hin Hid).
    destruct (p a); cbn [List.length]; lia.
Qed.

(** X14: an order created without a status counts as pending: after an
    accepted [POST /] whose body names no status, [GET /stats/summary]
    reports one order more and one pending order more, and every other count
    and the revenue as before. *)
Theorem new_order_counts_as_pending (now : timestamptz) (d : OrderData)
    (items : option (list ItemData)) (s : Store) :
  d_status d = Absent ->
  columns_ok (insert_columns d) = true ->
  references_ok s (insert_columns d) = true ->
  forallb item_ok (items_of items) = true ->
  forallb (item_references_menu s) (items_of items) = true ->
  stats (orders (snd (POST now d items s)))
  = {| total_orders := S (total_orders (stats (orders s)));
       pending := S (pending (stats (orders s)));
       preparing := preparing (stats (orders s));
       delivered := delivered (stats (orders s));
       cancelled := cancelled (stats (orders s));
       total_revenue := total_revenue (stats (orders s)) |}.
Proof.
  intros Hst Hc Hr Hi Hm.
  destruct (POST_accepts now d items s Hc Hr Hi Hm)
    as (created & rows & s' & Hpost & _ & _ & Horders & _ & _ & _ & _
        & Hcols & _).
  rewrite Hpost. cbn [snd]. rewrite Horders.
  assert (Hstatus : Order.status created = Some "pending"%string).
  { apply (f_equal c_status) in Hcols. cbn in Hcols. now rewrite Hst in Hcols. }
  assert (Hcount : forall v,
             List.length (filter (status_is v) (orders s ++ [created]))
             = (List.length (filter (status_is v) (orders s))
                + one_if (String.eqb "pending" v))%nat).
  { intros v. rewrite count_snoc. do 2 f_equal.
    unfold status_is. now rewrite Hstatus. }
  pose proof (total_revenue_snoc (orders s) created) as Hrev.
  rewrite Hstatus in Hrev.
  destruct (status_eq_dec (Some "pending"%string) (Some "delivered"%string))
    as [E|_]; [discriminate E|].
  unfold stats in *. cbn [total_revenue] in Hrev. rewrite Hrev, !Hcount.
  rewrite length_app. cbn [List.length one_if String.eqb Ascii.eqb Bool.eqb].
  cbn [total_orders pending preparing delivered cancelled total_revenue].
  f_equal; lia.
Qed.

Lemma johns_order_counts_as_pending :
  stats (orders (snd (POST 7 Sample.john_doe (Some [Sample.pizzas 2 2])
                           Sample.no_orders)))
  = {| total_orders := 1; pending := 1; preparing := 0; delivered := 0;
       cancelled := 0; total_revenue := PrimFloat.zero |}.
Proof.
  exact (new_order_counts_as_pending 7 Sample.john_doe (Some [Sample.pizzas 2 2])
           Sample.no_orders eq_refl eq_refl eq_refl eq_refl eq_refl).
Defined.

(** X15: an accepted change of status moves one order from the count of its
    old status to the count of the new one and leaves [total_orders] as it
    was: for each status [v], the orders carrying [v] afterwards, plus one if
    the order carried [v], are the orders carrying [v] before, plus one if
    [v] is the new status. *)
Theorem status_change_moves_one_count (now : timestamptz) (id : uuid)
    (t : string) (s : Store) (o : Order.t) :
  well_formed s = true ->
  stored_order s id = Some o ->
  columns_ok (row_columns o) = true ->
  In t status_values ->
  total_orders (stats (orders (snd (PATCH_id_status now id (JsString t) s))))
  = total_orders (stats (orders s))
  /\ forall v,
       (List.length (filter (status_is v)
                       (orders (snd (PATCH_id_status now id (JsString t) s))))
        + one_if (status_is v o)
        = List.length (filter (status_is v) (orders s))
          + one_if (String.eqb t v))%nat.
Proof.
  intros Hwf Hfind Hok Ht.
  assert (Hpatch : orders (snd (PATCH_id_status now id (JsString t) s))
                   = replace_order id (with_status o t now) (orders s)).
  { apply stored_order_In in Hfind as Hin. destruct Hin as [Hin Hid].
    assert (Hne : truthy (JsString t) = true).
    { cbn in Ht. decompose [or] Ht; subst; try reflexivity; contradiction. }
    unfold PATCH_id_status. rewrite Hne. cbn [negb].
    unfold try_catch, bind, await, single, orders_update.
    cbn [names_no_column only_status text_of d_restaurant_id d_customer_name
         d_customer_phone d_customer_address d_status d_total_amount
         d_delivery_fee d_payment_method d_payment_status d_notes].
    fold (only_status (JsString t)).
    rewrite (orders_update_rows_one s now id (only_status (JsString t))
               (with_status o t now) (orders s) o (well_formed_distinct s Hwf)
               Hin Hid (orders_update_row_status s now t o Hok Ht)).
    reflexivity. }
  rewrite Hpatch. split.
  - unfold stats, replace_order. cbn [total_orders]. apply length_map.
  - intros v. apply stored_order_In in Hfind as [Hin Hid].
    rewrite (count_replace v id (with_status o t now) (orders s) o
               (well_formed_distinct s Hwf) Hin Hid).
    reflexivity.
Qed.

Lemma johns_delivery_moves_one_count :
  delivered (stats (orders (snd (PATCH_id_status 9 3 (JsString "delivered")
                                                 Sample.one_order))))
  = 1%nat
  /\ pending (stats (orders (snd (PATCH_id_status 9 3 (JsString "delivered")
                                                  Sample.one_order))))
     = 0%nat.
Proof.
  destruct (status_change_moves_one_count 9 3 "delivered" Sample.one_order
              Sample.johns_order) as [_ Hcount]; try reflexivity.
  { cbn. tauto. }
  pose proof (Hcount "delivered"%string) as Hd.
  pose proof (Hcount "pending"%string) as Hp.
  cbn [one_if] in Hd, Hp. unfold stats. cbn [delivered pending].
  split.
  - rewrite Nat.add_0_r in Hd. exact Hd.
  - apply (Nat.add_cancel_r _ _ 1). exact Hp.
Defined.

(** X16: deleting a stored order takes one order out of [total_orders] and
    one out of the count of the status it carried, and leaves every other
    count as it was. *)
Theorem delete_takes_one_count (id : uuid) (s : Store) (o : Order.t) :
  well_formed s = true ->
  stored_order s id = Some o ->
  (total_orders (stats (orders (snd (DELETE_id id s)))) + 1
   = total_orders (stats (orders s)))%nat
  /\ forall v,
       (List.length (filter (status_is v) (orders (snd (DELETE_id id s))))
        + one_if (status_is v o)
        = List.length (filter (status_is v) (orders s)))%nat.
Proof.
  intros Hwf Hfind. apply stored_order_In in Hfind as [Hin Hid].
  pose proof (well_formed_distinct s Hwf) as Hd.
  cbn [DELETE_id snd]. cbn. split.
  - pose proof (count_delete (fun _ => true) id (orders s) o Hd Hin Hid) as H.
    rewrite (filter_all (fun _ => true)) in H by reflexivity.
    rewrite (filter_all (fun _ => true)) in H by reflexivity. exact H.
  - intros v. exact (count_delete (status_is v) id (orders s) o Hd Hin Hid).
Qed.

Lemma delete_takes_johns_count :
  total_orders (stats (orders (snd (DELETE_id 3 Sample.one_order)))) = 0%nat
  /\ pending (stats (orders (snd (DELETE_id 3 Sample.one_order)))) = 0%nat.
Proof.
  destruct (delete_takes_one_count 3 Sample.one_order Sample.johns_order
              eq_refl eq_refl) as [Htotal Hcount].
  pose proof (Hcount "pending"%string) as Hp.
  unfold stats in *. cbn [total_orders pending] in *.
  split.
  - apply (Nat.add_cancel_r _ _ 1). exact Htotal.
  - apply (Nat.add_cancel_r _ _ 1). exact Hp.
Defined.

(** X17: creating an order and deleting it again gives back the tables:
    after an accepted [POST /] and a [DELETE /:id] of the id it answered,
    restaurants, menu items, orders and order items are what they were. *)
Theorem create_then_delete (now : timestamptz) (d : OrderData)
    (items : option (list ItemData)) (s : Store) :
  well_formed s = true ->
  columns_ok (insert_columns d) = true ->
  references_ok s (insert_columns d) = true ->
  forallb item_ok (items_of items) = true ->
  forallb (item_references_menu s) (items_of items) = true ->
  exists created s',
    POST now d items s = (json 201 (success_data created), s')
    /\ fst (DELETE_id (Order.id created) s')
       = json 200 (success_message "Order deleted successfully")
    /\ restaurants (snd (DELETE_id (Order.id created) s')) = restaurants s
    /\ menu_items (snd (DELETE_id (Order.id created) s')) = menu_items s
    /\ orders (snd (DELETE_id (Order.id created) s')) = orders s
    /\ order_items (snd (DELETE_id (Order.id created) s')) = order_items s.
Proof.
  intros Hwf Hc Hr Hi Hm.
  destruct (POST_accepts now d items s Hc Hr Hi Hm)
    as (created & rows & s' & Hpost & Hrest & Hmenu & Horders & Hitems & Hid
        & _ & _ & _ & _ & Hall).
  exists created, s'. split; [exact Hpost|]. split; [reflexivity|].
  cbn [DELETE_id snd]. cbn.
  pose proof (well_formed_fresh_order s Hwf) as Hfo.
  pose proof (well_formed_fresh_items s Hwf) as Hfi.
  rewrite <- Hid in Hfo, Hfi.
  assert (Hkeep : filter (fun o => negb (N.eqb (Order.id o) (Order.id created)))
                         (orders s') = orders s).
  { rewrite Horders, filter_app. cbn [filter]. rewrite N.eqb_refl. cbn [negb].
    rewrite app_nil_r. apply filter_all. intros o Ho. apply negb_true_iff.
    destruct (N.eqb (Order.id o) (Order.id created)) eqn:E; [|reflexivity].
    rewrite (proj2 (existsb_exists _ _)) in Hfo; [discriminate|]. now exists o. }
  assert (Hdeleted : filter (fun o => N.eqb (Order.id o) (Order.id created))
                            (orders s') = [created]).
  { rewrite Horders, filter_app, (filter_nothing _ _ Hfo). cbn [filter app].
    now rewrite N.eqb_refl. }
  repeat split; try assumption.
  rewrite Hdeleted, Hitems, filter_app. cbn [existsb].
  rewrite (filter_all _ (order_items s)).
  - rewrite (filter_nothing (fun i => negb _) rows); [apply app_nil_r|].
    match goal with |- ?b = false => destruct b eqn:E; [|reflexivity] end.
    apply existsb_exists in E as [r [Hin E]].
    rewrite Forall_forall in Hall. destruct (Hall r Hin) as [E' _].
    rewrite E', N.eqb_refl in E. discriminate.
  - intros i Hin. rewrite orb_false_r. apply negb_true_iff.
    destruct (N.eqb (Order.id created) (OrderItem.order_id i)) eqn:E;
      [|reflexivity].
    rewrite (proj2 (existsb_exists _ _)) in Hfi; [discriminate|].
    exists i. split; [exact Hin|]. now rewrite N.eqb_sym.
Qed.

Lemma create_then_delete_for_john :
  exists created s',
    POST 7 Sample.john_doe (Some [Sample.pizzas 2 2]) Sample.no_orders
    = (json 201 (success_data created), s')
    /\ orders (snd (DELETE_id (Order.id created) s')) = []
    /\ order_items (snd (DELETE_id (Order.id created) s')) = [].
Proof.
  destruct (create_then_delete 7 Sample.john_doe (Some [Sample.pizzas 2 2])
              Sample.no_orders)
    as (created & s' & Hpost & _ & _ & _ & Ho & Hi); try reflexivity.
  exists created, s'. split; [exact Hpost|]. split; [exact Ho|exact Hi].
Defined.

(** ** The counts of the summary *)

(** X20: [GET /stats/summary] answers every store, without writing:
    [total_orders] is the number of stored orders, each of the four counts
    is the number of stored orders that carry that status, and on a store
    with no delivered order, so on the empty store, [total_revenue] is 0. *)
Theorem summary_counts (s : Store) :
  exists st,
    GET_stats_summary s = (json 200 (success_data st), s)
    /\ total_orders st = List.length (orders s)
    /\ pending st = count_status "pending" (orders s)
    /\ preparing st = count_status "preparing" (orders s)
    /\ delivered st = count_status "delivered" (orders s)
    /\ cancelled st = count_status "cancelled" (orders s)
    /\ (count_status "delivered" (orders s) = 0%nat ->
        total_revenue st = PrimFloat.zero).
Proof.
  exists (stats (orders s)). split; [reflexivity|].
  unfold stats, count_status;
    cbn [total_orders pending preparing delivered cancelled total_revenue].
  repeat split; try apply filter_status_count.
  rewrite <- filter_status_count. intros H.
  apply length_zero_iff_nil in H. now rewrite H.
Qed.

Lemma summary_counts_of_johns_store :
  fst (GET_stats_summary Sample.one_order)
  = json 200 (success_data
                {| total_orders := 1; pending := 1; preparing := 0;
                   delivered := 0; cancelled := 0;
                   total_revenue := PrimFloat.zero |}).
Proof.
  destruct (summary_counts Sample.one_order)
    as (st & Hget & Ht & Hp & Hpr & Hd & Hc & Hrev).
  specialize (Hrev eq_refl).
  rewrite Hget. destruct st as [t p pr d c rev].
  cbn [total_orders pending preparing delivered cancelled total_revenue] in *.
  subst. reflexivity.
Defined.

(** ** A header that is refused *)

(** X18: when the header of a [POST /] is outside the constraints of
    [orders], or references no stored restaurant, the request fails, the
    items are not looked at and the store stays as it was; a header within
    the constraints whose restaurant is not stored is refused with the
    violation of the foreign key. *)
Theorem refused_header_stores_nothing (now : timestamptz) (d : OrderData)
    (items : option (list ItemData)) (s : Store) :
  columns_ok (insert_columns d) && references_ok s (insert_columns d) = false ->
  exists e,
    POST now d items s = (next e, s)
    /\ (columns_ok (insert_columns d) = true ->
        e = foreign_key_violation "orders_restaurant_id_fkey").
Proof.
  intros H. unfold POST, try_catch, bind, await, single, orders_insert.
  destruct (orders_row (uuid_supply s) now now (insert_columns d))
    as [e|row] eqn:Hrow; cbn [and_then throw].
  - exists e. split; [reflexivity|]. intros Hc.
    destruct (orders_row_ok (uuid_supply s) now now _ Hc) as [r [Hr _]].
    congruence.
  - destruct (orders_row_columns _ _ _ _ _ Hrow) as [Hcols [Hc _]].
    rewrite Hc in H. cbn [andb] in H. unfold references_ok in H.
    rewrite <- Hcols in H. cbn [row_columns c_restaurant_id] in H.
    rewrite H. cbn [check and_then].
    eexists. split; [reflexivity|]. intros _. reflexivity.
Qed.

Lemma refused_header_of_unknown_restaurant :
  POST 7 (Sample.for_restaurant 99) (Some [Sample.pizzas 2 2]) Sample.no_orders
  = (next (foreign_key_violation "orders_restaurant_id_fkey"), Sample.no_orders).
Proof.
  destruct (refused_header_stores_nothing 7 (Sample.for_restaurant 99)
              (Some [Sample.pizzas 2 2]) Sample.no_orders eq_refl)
    as [e [Hpost He]].
  rewrite Hpost, (He eq_refl). reflexivity.
Defined.

(** ** Orders without one of the four statuses *)

(** X19: for every list of orders, the four counts of the statistics and
    the orders that carry none of the four statuses (a [NULL] status, on a
    store within its constraints) add up to [total_orders]: no order is
    counted twice, and an order without a status is counted in the total
    only. *)
Theorem counts_and_the_rest (l : list Order.t) :
  (pending (stats l) + preparing (stats l) + delivered (stats l)
   + cancelled (stats l) + List.length (filter without_status l)
   = total_orders (stats l))%nat.
Proof.
  unfold stats; cbn [total_orders pending preparing delivered cancelled].
  induction l as [|o l IH]; [reflexivity|].
  cbn [filter]. unfold without_status at 1.
  cbn [existsb status_values].
  destruct (status_is "pending" o) eqn:E1, (status_is "preparing" o) eqn:E2,
           (status_is "delivered" o) eqn:E3, (status_is "cancelled" o) eqn:E4;
    repeat match goal with
           | H : status_is _ _ = true |- _ => apply status_is_true in H
           | H : status_is _ _ = false |- _ => apply status_is_false in H
           end;
    try congruence; cbn [orb negb List.length]; lia.
Qed.

(** X3: listing with a status that is not one of the four is no error: on a
    store within its constraints [GET /] answers the empty list. *)
Theorem unknown_status_lists_nothing (v : string) (restaurant_id : option uuid)
    (s : Store) :
  constraints_hold s = true ->
  v <> ""%string ->
  ~ In v status_values ->
  GET (Some v) restaurant_id s = (json 200 (success_data []), s).
Proof.
  intros Hc Hne Hv. rewrite GET_answer.
  rewrite (filter_nothing (matches (Some v) restaurant_id) (orders s));
    [reflexivity|].
  match goal with |- ?b = false => destruct b eqn:E; [|reflexivity] end.
  exfalso. apply existsb_exists in E as [o [Hin E]].
  apply matches_spec in E as [Hs _].
  assert (Hg : given (Some v) = true).
  { cbn. apply negb_true_iff. now apply String.eqb_neq. }
  specialize (Hs Hg).
  unfold constraints_hold in Hc. apply andb_prop in Hc as [Hc _].
  rewrite forallb_forall in Hc. specialize (Hc o Hin).
  unfold columns_ok, row_columns in Hc. cbn -[is_in fits_numeric_10_2 Z.pow] in Hc.
  repeat (apply andb_prop in Hc as [Hc ?]).
  match goal with
  | H : is_in status_values (Order.status o) = true |- _ =>
      rewrite Hs in H; apply existsb_exists in H as [x [Hx Ex]]
  end.
  apply String.eqb_eq in Ex. subst x. contradiction.
Qed.

Lemma shipped_lists_nothing :
  GET (Some "shipped"%string) None Sample.one_order
  = (json 200 (success_data []), Sample.one_order).
Proof.
  apply unknown_status_lists_nothing; [reflexivity|discriminate|].
  cbn. intros H. decompose [or] H; discriminate || assumption.
Defined.

(** ** Keys *)

(** X4: every handler of [orders.js], and [DELETE /:id] of [menu.js],
    keeps the store well formed: no two orders share an id, and every order
    item references a stored order (a deleted order takes its items with
    it). *)
Theorem handlers_keep_the_keys (s : Store) :
  well_formed s = true ->
  (forall now d items, well_formed (snd (POST now d items s)) = true)
  /\ (forall now id d, well_formed (snd (PUT_id now id d s)) = true)
  /\ (forall now id status,
        well_formed (snd (PATCH_id_status now id status s)) = true)
  /\ (forall id, well_formed (snd (DELETE_id id s)) = true)
  /\ (forall id, well_formed (snd (MenuRouter.DELETE_id id s)) = true).
Proof.
  intros Hwf.
  destruct (handlers_keep_well_formed s Hwf) as (H1 & H2 & H3 & H4 & _).
  repeat split; try assumption.
  intros id. rewrite menu_DELETE_id_cases. cbn zeta.
  destruct (existsb _ (menu_items s)); [exact Hwf|].
  now apply (well_formed_ids s).
Qed.

Lemma handlers_keep_the_keys_of_johns_store :
  well_formed Sample.one_order = true
  /\ well_formed (snd (POST 9 Sample.john_doe (Some [Sample.pizzas 2 1])
                            Sample.one_order)) = true
  /\ well_formed (snd (DELETE_id 3 Sample.one_order)) = true.
Proof.
  split; [reflexivity|].
  destruct (handlers_keep_the_keys Sample.one_order eq_refl)
    as (Hpost & _ & _ & Hdelete & _).
  split; [apply Hpost|apply Hdelete].
Defined.
